(** * ollama-mcp-agent: the raw-terminal input handler, the tool-calling
      agent and the cancellable turn runner

    A shallow embedding of [RawInputHandler] and the submit callback of
    [runCLI] (cli.ts), of [Agent] (agent.ts), of [MCPClientManager.callTool]
    (mcp-client.ts) and of [OllamaClient.chat] (ollama-client.ts), followed by
    the properties of the specification that concern them.

    Conventions of the embedding:
    - a JavaScript string is the sequence of its UTF-16 code units; the model
      covers the strings whose code units are below 256, one [ascii] each
      (every key code the handler tests for is below 128, and any larger code
      unit takes the same branches as a code in 128..255);
    - a JavaScript number that the code itself produces by counting (a
      length, an index, [toolCallCount]) is a [Z]: such a count is exact
      below 2^53; a number that is read from outside ([maxToolCalls], which
      [loadConfig] takes from [config.json] without validating it) is a
      [JS.number], which may be fractional, infinite or NaN;
    - terminal writes ([process.stdout.write], [console.log], chalk colours)
      change no program state and are left out; wall-clock values
      ([timestamp], [sessionStart], the elapsed seconds) are left out too. *)

From Stdlib Require Import ZArith List String Ascii Bool Lia.
Import ListNotations.

Local Open Scope string_scope.
Local Open Scope Z_scope.

(* ------------------------------------------------------------------------ *)
(** ** JavaScript string primitives used by the sources                     *)
(* ------------------------------------------------------------------------ *)

Module JS.

(** [s.length] *)
Definition length (s : string) : Z := Z.of_nat (String.length s).

(** [s.charCodeAt(0)]: [None] stands for NaN, the result on the empty
    string; every comparison with NaN is false. *)
Definition charCodeAt0 (s : string) : option Z :=
  match s with
  | EmptyString => None
  | String c _ => Some (Z.of_nat (nat_of_ascii c))
  end.

(** [code === n] *)
Definition code_is (code : option Z) (n : Z) : bool :=
  match code with
  | Some c => c =? n
  | None => false
  end.

(** [code >= lo && code < hi] *)
Definition code_in (code : option Z) (lo hi : Z) : bool :=
  match code with
  | Some c => (lo <=? c) && (c <? hi)
  | None => false
  end.

(** White space of ECMAScript [trim] among the code units below 256:
    TAB, LF, VT, FF, CR, SP and NBSP. *)
Definition isWhiteSpace (c : ascii) : bool :=
  let n := nat_of_ascii c in
  (Nat.eqb n 9 || Nat.eqb n 10 || Nat.eqb n 11 || Nat.eqb n 12
   || Nat.eqb n 13 || Nat.eqb n 32 || Nat.eqb n 160)%bool.

Fixpoint trimStart (s : string) : string :=
  match s with
  | EmptyString => EmptyString
  | String c rest => if isWhiteSpace c then trimStart rest else s
  end.

Fixpoint trimEnd (s : string) : string :=
  match s with
  | EmptyString => EmptyString
  | String c rest =>
      match trimEnd rest with
      | EmptyString => if isWhiteSpace c then EmptyString else String c EmptyString
      | rest' => String c rest'
      end
  end.

(** [s.trim()] *)
Definition trim (s : string) : string := trimEnd (trimStart s).

(** [s.slice(0, -1)] *)
Fixpoint dropLast (s : string) : string :=
  match s with
  | EmptyString => EmptyString
  | String c EmptyString => EmptyString
  | String c rest => String c (dropLast rest)
  end.

(** Truthiness of a string: [if (s)] *)
Definition truthy (s : string) : bool :=
  match s with
  | EmptyString => false
  | _ => true
  end.

(** [s || d] on strings *)
Definition or_else (s d : string) : string := if truthy s then s else d.

(** [c.toLowerCase()] on the ASCII letters *)
Definition lowerChar (c : ascii) : ascii :=
  let n := nat_of_ascii c in
  if (Nat.leb 65 n && Nat.leb n 90)%bool then ascii_of_nat (n + 32) else c.

Fixpoint toLowerCase (s : string) : string :=
  match s with
  | EmptyString => EmptyString
  | String c rest => String (lowerChar c) (toLowerCase rest)
  end.

(** [s.startsWith(p)] *)
Fixpoint startsWith (s p : string) : bool :=
  match p, s with
  | EmptyString, _ => true
  | String a p', String b s' => (Ascii.eqb a b && startsWith s' p')%bool
  | String _ _, EmptyString => false
  end.

(** [l.join(sep)] *)
Definition join (sep : string) (l : list string) : string := String.concat sep l.

(** A one-character string from its code. *)
Definition chr (n : nat) : string := String (ascii_of_nat n) EmptyString.

(** A JavaScript [number] that comes from outside the program.  A finite
    number is kept as a fraction [numerator / denominator] (every finite
    double is one: 1.5 is [Finite 3 2]); [JSON.parse] gives [Infinity] for a
    literal out of range such as [1e999]. *)
Inductive number : Type :=
| Finite (numerator : Z) (denominator : positive)
| PosInfinity
| NegInfinity
| NaN.

(** The number with the integer value [z]. *)
Definition of_Z (z : Z) : number := Finite z 1.

(** [i < n] for an integer [i]: every comparison with NaN is false. *)
Definition int_lt (i : Z) (n : number) : bool :=
  match n with
  | Finite p q => i * Z.pos q <? p
  | PosInfinity => true
  | NegInfinity | NaN => false
  end.

(** [n === z] for an integer [z]. *)
Definition is_int (n : number) (z : Z) : Prop :=
  match n with
  | Finite p q => p = z * Z.pos q
  | PosInfinity | NegInfinity | NaN => False
  end.

(** [Math.ceil] of the fraction [p / q]. *)
Definition ceiling (p : Z) (q : positive) : Z := - ((- p) / Z.pos q).

(** [d <= n - 1 + k] for integers [d] and [k]. *)
Definition le_pred_plus (d : Z) (n : number) (k : Z) : Prop :=
  match n with
  | Finite p q => d * Z.pos q <= p - Z.pos q + k * Z.pos q
  | PosInfinity => True
  | NegInfinity | NaN => False
  end.

End JS.

(* ------------------------------------------------------------------------ *)
(** ** ollama-client.ts: thinking-capable model names                       *)
(* ------------------------------------------------------------------------ *)

Definition THINKING_CAPABLE_PREFIXES : list string :=
  ["qwen3"; "deepseek-r1"; "magistral"; "qwq"; "cogito"].

Definition isThinkingCapable (modelName : string) : bool :=
  let lowerName := JS.toLowerCase modelName in
  existsb (fun prefix => JS.startsWith lowerName prefix) THINKING_CAPABLE_PREFIXES.

(* ------------------------------------------------------------------------ *)
(** ** cli.ts: [InputState] and [RawInputHandler]                           *)
(* ------------------------------------------------------------------------ *)

Module Input.

(** [panelVisible: "shortcuts" | "commands" | null]; [None] is [null]. *)
Inductive Panel : Type := shortcuts | commands.

Record InputState : Type := mkInputState {
  buffer : string;
  cursorPos : Z;
  history : list string;
  historyIndex : Z;
  thinkingEnabled : bool;
  modelSupportsThinking : bool;
  panelVisible : option Panel;
  waiting : bool
}.

(** What a call of [handleKey] asks of its two callbacks. *)
Inductive Action : Type :=
| Exit                      (* [this.onExit()] *)
| Submit (input : string).  (* [await this.onSubmit(input)] *)

(** Field updates, one per assignment form of the source. *)
Definition set_buffer (s : InputState) (b : string) (pos : Z) : InputState :=
  mkInputState b pos (history s) (historyIndex s) (thinkingEnabled s)
               (modelSupportsThinking s) (panelVisible s) (waiting s).

Definition set_panel (s : InputState) (p : option Panel) : InputState :=
  mkInputState (buffer s) (cursorPos s) (history s) (historyIndex s)
               (thinkingEnabled s) (modelSupportsThinking s) p (waiting s).

Definition set_thinking (s : InputState) (enabled supported : bool) : InputState :=
  mkInputState (buffer s) (cursorPos s) (history s) (historyIndex s)
               enabled supported (panelVisible s) (waiting s).

Definition set_history (s : InputState) (h : list string) (i : Z) : InputState :=
  mkInputState (buffer s) (cursorPos s) h i (thinkingEnabled s)
               (modelSupportsThinking s) (panelVisible s) (waiting s).

Definition set_historyIndex (s : InputState) (i : Z) : InputState :=
  set_history s (history s) i.

(** [new RawInputHandler(modelSupportsThinking, onSubmit, onExit)] *)
Definition constructor (supportsThinking : bool) : InputState :=
  {| buffer := "";
     cursorPos := 0;
     history := [];
     historyIndex := -1;
     thinkingEnabled := true;
     modelSupportsThinking := supportsThinking;
     panelVisible := None;
     waiting := false |}.

(** [setWaiting(waiting)] *)
Definition setWaiting (s : InputState) (w : bool) : InputState :=
  mkInputState (buffer s) (cursorPos s) (history s) (historyIndex s)
               (thinkingEnabled s) (modelSupportsThinking s) (panelVisible s) w.

(** [updateModel(modelName)] *)
Definition updateModel (s : InputState) (modelName : string) : InputState :=
  let supported := isThinkingCapable modelName in
  set_thinking s (if supported then thinkingEnabled s else false) supported.

(** [this.state.history[i] || ""]: an index outside the array (or a
    negative one) reads [undefined]. *)
Definition history_at (h : list string) (i : Z) : string :=
  if i <? 0 then ""
  else match nth_error h (Z.to_nat i) with
       | Some entry => entry
       | None => ""
       end.

Definition key_up : string := JS.chr 27 ++ "[A".
Definition key_down : string := JS.chr 27 ++ "[B".
Definition key_enter : string := JS.chr 13.
Definition key_escape : string := JS.chr 27.
Definition key_backspace : string := JS.chr 127.
Definition key_tab : string := JS.chr 9.

(** How a block of [handleKey] ends: with [return], or by running on to
    the statements below it. *)
Inductive Flow : Type :=
| Return (s : InputState)
| Continue (s : InputState).

(** The block guarded by [panelVisible === "shortcuts"]. *)
Definition shortcuts_block (s : InputState) (code : option Z) : Flow :=
  match panelVisible s with
  | Some shortcuts =>
      let s := set_panel s None in
      if (JS.code_is code 127 || JS.code_is code 8 || JS.code_is code 27)%bool
      then Return s
      else Continue s
  | _ => Continue s
  end.

(** The block guarded by [panelVisible === "commands"]. *)
Definition commands_block (s : InputState) (key : string) (code : option Z) : Flow :=
  match panelVisible s with
  | Some commands =>
      if JS.code_is code 27 then
        Return (set_buffer (set_panel s None) "" 0)
      else if (JS.code_is code 127 || JS.code_is code 8)%bool then
        if JS.length (buffer s) <=? 1 then
          Return (set_buffer (set_panel s None) "" 0)
        else
          let b := JS.dropLast (buffer s) in
          Return (set_buffer s b (JS.length b))
      else if JS.code_is code 13 then
        Continue (set_panel s None)
      else if JS.code_in code 32 127 then
        let b := buffer s ++ key in
        Return (set_buffer s b (JS.length b))
      else
        Return s
  | _ => Continue s
  end.

(** The statements of [handleKey] below the two panel blocks. *)
Definition main_block (s : InputState) (key : string) (code : option Z)
  : InputState * list Action :=
  (* Tab - toggle thinking *)
  if (JS.code_is code 9 && modelSupportsThinking s)%bool then
    (set_thinking s (negb (thinkingEnabled s)) (modelSupportsThinking s), [])
  (* Enter - submit *)
  else if JS.code_is code 13 then
    let input := JS.trim (buffer s) in
    let s := if JS.truthy input
             then let h := (history s ++ [input])%list in
                  set_history s h (Z.of_nat (List.length h))
             else s in
    let s := set_buffer s "" 0 in
    (s, if JS.truthy input then [Submit input] else [])
  (* Backspace (when no panel) *)
  else if (JS.code_is code 127 || JS.code_is code 8)%bool then
    if 0 <? JS.length (buffer s) then
      let b := JS.dropLast (buffer s) in
      (set_buffer s b (JS.length b), [])
    else (s, [])
  (* Up arrow *)
  else if String.eqb key key_up then
    if 0 <? historyIndex s then
      let i := historyIndex s - 1 in
      let b := history_at (history s) i in
      (set_buffer (set_historyIndex s i) b (JS.length b), [])
    else (s, [])
  (* Down arrow *)
  else if String.eqb key key_down then
    if historyIndex s <? Z.of_nat (List.length (history s)) - 1 then
      let i := historyIndex s + 1 in
      let b := history_at (history s) i in
      (set_buffer (set_historyIndex s i) b (JS.length b), [])
    else
      (set_buffer (set_historyIndex s (Z.of_nat (List.length (history s)))) "" (JS.length ""), [])
  (* ? - show shortcuts (only when buffer is empty) *)
  else if (String.eqb key "?" && (JS.length (buffer s) =? 0))%bool then
    (set_panel s (Some shortcuts), [])
  (* / - show commands AND add to buffer (only when buffer is empty) *)
  else if (String.eqb key "/" && (JS.length (buffer s) =? 0))%bool then
    (set_panel (set_buffer s "/" 1) (Some commands), [])
  (* Regular character *)
  else if JS.code_in code 32 127 then
    let b := buffer s ++ key in
    (set_buffer s b (JS.length b), [])
  else (s, []).

(** [handleKey(key)]: the state it leaves and the callbacks it invokes.
    The only statement after [await this.onSubmit(input)] is a repaint, so
    the state returned is the one the callback starts from. *)
Definition handleKey (s : InputState) (key : string) : InputState * list Action :=
  let code := JS.charCodeAt0 key in
  (* Ctrl+C - exit (always works) *)
  if JS.code_is code 3 then (s, [Exit])
  (* When waiting for response, ignore all input *)
  else if waiting s then (s, [])
  else
    match shortcuts_block s code with
    | Return s1 => (s1, [])
    | Continue s1 =>
        match commands_block s1 key code with
        | Return s2 => (s2, [])
        | Continue s2 => main_block s2 key code
        end
    end.

(** The operations that touch the [InputState] of a handler: a key event,
    and the two public mutators the submit callback uses. *)
Inductive Op : Type :=
| Key (key : string)
| SetWaiting (w : bool)
| UpdateModel (modelName : string).

Definition apply_op (s : InputState) (op : Op) : InputState :=
  match op with
  | Key key => fst (handleKey s key)
  | SetWaiting w => setWaiting s w
  | UpdateModel modelName => updateModel s modelName
  end.

Definition run (s : InputState) (ops : list Op) : InputState :=
  fold_left apply_op ops s.

(** The states after each operation of [ops], in order. *)
Fixpoint states_after (s : InputState) (ops : list Op) : list InputState :=
  match ops with
  | [] => []
  | op :: rest => let s' := apply_op s op in s' :: states_after s' rest
  end.

(** States a handler can be in: the constructed one, and those any
    sequence of operations leads to. *)
Inductive reachable : InputState -> Prop :=
| reach_constructor (supportsThinking : bool) :
    reachable (constructor supportsThinking)
| reach_op (s : InputState) (op : Op) :
    reachable s -> reachable (apply_op s op).

(** Typing [text] one character per key event. *)
Fixpoint type_text (text : string) : list Op :=
  match text with
  | EmptyString => []
  | String c rest => Key (String c EmptyString) :: type_text rest
  end.

(** Typing [text], pressing Enter, and the chat turn the submit callback
    runs for it ([setWaiting(true)] ... [setWaiting(false)]). *)
Definition submit_turn (text : string) : list Op :=
  (type_text text ++ [Key key_enter; SetWaiting true; SetWaiting false])%list.

(** A printable keystroke: one character with code 32..126. *)
Definition printable (key : string) : Prop :=
  exists c : ascii,
    key = String c EmptyString /\ (32 <= nat_of_ascii c <= 126)%nat.

(** The range [historyIndex] is kept in: -1 while nothing was ever
    submitted, and a position of [history] or its length afterwards. *)
Definition index_ok (s : InputState) : Prop :=
  (historyIndex s = -1 /\ history s = [])
  \/ 0 <= historyIndex s <= Z.of_nat (List.length (history s)).

(** The concatenation of a sequence of keystrokes. *)
Definition concat_keys (keys : list string) : string :=
  fold_right String.append "" keys.

End Input.

(* ------------------------------------------------------------------------ *)
(** ** agent.ts, mcp-client.ts, ollama-client.ts: the tool-calling agent    *)
(* ------------------------------------------------------------------------ *)

Module Agent.

(** A thrown value: an [Error] object with its [message], or anything
    else, kept as the text [String(error)] gives. *)
Inductive Exception : Type :=
| Error (message : string)
| Thrown (text : string).

(** [error instanceof Error ? error.message : String(error)] *)
Definition errorMsg (error : Exception) : string :=
  match error with
  | Error message => message
  | Thrown text => text
  end.

(** [ToolCall] of ollama-client.ts; [arguments] is the argument object,
    kept as its JSON text. *)
Record ToolCall : Type := mkToolCall {
  name : string;
  arguments : string
}.

(** [Message] of the ollama package. *)
Record Message : Type := mkMessage {
  role : string;
  content : string;
  tool_calls : option (list ToolCall)
}.

(** [Tool] of the ollama package: a function declaration. *)
Record Tool : Type := mkTool {
  fn_name : string;
  fn_description : string;
  fn_parameters : string
}.

(** The request object [OllamaClient.chat] hands to [this.client.chat]:
    [{ model, messages, tools, options }]. *)
Record ChatRequest : Type := mkChatRequest {
  req_model : string;
  req_messages : list Message;
  req_tools : option (list Tool);
  req_options : string
}.

(** [OllamaClient]; [runtime] is the model runtime behind
    [this.client.chat]: it answers a request with a message or throws. *)
Record OllamaClient : Type := mkOllamaClient {
  _model : string;
  options : string;
  runtime : ChatRequest -> Exception + Message
}.

(** [MCPTool] of mcp-client.ts. *)
Record MCPTool : Type := mkMCPTool {
  serverName : string;
  tool_name : string;
  description : string;
  inputSchema : string
}.

(** What a tool server answers: the [content] array when there is one, and
    the text [JSON.stringify(result)] gives. *)
Record ContentItem : Type := mkContentItem {
  item_type : string;
  item_text : string
}.

Record CallToolResult : Type := mkCallToolResult {
  result_content : option (list ContentItem);
  result_json : string
}.

(** A connected SDK [Client]: [callTool({ name, arguments })]. *)
Record Client : Type := mkClient {
  client_callTool : string -> string -> Exception + CallToolResult
}.

(** [MCPClientManager]: [clients] is the [Map] from server name to
    client, in insertion order. *)
Record MCPClientManager : Type := mkMCPClientManager {
  clients : list (string * Client);
  tools : list MCPTool
}.

(** [maxToolCalls: number]: [loadConfig] spreads the parsed
    [config.json] over the defaults and checks no value, so the budget is
    whatever number the file gives (the loop compares it with [<], which
    takes a value of another type as the number it converts to). *)
Record AgentConfig : Type := mkAgentConfig {
  maxToolCalls : JS.number;
  systemPrompt : string
}.

Record AgentResponse : Type := mkAgentResponse {
  resp_content : string;
  resp_toolsUsed : list string
}.

(** [ChatTurn], without its [timestamp]. *)
Record ChatTurn : Type := mkChatTurn {
  turn_role : string;
  turn_content : string;
  turn_toolsUsed : option (list string)
}.

Record Agent : Type := mkAgent {
  ollamaClient : OllamaClient;
  mcpClient : MCPClientManager;
  config : AgentConfig;
  conversationHistory : list Message;
  chatHistory : list ChatTurn
}.

(** The calls a turn makes to its two collaborators, with what each
    call answered. *)
Inductive Effect : Type :=
| ModelCall (req : ChatRequest) (reply : Exception + Message)
| ToolDispatch (toolName args : string) (result : Exception + string).

(** *** mcp-client.ts *)

(** [this.clients.get(serverName)] *)
Fixpoint clients_get (cs : list (string * Client)) (server : string) : option Client :=
  match cs with
  | [] => None
  | (n, c) :: rest => if String.eqb n server then Some c else clients_get rest server
  end.

(** [getOllamaTools()] *)
Definition getOllamaTools (m : MCPClientManager) : list Tool :=
  map (fun tool => mkTool (tool_name tool) (description tool) (inputSchema tool))
      (tools m).

(** The text [callTool] extracts from a server's answer. *)
Definition extract_text (result : CallToolResult) : string :=
  match result_content result with
  | Some items =>
      JS.join (JS.chr 10)
              (map item_text
                   (filter (fun c => String.eqb (item_type c) "text") items))
  | None => result_json result
  end.

(** [callTool(toolName, args)] *)
Definition callTool (m : MCPClientManager) (toolName args : string)
  : Exception + string :=
  match find (fun t => String.eqb (tool_name t) toolName) (tools m) with
  | None => inl (Error ("Tool not found: " ++ toolName))
  | Some tool =>
      match clients_get (clients m) (serverName tool) with
      | None => inl (Error ("Server not connected: " ++ serverName tool))
      | Some client =>
          match client_callTool client toolName args with
          | inl error => inl error
          | inr result => inr (extract_text result)
          end
      end
  end.

(** *** The computations of a turn

    A computation runs on the agent, may mutate it, may throw, and leaves
    the trace of the collaborator calls it made.  A mutation made before a
    throw stays. *)
Definition M (A : Type) : Type := Agent -> (Exception + A) * Agent * list Effect.

Definition ret {A} (x : A) : M A := fun a => (inr x, a, []).

Definition bind {A B} (m : M A) (k : A -> M B) : M B :=
  fun a =>
    match m a with
    | (inl error, a1, t1) => (inl error, a1, t1)
    | (inr x, a1, t1) =>
        match k x a1 with
        | (r, a2, t2) => (r, a2, (t1 ++ t2)%list)
        end
    end.

(** [try { body } catch (error) { handler }] *)
Definition try_catch {A} (body : M A) (handler : Exception -> M A) : M A :=
  fun a =>
    match body a with
    | (inl error, a1, t1) =>
        match handler error a1 with
        | (r, a2, t2) => (r, a2, (t1 ++ t2)%list)
        end
    | (inr x, a1, t1) => (inr x, a1, t1)
    end.

Declare Scope agent_scope.
Delimit Scope agent_scope with agent.
Notation "x <- m ;; k" := (bind m (fun x => k))
  (at level 100, m at next level, right associativity) : agent_scope.
Notation "m ;; k" := (bind m (fun _ => k))
  (at level 100, right associativity) : agent_scope.
Local Open Scope agent_scope.

Definition get : M Agent := fun a => (inr a, a, []).

(** [this.conversationHistory.push(message)] *)
Definition push_conversation (message : Message) : M unit :=
  fun a => (inr tt,
            mkAgent (ollamaClient a) (mcpClient a) (config a)
                    (conversationHistory a ++ [message])%list (chatHistory a),
            []).

(** [this.chatHistory.push(turn)] *)
Definition push_chatHistory (turn : ChatTurn) : M unit :=
  fun a => (inr tt,
            mkAgent (ollamaClient a) (mcpClient a) (config a)
                    (conversationHistory a) (chatHistory a ++ [turn])%list,
            []).

(** [await this.ollamaClient.chat(this.conversationHistory, tools)]: the
    agent passes no stream callback, so the call is the plain request; the
    [toolCalls] of the answer are the [tool_calls] of its message. *)
Definition ollama_chat (tools : option (list Tool)) : M Message :=
  fun a =>
    let client := ollamaClient a in
    let req := mkChatRequest (_model client) (conversationHistory a) tools
                             (options client) in
    let reply := runtime client req in
    (reply, a, [ModelCall req reply]).

(** [await this.mcpClient.callTool(name, args)] *)
Definition mcp_callTool (toolName args : string) : M string :=
  fun a =>
    let result := callTool (mcpClient a) toolName args in
    (result, a, [ToolDispatch toolName args result]).

Definition tool_message (text : string) : Message :=
  mkMessage "tool" text None.

(** [toolsUsed.length > 0 ? [...toolsUsed] : undefined] *)
Definition used_or_undefined (toolsUsed : list string) : option (list string) :=
  match toolsUsed with
  | [] => None
  | _ => Some toolsUsed
  end.

(** The body of [for (const toolCall of response.toolCalls)], with the two
    locals it updates. *)
Fixpoint process_tool_calls (toolCalls : list ToolCall)
         (toolCallCount : Z) (toolsUsed : list string) : M (Z * list string) :=
  match toolCalls with
  | [] => ret (toolCallCount, toolsUsed)
  | toolCall :: rest =>
      let toolCallCount := toolCallCount + 1 in
      let toolsUsed := (toolsUsed ++ [name toolCall])%list in
      try_catch
        (result <- mcp_callTool (name toolCall) (arguments toolCall) ;;
         push_conversation (tool_message result))
        (fun error =>
           push_conversation (tool_message ("Error: " ++ errorMsg error))) ;;
      process_tool_calls rest toolCallCount toolsUsed
  end.

(** How the [while] loop of [chat] ends. *)
Inductive LoopEnd : Type :=
| Returned (response : AgentResponse)   (* the [return] inside the loop *)
| BudgetSpent (toolsUsed : list string) (* the loop condition became false *)
| OutOfFuel.                            (* still looping after the passes followed *)

(** [while (toolCallCount < this.config.maxToolCalls) { ... }], unrolled
    at most [fuel] times. *)
Fixpoint chat_loop (fuel : nat) (tools : list Tool)
         (toolCallCount : Z) (toolsUsed : list string) : M LoopEnd :=
  a <- get ;;
  if JS.int_lt toolCallCount (maxToolCalls (config a)) then
    match fuel with
    | O => ret OutOfFuel
    | S fuel' =>
        message <- ollama_chat (match tools with [] => None | _ => Some tools end) ;;
        push_conversation message ;;
        match tool_calls message with
        | None | Some [] =>
            let content := JS.or_else (content message) "" in
            push_chatHistory
              (mkChatTurn "assistant" content (used_or_undefined toolsUsed)) ;;
            ret (Returned (mkAgentResponse content toolsUsed))
        | Some toolCalls =>
            r <- process_tool_calls toolCalls toolCallCount toolsUsed ;;
            chat_loop fuel' tools (fst r) (snd r)
        end
    end
  else ret (BudgetSpent toolsUsed).

(** The passes of the loop that are followed.  Every pass that does not
    return raises [toolCallCount] by at least one, so under a finite budget
    [Math.ceil(maxToolCalls)] passes are all there can be, and under NaN or
    [-Infinity] the loop is never entered.  Under [Infinity] the loop runs
    for as long as the model requests tools, which may be for ever: it is
    followed for one pass more than [patience]. *)
Definition passes (budget : JS.number) (patience : nat) : nat :=
  match budget with
  | JS.Finite p q => Z.to_nat (JS.ceiling p q)
  | JS.PosInfinity => S patience
  | JS.NegInfinity | JS.NaN => O
  end.

(** [chat(userMessage)].  The answer [None] says that the loop was still
    running after the passes that were followed, which only an infinite
    budget allows: the call has not returned by then, and returns never if
    that is so for every [patience]. *)
Definition chat (patience : nat) (userMessage : string) : M (option AgentResponse) :=
  push_chatHistory (mkChatTurn "user" userMessage None) ;;
  push_conversation (mkMessage "user" userMessage None) ;;
  a <- get ;;
  let tools := getOllamaTools (mcpClient a) in
  e <- chat_loop (passes (maxToolCalls (config a)) patience) tools 0 [] ;;
  match e with
  | Returned response => ret (Some response)
  | BudgetSpent toolsUsed =>
      finalResponse <- ollama_chat None ;;
      push_conversation finalResponse ;;
      let content := JS.or_else (content finalResponse) "(No response)" in
      push_chatHistory
        (mkChatTurn "assistant" content (used_or_undefined toolsUsed)) ;;
      ret (Some (mkAgentResponse content toolsUsed))
  | OutOfFuel => ret None
  end.

(** [initialize()] *)
Definition initialize (a : Agent) : Agent :=
  mkAgent (ollamaClient a) (mcpClient a) (config a)
          [mkMessage "system" (systemPrompt (config a)) None]
          (chatHistory a).

(** [clearHistory()] *)
Definition clearHistory (a : Agent) : Agent :=
  mkAgent (ollamaClient a) (mcpClient a) (config a)
          [mkMessage "system" (systemPrompt (config a)) None]
          [].

(** [new Agent(ollamaClient, mcpClient, config)] *)
Definition constructor (o : OllamaClient) (m : MCPClientManager)
           (c : AgentConfig) : Agent :=
  mkAgent o m c [] [].

(** The tool dispatches of a trace, and how many there are. *)
Definition is_dispatch (e : Effect) : bool :=
  match e with
  | ToolDispatch _ _ _ => true
  | ModelCall _ _ => false
  end.

Definition dispatches (t : list Effect) : Z :=
  Z.of_nat (List.length (filter is_dispatch t)).

(** The number of tool invocations a model reply requests. *)
Definition requested (m : Message) : Z :=
  match tool_calls m with
  | Some toolCalls => Z.of_nat (List.length toolCalls)
  | None => 0
  end.

(** *** Vocabulary for the properties below *)

(** What [callTool] answers for an invocation, the trace entry of its
    dispatch, and the tool-role message the loop appends for an answer. *)
Definition call_result (m : MCPClientManager) (toolCall : ToolCall)
  : Exception + string :=
  callTool m (name toolCall) (arguments toolCall).

Definition dispatch_effect (m : MCPClientManager) (toolCall : ToolCall) : Effect :=
  ToolDispatch (name toolCall) (arguments toolCall) (call_result m toolCall).

Definition result_message (result : Exception + string) : Message :=
  match result with
  | inr text => tool_message text
  | inl error => tool_message ("Error: " ++ errorMsg error)
  end.

(** The agent with [messages] pushed on its conversation history. *)
Definition with_messages (a : Agent) (messages : list Message) : Agent :=
  mkAgent (ollamaClient a) (mcpClient a) (config a)
          (conversationHistory a ++ messages)%list (chatHistory a).

(** The tool names of the dispatches of a trace, in order. *)
Fixpoint dispatched_names (t : list Effect) : list string :=
  match t with
  | [] => []
  | ToolDispatch toolName _ _ :: rest => toolName :: dispatched_names rest
  | ModelCall _ _ :: rest => dispatched_names rest
  end.

(** The agent after the turns for [inputs], one after the other. *)
Definition run_turns (patience : nat) (a : Agent) (inputs : list string) : Agent :=
  fold_left (fun a input => snd (fst (chat patience input a))) inputs a.

(** The request of a pass of the loop, and the request of the final call
    after the loop. *)
Definition loop_request (tools : list Tool) (a : Agent) : ChatRequest :=
  mkChatRequest (_model (ollamaClient a)) (conversationHistory a)
                (match tools with [] => None | _ => Some tools end)
                (options (ollamaClient a)).

Definition final_request (a : Agent) : ChatRequest :=
  mkChatRequest (_model (ollamaClient a)) (conversationHistory a) None
                (options (ollamaClient a)).

(** The agent with [turn] pushed on its export transcript. *)
Definition with_turn (a : Agent) (turn : ChatTurn) : Agent :=
  mkAgent (ollamaClient a) (mcpClient a) (config a)
          (conversationHistory a) (chatHistory a ++ [turn])%list.

(** The invocations a model reply requests. *)
Definition requested_calls (m : Message) : list ToolCall :=
  match tool_calls m with
  | Some toolCalls => toolCalls
  | None => []
  end.

(** A trace read against the model and the tool servers of agent [a].
    [count] tool invocations were dispatched before it, [pending] are the
    invocations the last reply requested that are still to be dispatched,
    [conv] is the conversation before it and [final] the conversation after
    it.

    Every model call is sent the conversation as it stands and is answered by
    the model runtime.  While the budget is not spent, each invocation the
    reply requests is dispatched next, in the order of the reply, to
    [callTool] with its name and arguments, before anything else happens, and
    what [callTool] answered or threw is appended to the conversation as a
    tool-role message.  A model call that throws, and the call made once the
    budget is spent, end the trace. *)
Fixpoint orderly (a : Agent) (count : Z) (pending : list ToolCall)
         (conv : list Message) (t : list Effect) (final : list Message)
         {struct t} : Prop :=
  match t with
  | [] => pending = [] /\ final = conv
  | ToolDispatch toolName args result :: rest =>
      match pending with
      | toolCall :: more =>
          toolName = name toolCall
          /\ args = arguments toolCall
          /\ result = callTool (mcpClient a) toolName args
          /\ orderly a (count + 1) more (conv ++ [result_message result]) rest final
      | [] => False
      end
  | ModelCall req reply :: rest =>
      pending = []
      /\ req_messages req = conv
      /\ reply = runtime (ollamaClient a) req
      /\ match reply with
         | inl _ => rest = [] /\ final = conv
         | inr message =>
             if JS.int_lt count (maxToolCalls (config a))
             then orderly a count (requested_calls message) (conv ++ [message]) rest final
             else rest = [] /\ final = (conv ++ [message])%list
         end
  end.

(** *** Sample agents *)

(** A model runtime that answers every request with the same message. *)
Definition constant_runtime (message : Message) : ChatRequest -> Exception + Message :=
  fun _ => inr message.

Definition search_call : ToolCall := mkToolCall "search_notes" "{}".
Definition read_call : ToolCall := mkToolCall "read_note" "{}".
Definition tags_call : ToolCall := mkToolCall "list_tags" "{}".

(** An initialized agent with budget [budget] on a runtime that answers
    [message], with no tool server connected. *)
Definition sample_agent_with (budget : JS.number) (message : Message) : Agent :=
  initialize
    (constructor (mkOllamaClient "qwen3:8b" "{}" (constant_runtime message))
                 (mkMCPClientManager [] [])
                 (mkAgentConfig budget "You are a vault assistant.")).

Definition sample_agent (budget : Z) (message : Message) : Agent :=
  sample_agent_with (JS.of_Z budget) message.

(** An initialized agent whose model runtime cannot be reached: every
    request throws. *)
Definition unreachable_agent (budget : Z) : Agent :=
  initialize
    (constructor (mkOllamaClient "qwen3:8b" "{}" (fun _ => inl (Error "fetch failed")))
                 (mkMCPClientManager [] [])
                 (mkAgentConfig (JS.of_Z budget) "You are a vault assistant.")).

End Agent.

(* ------------------------------------------------------------------------ *)
(** ** cli.ts: the submit callback of [runCLI] for a chat input             *)
(* ------------------------------------------------------------------------ *)

Module Runner.

(** [abortController.signal] *)
Record AbortSignal : Type := mkAbortSignal {
  aborted : bool
}.

(** [session.agent.chat(input, abortController.signal)].  [Agent.chat] is
    declared as [chat(userMessage: string)]: a JavaScript call binds the
    first argument to its one parameter and the second argument is bound
    to nothing. *)
Definition invoke_chat (patience : nat) (a : Agent.Agent) (input : string)
           (signal : AbortSignal)
  : (Agent.Exception + option Agent.AgentResponse) * Agent.Agent * list Agent.Effect :=
  Agent.chat patience input a.

(** How the callback leaves its [try] block: through one of the two
    results of [Promise.race], or through [catch]. *)
Inductive Outcome : Type :=
| Response (response : Agent.AgentResponse)  (* [{ type: "response", response }] *)
| Cancelled                                  (* [{ type: "cancelled" }] *)
| Failed (error : Agent.Exception).          (* the [catch (error)] block *)

(** The variables of one run of the callback. *)
Record Turn : Type := mkTurn {
  handler : Input.InputState;   (* [session.inputHandler] *)
  cancelled : bool;             (* [let cancelled] *)
  signal : AbortSignal;         (* [abortController.signal] *)
  timer_running : bool;         (* the interval of [setInterval] is not cleared *)
  escape_listeners : nat;       (* registrations of [escapeHandler] on stdin "data" *)
  listener_removals : nat;      (* calls of [removeListener("data", escapeHandler)] *)
  outcome : option Outcome      (* [None] while the race is open *)
}.

(** What can happen while the callback is suspended, and after it. *)
Inductive Event : Type :=
| KeyData (key : string)                         (* stdin "data" *)
| Tick                                           (* the one-second interval fires: a repaint *)
| Poll                                           (* a 100 ms timeout of [checkCancelled] fires *)
| ChatResolved (response : Agent.AgentResponse)  (* [chatPromise] fulfils *)
| ChatRejected (error : Agent.Exception).        (* [chatPromise] rejects *)

(** The statements from [setWaiting(true)] down to [Promise.race]. *)
Definition begin_turn (h : Input.InputState) : Turn :=
  {| handler := Input.setWaiting h true;
     cancelled := false;
     signal := mkAbortSignal false;
     timer_running := true;
     escape_listeners := 1;
     listener_removals := 0;
     outcome := None |}.

(** [escapeHandler(key)] *)
Definition escapeHandler (t : Turn) (key : string) : Turn :=
  if String.eqb key Input.key_escape then
    mkTurn (handler t) true (mkAbortSignal true) false
           (escape_listeners t) (listener_removals t) (outcome t)
  else t.

(** The three statements under [// Cleanup], then the branch on
    [result.type]. *)
Definition cleanup (t : Turn) (result : Outcome) : Turn :=
  mkTurn (Input.setWaiting (handler t) false) (cancelled t) (signal t)
         false
         (Nat.pred (escape_listeners t)) (S (listener_removals t))
         (Some result).

(** The [catch (error)] block. *)
Definition catch_block (t : Turn) (error : Agent.Exception) : Turn :=
  mkTurn (Input.setWaiting (handler t) false) (cancelled t) (signal t)
         (timer_running t)
         (escape_listeners t) (listener_removals t)
         (Some (Failed error)).

(** One event.  A key goes to the handler's own listener first (registered
    by [start()]), then to [escapeHandler] while it is registered; what
    [handleKey] asks of [onExit] and [onSubmit] belongs to the process and to
    the next turn and is not followed here. *)
Definition step (t : Turn) (e : Event) : Turn :=
  match e with
  | KeyData key =>
      let t := mkTurn (fst (Input.handleKey (handler t) key)) (cancelled t)
                      (signal t) (timer_running t) (escape_listeners t)
                      (listener_removals t) (outcome t) in
      if Nat.ltb 0 (escape_listeners t) then escapeHandler t key else t
  | Tick => t
  | Poll =>
      match outcome t with
      | None => if cancelled t then cleanup t Cancelled else t
      | Some _ => t
      end
  | ChatResolved response =>
      match outcome t with
      | None => cleanup t (Response response)
      | Some _ => t
      end
  | ChatRejected error =>
      match outcome t with
      | None => catch_block t error
      | Some _ => t
      end
  end.

Definition run (t : Turn) (events : list Event) : Turn :=
  fold_left step events t.

(** The event with which [chatPromise] settles. *)
Definition chat_event
           (r : (Agent.Exception + option Agent.AgentResponse)
                * Agent.Agent * list Agent.Effect) : list Event :=
  match r with
  | (inl error, _, _) => [ChatRejected error]
  | (inr (Some response), _, _) => [ChatResolved response]
  | (inr None, _, _) => []
  end.

(** One chat turn: the events [early] arrive while the agent works, then
    [chatPromise] settles, then the events [late] arrive. *)
Definition run_turn (patience : nat) (h : Input.InputState) (a : Agent.Agent)
           (input : string) (early late : list Event)
  : Turn * Agent.Agent * list Agent.Effect :=
  let t := run (begin_turn h) early in
  let r := invoke_chat patience a input (signal t) in
  (run t (chat_event r ++ late)%list, snd (fst r), snd r).

End Runner.

(* ------------------------------------------------------------------------ *)
(** ** cli.ts: vocabulary for further properties of [RawInputHandler]       *)
(* ------------------------------------------------------------------------ *)

Module InputSpec.
Import Input.

(** The inputs a call of [handleKey] hands to [onSubmit]. *)
Fixpoint submitted (actions : list Action) : list string :=
  match actions with
  | [] => []
  | Submit input :: rest => input :: submitted rest
  | Exit :: rest => submitted rest
  end.

(** What an open panel says about the buffer: the shortcuts panel is only
    up over an empty buffer, the commands panel over a buffer that begins
    with the slash that opened it. *)
Definition panel_ok (s : InputState) : Prop :=
  match panelVisible s with
  | Some shortcuts => buffer s = ""
  | Some commands => exists rest, buffer s = String "/" rest
  | None => True
  end.

(** A history entry as [Enter] stores it: not empty and equal to its own
    [trim()]. *)
Definition entry_ok (entry : string) : Prop :=
  entry <> "" /\ JS.trim entry = entry.

End InputSpec.

(* ------------------------------------------------------------------------ *)
(** ** cli.ts: [selectModel]                                                *)
(* ------------------------------------------------------------------------ *)

Module ModelSelect.

(** [ModelInfo] of ollama-client.ts, without its [modified] date; the two
    optional flags are [None] when undefined. *)
Record ModelInfo : Type := mkModelInfo {
  name : string;
  size : string;
  sizeBytes : Z;
  parameterSize : string;
  quantization : string;
  supportsTools : option bool;
  supportsThinking : option bool
}.

(** [m.supportsTools === true] *)
Definition is_true (flag : option bool) : bool :=
  match flag with
  | Some true => true
  | _ => false
  end.

(** [if (m.supportsTools)]: [undefined] and [false] are falsy. *)
Definition truthy (flag : option bool) : bool :=
  match flag with
  | Some b => b
  | None => false
  end.

(** [models.filter(m => m.supportsTools === true)] *)
Definition eligibleModels (models : list ModelInfo) : list ModelInfo :=
  filter (fun m => is_true (supportsTools m)) models.

(** An entry of [displayList]. *)
Record DisplayItem : Type := mkDisplayItem {
  model : ModelInfo;
  eligibleIndex : option Z
}.

(** The first loop over [models], with its counter [eligibleIdx]. *)
Fixpoint eligible_rows (models : list ModelInfo) (eligibleIdx : Z) : list DisplayItem :=
  match models with
  | [] => []
  | m :: rest =>
      if truthy (supportsTools m)
      then mkDisplayItem m (Some eligibleIdx) :: eligible_rows rest (eligibleIdx + 1)
      else eligible_rows rest eligibleIdx
  end.

(** The second loop over [models]. *)
Fixpoint ineligible_rows (models : list ModelInfo) : list DisplayItem :=
  match models with
  | [] => []
  | m :: rest =>
      if negb (truthy (supportsTools m))
      then mkDisplayItem m None :: ineligible_rows rest
      else ineligible_rows rest
  end.

Definition displayList (models : list ModelInfo) : list DisplayItem :=
  (eligible_rows models 0 ++ ineligible_rows models)%list.

(** [isSelected] of [renderModelLine]: only a tool-capable row can be. *)
Definition isSelected (item : DisplayItem) (selectedEligibleIndex : Z) : bool :=
  match eligibleIndex item with
  | Some i => i =? selectedEligibleIndex
  | None => false
  end.

(** The course of a selection. *)
Inductive Selection : Type :=
| Choosing (selectedEligibleIndex : Z)  (* the promise is pending *)
| Chosen (modelName : string)           (* [resolve(name)] *)
| Crashed                               (* [eligibleModels[i]] is undefined: reading [.name] throws *)
| Exited (code : Z).                    (* [process.exit(code)] *)

(** The state before the first key: the process exits when no model is
    tool-capable. *)
Definition start (models : list ModelInfo) : Selection :=
  match eligibleModels models with
  | [] => Exited 1
  | _ => Choosing 0
  end.

(** [eligibleModels[i]] *)
Definition eligible_at (models : list ModelInfo) (i : Z) : option ModelInfo :=
  if i <? 0 then None else nth_error (eligibleModels models) (Z.to_nat i).

(** The local [handleKey] of [selectModel]; after [resolve] and after the
    exit the listener is gone. *)
Definition handleKey (models : list ModelInfo) (st : Selection) (key : string)
  : Selection :=
  match st with
  | Choosing sel =>
      if String.eqb key (JS.chr 3) then Exited 0
      else if (String.eqb key (JS.chr 13) || String.eqb key (JS.chr 10))%bool then
        match eligible_at models sel with
        | Some m => Chosen (name m)
        | None => Crashed
        end
      else if String.eqb key Input.key_up then
        if 0 <? sel then Choosing (sel - 1) else Choosing sel
      else if String.eqb key Input.key_down then
        if sel <? Z.of_nat (List.length (eligibleModels models)) - 1
        then Choosing (sel + 1) else Choosing sel
      else Choosing sel
  | _ => st
  end.

Definition select (models : list ModelInfo) (keys : list string) : Selection :=
  fold_left (handleKey models) keys (start models).

(** What a selection may be in: a pending index inside [eligibleModels], a
    name of an installed tool-capable model, or one of the two exits. *)
Definition selection_ok (models : list ModelInfo) (st : Selection) : Prop :=
  match st with
  | Choosing sel => 0 <= sel < Z.of_nat (List.length (eligibleModels models))
  | Chosen modelName =>
      exists m, In m models /\ supportsTools m = Some true /\ name m = modelName
  | Crashed => False
  | Exited code => code = 0 \/ (code = 1 /\ eligibleModels models = [])
  end.

(** Three installed models, of which the first has no tool support. *)
Definition sample_models : list ModelInfo :=
  [mkModelInfo "llama2:7b" "3.8 GB" 3800000000 "7B" "Q4_0" (Some false) (Some false);
   mkModelInfo "qwen3:8b" "5.2 GB" 5200000000 "8B" "Q4_K_M" (Some true) (Some true);
   mkModelInfo "qwen2.5:7b-instruct" "4.7 GB" 4700000000 "7B" "Q4_K_M"
               (Some true) (Some false)].

End ModelSelect.

(* ------------------------------------------------------------------------ *)
(** ** mcp-client.ts: connecting and disconnecting                          *)
(* ------------------------------------------------------------------------ *)

Module Mcp.
Import Agent.

(** [MCPServerConfig] of config.ts. *)
Record MCPServerConfig : Type := mkMCPServerConfig {
  command : string;
  args : list string;
  env : option (list (string * string))
}.

(** A tool as a server lists it; [description] may be missing. *)
Record ToolInfo : Type := mkToolInfo {
  info_name : string;
  info_description : option string;
  info_inputSchema : string
}.

(** What launching a server and asking it for its tools comes to:
    [client.connect(transport)] throws, or it succeeds and
    [client.listTools()] throws, or both succeed. *)
Inductive ServerBehaviour : Type :=
| ConnectThrows (error : Exception)
| ListToolsThrows (client : Client) (error : Exception)
| Serves (client : Client) (listed : list ToolInfo).

(** [MCPClientManager] with the fields its constructor sets; [inner] holds
    [clients] and [tools].  The [transports] map is written beside [clients]
    and never read, and is left out. *)
Record Manager : Type := mkManager {
  serverConfigs : list (string * MCPServerConfig);
  quiet : bool;
  inner : MCPClientManager
}.

(** [new MCPClientManager(serverConfigs, quiet)] *)
Definition constructor (configs : list (string * MCPServerConfig)) (q : bool) : Manager :=
  mkManager configs q (mkMCPClientManager [] []).

(** [this.clients.set(name, client)]: a [Map] keeps the place of a key it
    already has. *)
Fixpoint clients_set (cs : list (string * Client)) (server : string) (client : Client)
  : list (string * Client) :=
  match cs with
  | [] => [(server, client)]
  | (n, c) :: rest =>
      if String.eqb n server then (n, client) :: rest
      else (n, c) :: clients_set rest server client
  end.

(** The [MCPTool] pushed for a listed tool. *)
Definition registered (server : string) (tool : ToolInfo) : MCPTool :=
  mkMCPTool server (info_name tool)
            (match info_description tool with
             | Some d => JS.or_else d ""
             | None => ""
             end)
            (info_inputSchema tool).

(** [connectServer(name, config)]: the error it throws, if any, and the
    manager it leaves. *)
Definition connectServer (behaviour : ServerBehaviour) (server : string)
           (m : MCPClientManager) : option Exception * MCPClientManager :=
  match behaviour with
  | ConnectThrows error => (Some error, m)
  | ListToolsThrows client error =>
      (Some error, mkMCPClientManager (clients_set (clients m) server client) (tools m))
  | Serves client listed =>
      (None,
       mkMCPClientManager (clients_set (clients m) server client)
                          (tools m ++ map (registered server) listed)%list)
  end.

(** The loop of [connect()] over [Object.entries(this.serverConfigs)]: an
    error of [connectServer] is caught and logged. *)
Fixpoint connect_all (launch : string -> MCPServerConfig -> ServerBehaviour)
         (configs : list (string * MCPServerConfig)) (m : MCPClientManager)
  : MCPClientManager :=
  match configs with
  | [] => m
  | (server, config) :: rest =>
      connect_all launch rest (snd (connectServer (launch server config) server m))
  end.

(** [connect()] *)
Definition connect (launch : string -> MCPServerConfig -> ServerBehaviour)
           (m : Manager) : Manager :=
  mkManager (serverConfigs m) (quiet m) (connect_all launch (serverConfigs m) (inner m)).

(** [disconnect()]: an error of [client.close()] is caught and logged. *)
Definition disconnect (m : Manager) : Manager :=
  mkManager (serverConfigs m) (quiet m) (mkMCPClientManager [] []).

(** [listConnectedServers()] *)
Definition listConnectedServers (m : Manager) : list string :=
  map fst (clients (inner m)).

(** The managers a program can hold. *)
Inductive reachable : Manager -> Prop :=
| reach_new (configs : list (string * MCPServerConfig)) (q : bool) :
    reachable (constructor configs q)
| reach_connect (m : Manager) (launch : string -> MCPServerConfig -> ServerBehaviour) :
    reachable m -> reachable (connect launch m)
| reach_disconnect (m : Manager) :
    reachable m -> reachable (disconnect m).

(** Every registered tool names a server that has a client. *)
Definition tools_connected (m : MCPClientManager) : Prop :=
  forall tool, In tool (tools m) -> clients_get (clients m) (serverName tool) <> None.

(** The servers of [configs] whose connection succeeds, with their clients,
    and the tools of those that also list them. *)
Fixpoint connected_clients (launch : string -> MCPServerConfig -> ServerBehaviour)
         (configs : list (string * MCPServerConfig)) : list (string * Client) :=
  match configs with
  | [] => []
  | (server, config) :: rest =>
      match launch server config with
      | ConnectThrows _ => connected_clients launch rest
      | ListToolsThrows client _ => (server, client) :: connected_clients launch rest
      | Serves client _ => (server, client) :: connected_clients launch rest
      end
  end.

Fixpoint served_tools (launch : string -> MCPServerConfig -> ServerBehaviour)
         (configs : list (string * MCPServerConfig)) : list MCPTool :=
  match configs with
  | [] => []
  | (server, config) :: rest =>
      match launch server config with
      | Serves _ listed =>
          (map (registered server) listed ++ served_tools launch rest)%list
      | _ => served_tools launch rest
      end
  end.

(** *** A sample world: three configured servers, of which one cannot be
    launched and one fails to list its tools. *)

Definition echo_client (label : string) : Client :=
  mkClient (fun toolName args =>
              inr (mkCallToolResult
                     (Some [mkContentItem "text" (label ++ ":" ++ toolName)]) "")).

Definition sample_configs : list (string * MCPServerConfig) :=
  [("obsidian", mkMCPServerConfig "node" ["server.js"; "/vault"] None);
   ("nzdpu", mkMCPServerConfig "node" ["nzdpu.js"] None);
   ("mongodb", mkMCPServerConfig "npx" ["mongo-mcp"] None)].

Definition sample_launch (server : string) (config : MCPServerConfig) : ServerBehaviour :=
  if String.eqb server "obsidian" then
    Serves (echo_client "obsidian")
           [mkToolInfo "obsidian_search" (Some "Search notes") "{}";
            mkToolInfo "obsidian_read" None "{}"]
  else if String.eqb server "nzdpu" then
    ConnectThrows (Error "spawn node ENOENT")
  else
    ListToolsThrows (echo_client "mongodb") (Error "Method not found").

End Mcp.

(* ------------------------------------------------------------------------ *)
(** ** agent.ts: the rest of [Agent], and vocabulary for its properties     *)
(* ------------------------------------------------------------------------ *)

From Stdlib Require Import DecimalString.

Module AgentMore.
Import Agent.

(** [setModel(model)]: [this.ollamaClient.setModel(model)] *)
Definition setModel (a : Agent) (model : string) : Agent :=
  mkAgent (mkOllamaClient model (options (ollamaClient a)) (runtime (ollamaClient a)))
          (mcpClient a) (config a) (conversationHistory a) (chatHistory a).

(** [getModel()] *)
Definition getModel (a : Agent) : string := _model (ollamaClient a).

(** [getChatHistory()] *)
Definition getChatHistory (a : Agent) : list ChatTurn := chatHistory a.

(** A number in a template literal. *)
Definition decimal (n : nat) : string := NilEmpty.string_of_uint (Nat.to_uint n).

(** [this.chatHistory.filter(t => t.role === "user").length] *)
Definition user_turns (h : list ChatTurn) : nat :=
  List.length (filter (fun t => String.eqb (turn_role t) "user") h).

(** The lines [exportToMarkdown] pushes for one turn. *)
Definition turn_lines (turn : ChatTurn) : list string :=
  if String.eqb (turn_role turn) "user" then
    ["## User"; ""; turn_content turn; ""]
  else
    ("## Assistant"
     :: match turn_toolsUsed turn with
        | Some (tool :: more) =>
            [""; ("*Tools used: " ++ JS.join ", " (tool :: more) ++ "*")%string]
        | _ => []
        end
     ++ [""; turn_content turn; ""; "---"; ""])%list.

(** The lines of [exportToMarkdown()]; [date] and [time] stand for
    [sessionStart.toLocaleDateString()] and [sessionStart.toLocaleTimeString()]. *)
Definition export_lines (date time : string) (a : Agent) : list string :=
  (["# Vault Agent Chat Export";
    "";
    ("**Date**: " ++ date ++ " " ++ time)%string;
    ("**Model**: " ++ _model (ollamaClient a))%string;
    ("**Turns**: " ++ decimal (user_turns (chatHistory a)))%string;
    "";
    "---";
    ""]
   ++ flat_map turn_lines (chatHistory a))%list.

(** [exportToMarkdown()] *)
Definition exportToMarkdown (date time : string) (a : Agent) : string :=
  JS.join (JS.chr 10) (export_lines date time a).

(** The operations a session performs on its agent. *)
Inductive AgentOp : Type :=
| OpChat (input : string)
| OpClear
| OpSetModel (model : string).

Definition apply_op (patience : nat) (a : Agent) (op : AgentOp) : Agent :=
  match op with
  | OpChat input => snd (fst (chat patience input a))
  | OpClear => clearHistory a
  | OpSetModel model => setModel a model
  end.

Definition run_ops (patience : nat) (a : Agent) (ops : list AgentOp) : Agent :=
  fold_left (apply_op patience) ops a.

(** The chat inputs among [ops] since the last [OpClear]. *)
Fixpoint chats_since_clear (ops : list AgentOp) (n : nat) : nat :=
  match ops with
  | [] => n
  | OpChat _ :: rest => chats_since_clear rest (S n)
  | OpClear :: rest => chats_since_clear rest 0
  | OpSetModel _ :: rest => chats_since_clear rest n
  end.

(** A trace read against the conversation: each model call was sent the
    conversation as it stood, each reply and each tool result was appended in
    the order of the trace, a model call that threw ended the trace, and
    [final] is the conversation at the end. *)
Fixpoint threaded (conv : list Message) (t : list Effect) (final : list Message) : Prop :=
  match t with
  | [] => final = conv
  | ModelCall req reply :: rest =>
      req_messages req = conv
      /\ match reply with
         | inr message => threaded (conv ++ [message]) rest final
         | inl _ => rest = [] /\ final = conv
         end
  | ToolDispatch _ _ result :: rest =>
      threaded (conv ++ [result_message result]) rest final
  end.

(** The model calls of a trace. *)
Definition model_calls (t : list Effect) : Z :=
  Z.of_nat (List.length (filter (fun e => negb (is_dispatch e)) t)).

(** What a request of agent [a] looks like: it names the agent's model,
    carries its options, and offers all the registered tools or none. *)
Definition request_of (a : Agent) (e : Effect) : Prop :=
  match e with
  | ModelCall req _ =>
      req_model req = _model (ollamaClient a)
      /\ req_options req = options (ollamaClient a)
      /\ (req_tools req = None
          \/ (req_tools req = Some (getOllamaTools (mcpClient a))
              /\ getOllamaTools (mcpClient a) <> []))
  | ToolDispatch _ _ _ => True
  end.

(** The transcript entry of an answered turn. *)
Definition assistant_turn (response : AgentResponse) : ChatTurn :=
  mkChatTurn "assistant" (resp_content response)
             (used_or_undefined (resp_toolsUsed response)).

(** The agent as the loop of a turn finds it: the user's input is on the
    transcript and on the conversation. *)
Definition turn_start (a : Agent) (userMessage : string) : Agent :=
  with_messages (with_turn a (mkChatTurn "user" userMessage None))
                [mkMessage "user" userMessage None].

End AgentMore.

(* ------------------------------------------------------------------------ *)
(** ** config.ts: the merge of a parsed file over the defaults                *)
(* ------------------------------------------------------------------------ *)

Module Config.

(** [OllamaConfig]; [options] is the options object as JSON text, or absent. *)
Record OllamaConfig : Type := mkOllamaConfig {
  model : string;
  baseUrl : string;
  options : option string
}.

Record Config : Type := mkConfig {
  ollama : OllamaConfig;
  mcpServers : list (string * Mcp.MCPServerConfig);
  agent : Agent.AgentConfig
}.

(** [Partial<Config>] as [JSON.parse] yields it: a section, and a key of a
    section, is [None] when the file does not have it. *)
Record UserOllama : Type := mkUserOllama {
  user_model : option string;
  user_baseUrl : option string;
  user_options : option string
}.

Record UserAgent : Type := mkUserAgent {
  user_maxToolCalls : option JS.number;
  user_systemPrompt : option string
}.

Record UserConfig : Type := mkUserConfig {
  user_ollama : option UserOllama;
  user_mcpServers : option (list (string * Mcp.MCPServerConfig));
  user_agent : option UserAgent
}.

(** [DEFAULT_CONFIG], over the text of [DEFAULT_SYSTEM_PROMPT]. *)
Definition DEFAULT_CONFIG (DEFAULT_SYSTEM_PROMPT : string) : Config :=
  {| ollama := {| model := "qwen2.5:7b-instruct";
                  baseUrl := "http://localhost:11434";
                  options := Some "{ temperature: 0.7, num_ctx: 8192 }" |};
     mcpServers := [];
     agent := Agent.mkAgentConfig (JS.of_Z 10) DEFAULT_SYSTEM_PROMPT |}.

(** [x ?? d] for a key of a spread: the later object wins where it has the
    key. *)
Definition over {A} (later : option A) (earlier : A) : A :=
  match later with
  | Some x => x
  | None => earlier
  end.

(** [{ ...DEFAULT_CONFIG.ollama, ...userConfig.ollama }] *)
Definition spread_ollama (d : OllamaConfig) (u : option UserOllama) : OllamaConfig :=
  match u with
  | None => d
  | Some u =>
      {| model := over (user_model u) (model d);
         baseUrl := over (user_baseUrl u) (baseUrl d);
         options := match user_options u with
                    | Some o => Some o
                    | None => options d
                    end |}
  end.

(** [{ ...DEFAULT_CONFIG.agent, ...userConfig.agent }] *)
Definition spread_agent (d : Agent.AgentConfig) (u : option UserAgent)
  : Agent.AgentConfig :=
  match u with
  | None => d
  | Some u =>
      Agent.mkAgentConfig (over (user_maxToolCalls u) (Agent.maxToolCalls d))
                          (over (user_systemPrompt u) (Agent.systemPrompt d))
  end.

(** Assignment of one key of an object kept as the list of its entries. *)
Fixpoint servers_set (servers : list (string * Mcp.MCPServerConfig)) (key : string)
         (value : Mcp.MCPServerConfig) : list (string * Mcp.MCPServerConfig) :=
  match servers with
  | [] => [(key, value)]
  | (k, v) :: rest =>
      if String.eqb k key then (k, value) :: rest
      else (k, v) :: servers_set rest key value
  end.

(** [{ ...DEFAULT_CONFIG.mcpServers, ...userConfig.mcpServers }] *)
Definition spread_servers (d : list (string * Mcp.MCPServerConfig))
           (u : option (list (string * Mcp.MCPServerConfig)))
  : list (string * Mcp.MCPServerConfig) :=
  match u with
  | None => d
  | Some entries => fold_left (fun acc kv => servers_set acc (fst kv) (snd kv)) entries d
  end.

(** The object [loadConfig] returns for a parsed file. *)
Definition merge (d : Config) (u : UserConfig) : Config :=
  {| ollama := spread_ollama (ollama d) (user_ollama u);
     mcpServers := spread_servers (mcpServers d) (user_mcpServers u);
     agent := spread_agent (agent d) (user_agent u) |}.

(** A complete configuration written out as a file would have it: a key
    whose value is [undefined] is not written. *)
Definition as_user (c : Config) : UserConfig :=
  {| user_ollama := Some {| user_model := Some (model (ollama c));
                            user_baseUrl := Some (baseUrl (ollama c));
                            user_options := options (ollama c) |};
     user_mcpServers := Some (mcpServers c);
     user_agent := Some {| user_maxToolCalls := Some (Agent.maxToolCalls (agent c));
                           user_systemPrompt := Some (Agent.systemPrompt (agent c)) |} |}.

End Config.

(* ------------------------------------------------------------------------ *)
(** ** cli.ts: the vault path of the "obsidian" server                      *)
(* ------------------------------------------------------------------------ *)

Module Vault.
Import Mcp.

(** [mcpServers.obsidian] and the like: the value of a key of the object. *)
Fixpoint servers_get (servers : list (string * MCPServerConfig)) (key : string)
  : option MCPServerConfig :=
  match servers with
  | [] => None
  | (k, v) :: rest => if String.eqb k key then Some v else servers_get rest key
  end.

(** [extractVaultPath(mcpServers)] *)
Definition extractVaultPath (mcpServers : list (string * MCPServerConfig))
  : option string :=
  match servers_get mcpServers "obsidian" with
  | Some obsidian =>
      if (1 <? Z.of_nat (List.length (args obsidian)))
      then Some (last (args obsidian) "")
      else None
  | None => None
  end.

(** [createMCPConfigWithPath(originalServers, newPath)] *)
Definition createMCPConfigWithPath (originalServers : list (string * MCPServerConfig))
           (newPath : string) : list (string * MCPServerConfig) :=
  match servers_get originalServers "obsidian" with
  | Some obsidian =>
      Config.servers_set originalServers "obsidian"
        (mkMCPServerConfig (command obsidian)
                           (removelast (args obsidian) ++ [newPath])%list
                           (env obsidian))
  | None => originalServers
  end.

End Vault.

(* ------------------------------------------------------------------------ *)
(** ** ollama-client.ts: [checkModelAvailable] and [filterThinkingBlocks]   *)
(* ------------------------------------------------------------------------ *)

Module OllamaMore.

(** [s.split(":")[0]] *)
Fixpoint before_colon (s : string) : string :=
  match s with
  | EmptyString => EmptyString
  | String c rest => if Ascii.eqb c ":" then EmptyString else String c (before_colon rest)
  end.

(** [checkModelAvailable()]: [listing] is what [listModels()] gives, the
    names of the installed models, or what it throws. *)
Definition checkModelAvailable (listing : Agent.Exception + list string)
           (model : string) : bool :=
  match listing with
  | inl _ => false
  | inr names =>
      existsb (fun n => (String.eqb n model
                         || JS.startsWith n (before_colon model))%bool) names
  end.

(** A character of the pattern against a character of the text under the
    [i] flag: the pattern letters are lower-case ASCII. *)
Definition matches_ci (pattern text : ascii) : bool :=
  Ascii.eqb pattern (JS.lowerChar text).

(** The literal [p] of the pattern matches at the start of [s]. *)
Fixpoint literal_at (p s : string) : bool :=
  match p, s with
  | EmptyString, _ => true
  | String a p', String b s' => (matches_ci a b && literal_at p' s')%bool
  | String _ _, EmptyString => false
  end.

(** [</think>] matches somewhere in [s]. *)
Fixpoint closes (s : string) : bool :=
  (literal_at "</think>" s
   || match s with
      | EmptyString => false
      | String _ rest => closes rest
      end)%bool.

Fixpoint drop (n : nat) (s : string) : string :=
  match n, s with
  | O, _ => s
  | S n', String _ rest => drop n' rest
  | S _, EmptyString => EmptyString
  end.

(** Where the scan of [replace(/<think>[\s\S]*?<\/think>\s*/gi, "")] is:
    outside a match, inside the lazy [[\s\S]*?], in the trailing [\s*], or
    [n] characters before entering [next] (the rest of a tag being
    consumed). *)
Inductive Scan : Type :=
| Outside
| Inside
| Trailing
| Consume (n : nat) (next : Scan).

(** The text left by the replacement.  A match starts at [<think>] when a
    [</think>] follows it, runs lazily to the first such, and takes the white
    space after it; the scan resumes behind the match. *)
Fixpoint strip (mode : Scan) (s : string) : string :=
  match s with
  | EmptyString => EmptyString
  | String c rest =>
      let outside :=
        if (literal_at "<think>" s && closes (drop 7 s))%bool
        then strip (Consume 6 Inside) rest
        else String c (strip Outside rest) in
      match mode with
      | Outside => outside
      | Inside =>
          if literal_at "</think>" s
          then strip (Consume 7 Trailing) rest
          else strip Inside rest
      | Trailing => if JS.isWhiteSpace c then strip Trailing rest else outside
      | Consume (S (S n)) next => strip (Consume (S n) next) rest
      | Consume _ next => strip next rest
      end
  end.

(** No character of [s] is [c]. *)
Fixpoint lacks (c : ascii) (s : string) : bool :=
  match s with
  | EmptyString => true
  | String x rest => (negb (Ascii.eqb x c) && lacks c rest)%bool
  end.

(** [filterThinkingBlocks(content)] *)
Definition filterThinkingBlocks (content : string) : string :=
  JS.trim (strip Outside content).

End OllamaMore.

(* ------------------------------------------------------------------------ *)
(** ** cli.ts: what holds of the variables of a turn                        *)
(* ------------------------------------------------------------------------ *)

Module RunnerSpec.
Import Runner.

(** The variables of a turn, by how far the turn is: open, ended by one of
    the two results of the race, or ended in the [catch] block. *)
Definition turn_ok (t : Turn) : Prop :=
  aborted (signal t) = cancelled t
  /\ match outcome t with
     | None =>
         Input.waiting (handler t) = true
         /\ escape_listeners t = 1%nat /\ listener_removals t = 0%nat
         /\ timer_running t = negb (cancelled t)
     | Some (Failed _) =>
         Input.waiting (handler t) = false
         /\ escape_listeners t = 1%nat /\ listener_removals t = 0%nat
         /\ timer_running t = negb (cancelled t)
     | Some Cancelled =>
         Input.waiting (handler t) = false
         /\ escape_listeners t = 0%nat /\ listener_removals t = 1%nat
         /\ timer_running t = false
         /\ cancelled t = true
     | Some (Response _) =>
         Input.waiting (handler t) = false
         /\ escape_listeners t = 0%nat /\ listener_removals t = 1%nat
         /\ timer_running t = false
     end.

End RunnerSpec.

(* ------------------------------------------------------------------------ *)
(** ** Properties of the input handler                                      *)
(* ------------------------------------------------------------------------ *)

Module InputFacts.
Import Input.

Ltac break_cond :=
  match goal with
  | |- context [if ?b then _ else _] => destruct b eqn:?
  | |- context [match ?x with _ => _ end] => destruct x eqn:?
  end.

Lemma index_ok_constructor (b : bool) : index_ok (constructor b).
Proof. left. split; reflexivity. Qed.

Lemma index_ok_main_block (s : InputState) (key : string) (code : option Z) :
  index_ok s -> index_ok (fst (main_block s key code)).
Proof.
  unfold index_ok, main_block. intros H.
  repeat break_cond; cbn [fst history historyIndex set_buffer set_history
                          set_historyIndex set_panel set_thinking];
    try assumption; right;
    rewrite ?length_app; cbn [List.length]; lia.
Qed.

Lemma index_ok_handleKey (s : InputState) (key : string) :
  index_ok s -> index_ok (fst (handleKey s key)).
Proof.
  intros H. unfold handleKey.
  destruct (JS.code_is _ 3); [exact H|].
  destruct (waiting s); [exact H|].
  unfold shortcuts_block.
  destruct (panelVisible s) as [[]|] eqn:Hp.
  - destruct (_ || _)%bool; [exact H|].
    unfold commands_block. cbn [panelVisible set_panel].
    apply index_ok_main_block. exact H.
  - unfold commands_block. rewrite Hp.
    repeat break_cond; cbn [fst]; try exact H.
    apply index_ok_main_block. exact H.
  - unfold commands_block. rewrite Hp.
    apply index_ok_main_block. exact H.
Qed.

Lemma index_ok_apply_op (s : InputState) (op : Op) :
  index_ok s -> index_ok (apply_op s op).
Proof.
  destruct op; cbn [apply_op].
  - apply index_ok_handleKey.
  - trivial.
  - trivial.
Qed.

(** C4 (as amended).  In every reachable state of the input handler
    [historyIndex] lies in [-1, history.length]: it is -1 only while
    [history] is still empty (the constructor's value, kept until the first
    non-empty submission or Down keystroke) and lies in
    [0, history.length] otherwise. *)
Theorem historyIndex_range (s : InputState) :
  reachable s ->
  -1 <= historyIndex s <= Z.of_nat (List.length (history s))
  /\ (historyIndex s < 0 -> historyIndex s = -1 /\ history s = []).
Proof.
  intros Hr.
  assert (H : index_ok s).
  { induction Hr as [b | s op _ IH].
    - apply index_ok_constructor.
    - apply index_ok_apply_op, IH. }
  destruct H as [[Hi Hh] | H].
  - rewrite Hi, Hh. cbn [List.length]. split; [lia | auto].
  - split; lia.
Qed.

(** Against C4 as stated: the constructor's state is reachable and its
    [historyIndex], -1, is outside [0, history.length]. *)
Lemma historyIndex_initially_negative :
  reachable (constructor true)
  /\ ~ (0 <= historyIndex (constructor true)
        <= Z.of_nat (List.length (history (constructor true)))).
Proof.
  split.
  - constructor.
  - cbn. lia.
Qed.

Lemma historyIndex_range_witness :
  let s := run (constructor true) (submit_turn "a" ++ [Key key_up]) in
  reachable s
  /\ -1 <= historyIndex s <= Z.of_nat (List.length (history s))
  /\ (historyIndex s < 0 -> historyIndex s = -1 /\ history s = []).
Proof.
  assert (Hr : reachable (run (constructor true) (submit_turn "a" ++ [Key key_up]))).
  { unfold run, submit_turn. cbn [type_text app fold_left].
    repeat apply reach_op. apply reach_constructor. }
  split; [exact Hr | exact (historyIndex_range _ Hr)].
Defined.

(** *** Printable keystrokes *)

Lemma printable_step (s : InputState) (key : string) :
  waiting s = false ->
  printable key ->
  (buffer s = "" -> key <> "?") ->
  let s' := fst (handleKey s key) in
  buffer s' = buffer s ++ key
  /\ cursorPos s' = JS.length (buffer s')
  /\ waiting s' = false.
Proof.
  intros Hw (c & -> & Hc) Hq.
  set (n := nat_of_ascii c) in *.
  assert (Hcode : JS.charCodeAt0 (String c "") = Some (Z.of_nat n)) by reflexivity.
  assert (Hne : forall k, Z.of_nat n <> k -> JS.code_is (Some (Z.of_nat n)) k = false).
  { intros k Hk. apply Z.eqb_neq. exact Hk. }
  assert (Hin : JS.code_in (Some (Z.of_nat n)) 32 127 = true).
  { unfold JS.code_in. apply andb_true_intro. split.
    - apply Z.leb_le. lia.
    - apply Z.ltb_lt. lia. }
  assert (Hup : String.eqb (String c "") key_up = false).
  { unfold key_up, JS.chr. cbn. destruct (Ascii.eqb c _); reflexivity. }
  assert (Hdown : String.eqb (String c "") key_down = false).
  { unfold key_down, JS.chr. cbn. destruct (Ascii.eqb c _); reflexivity. }
  assert (Hmain : forall s0 : InputState,
             waiting s0 = false ->
             (buffer s0 = "" -> String c "" <> "?") ->
             let s' := fst (main_block s0 (String c "") (Some (Z.of_nat n))) in
             buffer s' = buffer s0 ++ String c ""
             /\ cursorPos s' = JS.length (buffer s')
             /\ waiting s' = waiting s0).
  { intros s0 Hw0 Hq0. unfold main_block.
    rewrite (Hne 9), (Hne 13), (Hne 127), (Hne 8) by lia.
    rewrite Hup, Hdown, Hin. cbn [andb orb].
    destruct (String.eqb (String c "") "?") eqn:Eq.
    - apply String.eqb_eq in Eq.
      destruct (JS.length (buffer s0) =? 0) eqn:El.
      + exfalso. apply Hq0; [|exact Eq].
        apply Z.eqb_eq in El. unfold JS.length in El.
        destruct (buffer s0); [reflexivity | cbn in El; lia].
      + cbn [andb]. rewrite Eq. cbn. auto.
    - cbn [andb].
      destruct (String.eqb (String c "") "/") eqn:Es.
      + apply String.eqb_eq in Es.
        destruct (JS.length (buffer s0) =? 0) eqn:El; cbn [andb].
        * apply Z.eqb_eq in El. unfold JS.length in El.
          assert (Hb : buffer s0 = "").
          { destruct (buffer s0); [reflexivity | cbn in El; lia]. }
          rewrite Hb, Es. cbn. auto.
        * cbn. auto.
      + cbn. auto. }
  unfold handleKey. rewrite Hcode, (Hne 3), Hw by lia.
  unfold shortcuts_block.
  destruct (panelVisible s) as [[]|] eqn:Hp.
  - rewrite (Hne 127), (Hne 8), (Hne 27) by lia. cbn [orb].
    unfold commands_block. cbn [panelVisible set_panel].
    destruct (Hmain (set_panel s None) Hw Hq) as (H1 & H2 & H3).
    repeat split; [exact H1 | exact H2 | exact (eq_trans H3 Hw)].
  - unfold commands_block. rewrite Hp.
    rewrite (Hne 27), (Hne 127), (Hne 8), (Hne 13), Hin by lia.
    cbn. auto.
  - unfold commands_block. rewrite Hp.
    destruct (Hmain s Hw Hq) as (H1 & H2 & H3).
    repeat split; [exact H1 | exact H2 | exact (eq_trans H3 Hw)].
Qed.

Lemma printable_nonempty (key : string) : printable key -> key <> "".
Proof. intros (c & -> & _). discriminate. Qed.

Lemma append_nonempty (a b : string) : b <> "" -> a ++ b <> "".
Proof. destruct a; cbn; [auto | discriminate]. Qed.

Lemma append_assoc (a b c : string) : (a ++ b) ++ c = a ++ (b ++ c).
Proof. induction a as [|x a IH]; cbn; [reflexivity | now rewrite IH]. Qed.

Lemma printable_run (keys : list string) :
  forall s : InputState,
    waiting s = false ->
    Forall printable keys ->
    (buffer s = "" -> hd "" keys <> "?") ->
    let s' := run s (map Key keys) in
    buffer s' = buffer s ++ concat_keys keys
    /\ (keys <> [] -> cursorPos s' = JS.length (buffer s'))
    /\ waiting s' = false.
Proof.
  induction keys as [|key keys IH]; intros s Hw Hp Hq.
  - cbn. repeat split; [|congruence | exact Hw].
    clear. induction (buffer s) as [|x b IHb]; cbn; [reflexivity | now rewrite <- IHb].
  - inversion Hp as [|? ? Hk Hks]; subst.
    destruct (printable_step s key Hw Hk Hq) as (Hb & Hc & Hw').
    assert (Hne : buffer (fst (handleKey s key)) <> "").
    { rewrite Hb. apply append_nonempty, printable_nonempty, Hk. }
    destruct (IH (fst (handleKey s key)) Hw' Hks) as (IHb & IHc & IHw).
    { intros E. contradiction. }
    cbv zeta in *.
    change (run s (map Key (key :: keys)))
      with (run (fst (handleKey s key)) (map Key keys)).
    change (concat_keys (key :: keys)) with (key ++ concat_keys keys).
    repeat split.
    + rewrite IHb, Hb. apply append_assoc.
    + intros _. destruct keys as [|k2 keys].
      * cbn. exact Hc.
      * apply IHc. discriminate.
    + exact IHw.
Qed.

Lemma Forall_firstn {A} (P : A -> Prop) (n : nat) (l : list A) :
  Forall P l -> Forall P (firstn n l).
Proof.
  intros H. revert n. induction H as [|x l Hx Hl IH]; intros [|n]; cbn; auto.
Qed.

(** C5 (as amended).  For every sequence of printable keystrokes (codes
    32..126) whose first keystroke is not "?", fed one at a time to a
    handler with an empty buffer that is not waiting, the buffer after each
    step is the concatenation of the keystrokes fed so far and [cursorPos]
    equals [buffer.length] after each step. *)
Theorem printable_keys_concatenate (s : InputState) (keys : list string) (n : nat) :
  buffer s = "" ->
  waiting s = false ->
  Forall printable keys ->
  hd "" keys <> "?" ->
  (0 < n <= List.length keys)%nat ->
  let s' := run s (map Key (firstn n keys)) in
  buffer s' = concat_keys (firstn n keys)
  /\ cursorPos s' = JS.length (buffer s').
Proof.
  intros Hb Hw Hp Hq Hn.
  destruct (printable_run (firstn n keys) s Hw) as (H1 & H2 & _).
  - apply Forall_firstn, Hp.
  - intros _. destruct n; [lia|]. destruct keys; [cbn in Hn; lia | exact Hq].
  - rewrite Hb in H1. cbn in H1. split; [exact H1|].
    apply H2. destruct n; [lia|]. destruct keys; [cbn in Hn; lia | discriminate].
Qed.

Lemma printable_keys_concatenate_witness :
  let keys := ["h"; "i"; "?"] in
  let s' := run (constructor true) (map Key (firstn 3 keys)) in
  buffer s' = "hi?" /\ cursorPos s' = 3.
Proof.
  refine (printable_keys_concatenate (constructor true) ["h"; "i"; "?"] 3
            eq_refl eq_refl _ _ _).
  - repeat constructor.
    + exists "h"%char. split; [reflexivity | cbn; lia].
    + exists "i"%char. split; [reflexivity | cbn; lia].
    + exists "?"%char. split; [reflexivity | cbn; lia].
  - discriminate.
  - cbn. lia.
Defined.

(** Against C5 as stated: the keystroke "?" is printable (code 63), and
    on the empty buffer it opens the shortcuts panel instead of entering
    the buffer. *)
Lemma question_mark_not_appended :
  Forall printable ["?"]
  /\ buffer (run (constructor true) (map Key ["?"])) = ""
  /\ buffer (run (constructor true) (map Key ["?"])) <> concat_keys ["?"].
Proof.
  split; [|split].
  - repeat constructor. exists "?"%char. split; [reflexivity | cbn; lia].
  - reflexivity.
  - cbn. discriminate.
Qed.

(** *** History navigation *)

(** C7.  With an empty history, after "a", "b" and "c" are submitted in
    that order, three Up keystrokes show "c", "b", "a", a fourth Up leaves
    "a", and three Down keystrokes show "b", "c" and the empty buffer, with
    [historyIndex] back at [history.length]. *)
Theorem history_navigation_abc (supportsThinking : bool) :
  let s0 := run (constructor supportsThinking)
                (submit_turn "a" ++ submit_turn "b" ++ submit_turn "c") in
  let arrows := [Key key_up; Key key_up; Key key_up; Key key_up;
                 Key key_down; Key key_down; Key key_down] in
  history s0 = ["a"; "b"; "c"]
  /\ buffer s0 = ""
  /\ map buffer (states_after s0 arrows) = ["c"; "b"; "a"; "a"; "b"; "c"; ""]
  /\ map historyIndex (states_after s0 arrows) = [2; 1; 0; 0; 1; 2; 3]
  /\ history (run s0 arrows) = ["a"; "b"; "c"].
Proof.
  destruct supportsThinking; vm_compute; repeat split; reflexivity.
Qed.

(** C8 (as amended).  An Up or Down keystroke, in any state, leaves
    [history], [thinkingEnabled], [modelSupportsThinking] and [waiting] as
    they were; [panelVisible] is unchanged or becomes [null] (an open panel
    is dismissed by the keystroke, whose first byte is ESC), and with no
    panel open and the handler not waiting only [historyIndex], [buffer]
    and [cursorPos] can differ. *)
Theorem arrows_keep_history (s : InputState) (up : bool) :
  let s' := fst (handleKey s (if up then key_up else key_down)) in
  history s' = history s
  /\ thinkingEnabled s' = thinkingEnabled s
  /\ modelSupportsThinking s' = modelSupportsThinking s
  /\ waiting s' = waiting s
  /\ panelVisible s' = (if waiting s then panelVisible s else None).
Proof.
  unfold handleKey, shortcuts_block, commands_block, main_block.
  destruct up; cbn [key_up key_down JS.chr JS.charCodeAt0];
    change (JS.charCodeAt0 _) with (Some 27); cbn -[Z.ltb Z.sub Z.add];
    destruct (waiting s) eqn:Hw; cbn -[Z.ltb Z.sub Z.add];
    try (rewrite Hw; repeat split; reflexivity);
    destruct (panelVisible s) as [[]|] eqn:Hp; cbn -[Z.ltb Z.sub Z.add];
    rewrite ?Hp; cbn -[Z.ltb Z.sub Z.add];
    repeat break_cond; cbn; rewrite ?Hw, ?Hp; repeat split; reflexivity.
Qed.

(** Against C8 as stated: with the shortcuts panel open (after "?" on the
    empty buffer), an Up keystroke changes [panelVisible], which is none of
    [historyIndex], [buffer], [cursorPos]. *)
Lemma arrow_dismisses_panel :
  let s := run (constructor true) [Key "?"] in
  panelVisible s = Some shortcuts
  /\ panelVisible (fst (handleKey s key_up)) = None
  /\ panelVisible (fst (handleKey s key_up)) <> panelVisible s.
Proof.
  vm_compute. repeat split; discriminate.
Qed.

End InputFacts.

(* ------------------------------------------------------------------------ *)
(** ** Properties of the agent                                              *)
(* ------------------------------------------------------------------------ *)

Module AgentFacts.
Import Agent.
Local Open Scope agent_scope.

(** *** The budget as a number *)

(** Against an integer, a finite budget counts as its ceiling. *)
Lemma int_lt_ceiling (i p : Z) (q : positive) :
  JS.int_lt i (JS.Finite p q) = (i <? JS.ceiling p q).
Proof.
  unfold JS.int_lt, JS.ceiling.
  pose proof (Z.div_mod (- p) (Z.pos q) ltac:(lia)) as Hd.
  pose proof (Z.mod_pos_bound (- p) (Z.pos q) ltac:(lia)) as Hm.
  destruct (Z.ltb_spec (i * Z.pos q) p), (Z.ltb_spec i (- (- p / Z.pos q)));
    try reflexivity; exfalso; nia.
Qed.

Lemma int_lt_is_int (n : JS.number) (z i : Z) :
  JS.is_int n z -> JS.int_lt i n = (i <? z).
Proof.
  destruct n as [p q| | |]; cbn; try contradiction. intros ->.
  destruct (Z.ltb_spec (i * Z.pos q) (z * Z.pos q)), (Z.ltb_spec i z);
    try reflexivity; exfalso; nia.
Qed.

Lemma is_int_ceiling (p : Z) (q : positive) (z : Z) :
  JS.is_int (JS.Finite p q) z -> JS.ceiling p q = z.
Proof.
  cbn. intros ->. unfold JS.ceiling.
  replace (- (z * Z.pos q)) with (- z * Z.pos q) by lia.
  rewrite Z.div_mul by lia. lia.
Qed.

Lemma int_lt_mono (i j : Z) (n : JS.number) :
  i <= j -> JS.int_lt j n = true -> JS.int_lt i n = true.
Proof.
  destruct n as [p q| | |]; cbn; auto. rewrite !Z.ltb_lt. nia.
Qed.

Lemma passes_is_int (n : JS.number) (z : Z) (patience : nat) :
  JS.is_int n z -> passes n patience = Z.to_nat z.
Proof.
  destruct n as [p q| | |]; cbn [JS.is_int]; try contradiction.
  intros H. cbn [passes]. now rewrite (is_int_ceiling _ _ _ H).
Qed.

(** The passes followed under a budget that is not infinite exhaust it. *)
Lemma passes_enough (n : JS.number) (patience : nat) :
  n <> JS.PosInfinity ->
  JS.int_lt (0 + Z.of_nat (passes n patience)) n = false.
Proof.
  destruct n as [p q| | |]; intros Hn; try reflexivity; [|congruence].
  rewrite int_lt_ceiling. cbn [passes]. apply Z.ltb_ge. lia.
Qed.

(** A budget above zero has the first pass followed. *)
Lemma passes_pos (n : JS.number) (patience : nat) :
  JS.int_lt 0 n = true -> exists k, passes n patience = S k.
Proof.
  destruct n as [p q| | |]; intros H; try discriminate.
  - rewrite int_lt_ceiling in H. apply Z.ltb_lt in H. cbn [passes].
    exists (Z.to_nat (JS.ceiling p q - 1)). lia.
  - exists patience. reflexivity.
Qed.

(** *** The loop *)

Lemma with_messages_nil (a : Agent) : with_messages a [] = a.
Proof. destruct a. unfold with_messages. cbn. now rewrite app_nil_r. Qed.

Lemma with_messages_app (a : Agent) (l1 l2 : list Message) :
  with_messages (with_messages a l1) l2 = with_messages a (l1 ++ l2).
Proof. unfold with_messages. cbn. now rewrite app_assoc. Qed.

(** The [for] loop in closed form: every invocation is dispatched, in
    order, whatever the counter is, and none of them throws. *)
Lemma process_tool_calls_eq (toolCalls : list ToolCall) :
  forall (count : Z) (used : list string) (a : Agent),
    process_tool_calls toolCalls count used a
    = (inr (count + Z.of_nat (List.length toolCalls),
            (used ++ map name toolCalls)%list),
       with_messages a
         (map (fun tc => result_message (call_result (mcpClient a) tc)) toolCalls),
       map (dispatch_effect (mcpClient a)) toolCalls).
Proof.
  induction toolCalls as [|tc rest IH]; intros count used a.
  - cbn. unfold ret. rewrite with_messages_nil, Z.add_0_r, app_nil_r. reflexivity.
  - cbn [process_tool_calls]. unfold bind at 1.
    unfold try_catch, bind, mcp_callTool, push_conversation.
    fold (call_result (mcpClient a) tc).
    destruct (call_result (mcpClient a) tc) as [error|text] eqn:Hc.
    + cbn [app]. rewrite IH. cbn [mcpClient map List.length].
      unfold dispatch_effect at 2. rewrite Hc.
      fold (with_messages a [tool_message ("Error: " ++ errorMsg error)]).
      rewrite with_messages_app. cbn [result_message app].
      rewrite <- app_assoc. cbn [app].
      replace (count + 1 + Z.of_nat (List.length rest))
        with (count + Z.of_nat (S (List.length rest))) by lia.
      reflexivity.
    + cbn [app]. rewrite IH. cbn [mcpClient map List.length].
      unfold dispatch_effect at 2. rewrite Hc.
      fold (with_messages a [tool_message text]).
      rewrite with_messages_app. cbn [result_message app].
      rewrite <- app_assoc. cbn [app].
      replace (count + 1 + Z.of_nat (List.length rest))
        with (count + Z.of_nat (S (List.length rest))) by lia.
      reflexivity.
Qed.

(** One pass of the [while] loop, with the [for] loop in closed form. *)
Lemma chat_loop_unfold (fuel : nat) (tools : list Tool) (count : Z)
      (used : list string) (a : Agent) :
  chat_loop fuel tools count used a =
  if JS.int_lt count (maxToolCalls (config a)) then
    match fuel with
    | O => (inr OutOfFuel, a, [])
    | S fuel' =>
        let req := loop_request tools a in
        match runtime (ollamaClient a) req with
        | inl error => (inl error, a, [ModelCall req (inl error)])
        | inr message =>
            let a1 := with_messages a [message] in
            match tool_calls message with
            | Some (tc :: tcs) =>
                let calls := tc :: tcs in
                match chat_loop fuel' tools
                        (count + Z.of_nat (List.length calls))
                        (used ++ map name calls)
                        (with_messages a1
                           (map (fun c => result_message (call_result (mcpClient a) c))
                                calls))
                with
                | (r, a', t) =>
                    (r, a',
                     ModelCall req (inr message)
                     :: map (dispatch_effect (mcpClient a)) calls ++ t)
                end
            | _ =>
                let content := JS.or_else (content message) "" in
                (inr (Returned (mkAgentResponse content used)),
                 with_turn a1 (mkChatTurn "assistant" content (used_or_undefined used)),
                 [ModelCall req (inr message)])
            end
        end
    end
  else (inr (BudgetSpent used), a, []).
Proof.
  destruct fuel as [|fuel'];
    cbn [chat_loop]; unfold bind at 1; unfold get;
    destruct (JS.int_lt count (maxToolCalls (config a))); try reflexivity.
  unfold bind at 1. unfold ollama_chat. fold (loop_request tools a).
  destruct (runtime (ollamaClient a) (loop_request tools a)) as [error|message];
    [reflexivity|].
  unfold bind at 1. unfold push_conversation at 1.
  fold (with_messages a [message]).
  destruct (tool_calls message) as [[|tc tcs]|]; try reflexivity.
  unfold bind at 1. rewrite process_tool_calls_eq.
  cbn [fst snd mcpClient with_messages].
  match goal with |- context [chat_loop fuel' tools ?c ?u ?x] =>
    destruct (chat_loop fuel' tools c u x) as [[r a'] t] end.
  reflexivity.
Qed.

(** Induction over the passes of the loop. *)
Lemma chat_loop_ind (tools : list Tool)
      (P : nat -> Z -> list string -> Agent
           -> (Exception + LoopEnd) * Agent * list Effect -> Prop) :
  (forall fuel count used a,
      JS.int_lt count (maxToolCalls (config a)) = false ->
      P fuel count used a (inr (BudgetSpent used), a, [])) ->
  (forall count used a,
      JS.int_lt count (maxToolCalls (config a)) = true ->
      P O count used a (inr OutOfFuel, a, [])) ->
  (forall fuel count used a error,
      JS.int_lt count (maxToolCalls (config a)) = true ->
      runtime (ollamaClient a) (loop_request tools a) = inl error ->
      P (S fuel) count used a
        (inl error, a, [ModelCall (loop_request tools a) (inl error)])) ->
  (forall fuel count used a message,
      JS.int_lt count (maxToolCalls (config a)) = true ->
      runtime (ollamaClient a) (loop_request tools a) = inr message ->
      tool_calls message = None \/ tool_calls message = Some [] ->
      let content := JS.or_else (content message) "" in
      P (S fuel) count used a
        (inr (Returned (mkAgentResponse content used)),
         with_turn (with_messages a [message])
                   (mkChatTurn "assistant" content (used_or_undefined used)),
         [ModelCall (loop_request tools a) (inr message)])) ->
  (forall fuel count used a message calls r a' t,
      JS.int_lt count (maxToolCalls (config a)) = true ->
      runtime (ollamaClient a) (loop_request tools a) = inr message ->
      tool_calls message = Some calls ->
      calls <> [] ->
      P fuel (count + Z.of_nat (List.length calls)) (used ++ map name calls)%list
        (with_messages (with_messages a [message])
           (map (fun c => result_message (call_result (mcpClient a) c)) calls))
        (r, a', t) ->
      P (S fuel) count used a
        (r, a',
         ModelCall (loop_request tools a) (inr message)
         :: map (dispatch_effect (mcpClient a)) calls ++ t)) ->
  forall fuel count used a, P fuel count used a (chat_loop fuel tools count used a).
Proof.
  intros Hspent Hfuel Hthrow Hanswer Htools.
  induction fuel as [|fuel IH]; intros count used a;
    rewrite chat_loop_unfold;
    destruct (JS.int_lt count (maxToolCalls (config a))) eqn:Hlt;
    try (apply Hspent; exact Hlt).
  - apply Hfuel. exact Hlt.
  - cbv zeta.
    destruct (runtime (ollamaClient a) (loop_request tools a))
      as [error|message] eqn:Hrun.
    + apply Hthrow; assumption.
    + destruct (tool_calls message) as [[|tc tcs]|] eqn:Hcalls.
      * apply Hanswer; auto.
      * specialize (IH (count + Z.of_nat (List.length (tc :: tcs)))
                       (used ++ map name (tc :: tcs))%list
                       (with_messages (with_messages a [message])
                          (map (fun c => result_message (call_result (mcpClient a) c))
                               (tc :: tcs)))).
        destruct (chat_loop fuel tools _ _ _) as [[r a'] t].
        apply Htools with (message := message); auto. discriminate.
      * apply Hanswer; auto.
Qed.

(** The loop leaves the collaborators and the configuration alone. *)
Lemma chat_loop_frame (tools : list Tool) (fuel : nat) (count : Z)
      (used : list string) (a : Agent) :
  let a' := snd (fst (chat_loop fuel tools count used a)) in
  ollamaClient a' = ollamaClient a
  /\ mcpClient a' = mcpClient a
  /\ config a' = config a.
Proof.
  revert fuel count used a.
  apply (chat_loop_ind tools
           (fun _ _ _ a x =>
              ollamaClient (snd (fst x)) = ollamaClient a
              /\ mcpClient (snd (fst x)) = mcpClient a
              /\ config (snd (fst x)) = config a));
    intros; cbn in *; auto.
Qed.

Lemma dispatches_app (t1 t2 : list Effect) :
  dispatches (t1 ++ t2) = dispatches t1 + dispatches t2.
Proof.
  unfold dispatches. rewrite filter_app, length_app. lia.
Qed.

Lemma dispatches_map (m : MCPClientManager) (calls : list ToolCall) :
  dispatches (map (dispatch_effect m) calls) = Z.of_nat (List.length calls).
Proof.
  unfold dispatches. induction calls as [|c calls IH]; cbn in *; [reflexivity|lia].
Qed.

Lemma dispatches_nonneg (t : list Effect) : 0 <= dispatches t.
Proof. unfold dispatches. lia. Qed.

(** The dispatches of a pass that dispatched [calls] and went on with [t]. *)
Lemma dispatches_pass (m : MCPClientManager) (req : ChatRequest)
      (reply : Exception + Message) (calls : list ToolCall) (t : list Effect) :
  dispatches (ModelCall req reply :: map (dispatch_effect m) calls ++ t)
  = Z.of_nat (List.length calls) + dispatches t.
Proof.
  change (ModelCall req reply :: map (dispatch_effect m) calls ++ t)%list
    with ([ModelCall req reply] ++ map (dispatch_effect m) calls ++ t)%list.
  rewrite !dispatches_app, dispatches_map.
  unfold dispatches at 1. cbn [filter is_dispatch List.length]. lia.
Qed.

Lemma dispatched_names_app (t1 t2 : list Effect) :
  dispatched_names (t1 ++ t2) = (dispatched_names t1 ++ dispatched_names t2)%list.
Proof.
  induction t1 as [|[req reply|n args res] t1 IH]; cbn; [reflexivity|exact IH|].
  now rewrite IH.
Qed.

Lemma dispatched_names_map (m : MCPClientManager) (calls : list ToolCall) :
  dispatched_names (map (dispatch_effect m) calls) = map name calls.
Proof.
  induction calls as [|c calls IH]; cbn; [reflexivity | now rewrite IH].
Qed.

Lemma dispatched_names_In (t : list Effect) (n args : string)
      (res : Exception + string) :
  In (ToolDispatch n args res) t -> In n (dispatched_names t).
Proof.
  induction t as [|[req reply|n' args' res'] t IH]; cbn; intros H.
  - contradiction.
  - destruct H as [H|H]; [discriminate | auto].
  - destruct H as [H|H]; [injection H as -> _ _; now left | right; auto].
Qed.

(** How the loop ends: it throws only what a model call threw, the tools
    it reports are those it dispatched, it gives up its budget only when
    the counter reached it, and it runs out of passes only if the budget
    allows more dispatches than it was given passes. *)
Lemma chat_loop_end (tools : list Tool) (fuel : nat) (count : Z)
      (used : list string) (a : Agent) :
  let x := chat_loop fuel tools count used a in
  match fst (fst x) with
  | inl error => exists req, In (ModelCall req (inl error)) (snd x)
  | inr (Returned response) =>
      resp_toolsUsed response = (used ++ dispatched_names (snd x))%list
  | inr (BudgetSpent used') =>
      used' = (used ++ dispatched_names (snd x))%list
      /\ JS.int_lt (count + dispatches (snd x)) (maxToolCalls (config a)) = false
  | inr OutOfFuel =>
      JS.int_lt (count + Z.of_nat fuel) (maxToolCalls (config a)) = true
  end.
Proof.
  revert fuel count used a.
  apply (chat_loop_ind tools
           (fun fuel count used a x =>
              match fst (fst x) with
              | inl error => exists req, In (ModelCall req (inl error)) (snd x)
              | inr (Returned response) =>
                  resp_toolsUsed response = (used ++ dispatched_names (snd x))%list
              | inr (BudgetSpent used') =>
                  used' = (used ++ dispatched_names (snd x))%list
                  /\ JS.int_lt (count + dispatches (snd x)) (maxToolCalls (config a))
                     = false
              | inr OutOfFuel =>
                  JS.int_lt (count + Z.of_nat fuel) (maxToolCalls (config a)) = true
              end)).
  - intros fuel count used a H. cbn [fst snd]. rewrite app_nil_r.
    split; [reflexivity|].
    change (dispatches []) with 0. now rewrite Z.add_0_r.
  - intros count used a H. cbn [fst snd]. change (Z.of_nat 0) with 0.
    now rewrite Z.add_0_r.
  - intros fuel count used a error _ _. cbn. eexists. left. reflexivity.
  - intros fuel count used a message _ _ _. cbn. now rewrite app_nil_r.
  - intros fuel count used a message calls r a' t Hlt Hrun Hcalls Hne IH.
    cbn [fst snd] in *. cbn [config with_messages] in IH.
    assert (Hlen : 0 < Z.of_nat (List.length calls)).
    { destruct calls; [congruence | cbn; lia]. }
    destruct r as [error | [response | used' |]].
    + destruct IH as [req Hin]. exists req.
      right. apply in_or_app. right. exact Hin.
    + rewrite IH. cbn [dispatched_names].
      rewrite dispatched_names_app, dispatched_names_map. now rewrite app_assoc.
    + destruct IH as [IH1 IH2]. split.
      * rewrite IH1. cbn [dispatched_names].
        rewrite dispatched_names_app, dispatched_names_map. now rewrite app_assoc.
      * rewrite dispatches_pass.
        replace (count + (Z.of_nat (List.length calls) + dispatches t))
          with (count + Z.of_nat (List.length calls) + dispatches t) by lia.
        exact IH2.
    + apply (int_lt_mono _ (count + Z.of_nat (List.length calls) + Z.of_nat fuel));
        [lia | exact IH].
Qed.

(** [chat] around its loop. *)
Lemma chat_unfold (patience : nat) (userMessage : string) (a : Agent) :
  chat patience userMessage a =
  let a0 := with_messages (with_turn a (mkChatTurn "user" userMessage None))
                          [mkMessage "user" userMessage None] in
  match chat_loop (passes (maxToolCalls (config a)) patience)
                  (getOllamaTools (mcpClient a)) 0 [] a0 with
  | (inl error, a1, t) => (inl error, a1, t)
  | (inr (Returned response), a1, t) => (inr (Some response), a1, t)
  | (inr (BudgetSpent used), a1, t) =>
      let req := final_request a1 in
      match runtime (ollamaClient a1) req with
      | inl error => (inl error, a1, (t ++ [ModelCall req (inl error)])%list)
      | inr message =>
          let content := JS.or_else (content message) "(No response)" in
          (inr (Some (mkAgentResponse content used)),
           with_turn (with_messages a1 [message])
                     (mkChatTurn "assistant" content (used_or_undefined used)),
           (t ++ [ModelCall req (inr message)])%list)
      end
  | (inr OutOfFuel, a1, t) => (inr None, a1, t)
  end.
Proof.
  unfold chat.
  unfold bind at 1. unfold push_chatHistory at 1.
  unfold bind at 1. unfold push_conversation at 1.
  unfold bind at 1. unfold get at 1.
  unfold bind at 1. cbn [mcpClient config app].
  fold (with_turn a (mkChatTurn "user" userMessage None)).
  fold (with_messages (with_turn a (mkChatTurn "user" userMessage None))
                      [mkMessage "user" userMessage None]).
  cbv zeta.
  destruct (chat_loop _ _ _ _ _) as [[[error | [response | used |]] a1] t];
    try reflexivity.
  - unfold ret. now rewrite app_nil_r.
  - unfold bind at 1. unfold ollama_chat. fold (final_request a1).
    destruct (runtime (ollamaClient a1) (final_request a1)) as [error|message];
      [reflexivity|].
    cbn. reflexivity.
  - unfold ret. now rewrite app_nil_r.
Qed.

(** Under a budget that is not infinite the passes followed are all there
    are: [chat] returns a response or throws. *)
Lemma chat_total (patience : nat) (userMessage : string) (a : Agent) :
  maxToolCalls (config a) <> JS.PosInfinity ->
  fst (fst (chat patience userMessage a)) <> inr None.
Proof.
  intros Hfin. rewrite chat_unfold. cbv zeta.
  pose proof (chat_loop_end (getOllamaTools (mcpClient a))
                (passes (maxToolCalls (config a)) patience) 0 []
                (with_messages (with_turn a (mkChatTurn "user" userMessage None))
                               [mkMessage "user" userMessage None])) as H.
  cbv zeta in H.
  destruct (chat_loop _ _ _ _ _) as [[[error | [response | used |]] a1] t];
    cbn [fst snd] in *; try discriminate.
  - destruct (runtime _ _); discriminate.
  - cbn [config with_messages with_turn] in H.
    rewrite (passes_enough _ patience Hfin) in H. discriminate.
Qed.



(** The loop only appends to the conversation, and for every dispatch of
    its trace, recorded with what [callTool] answered, the tool-role message
    of that answer is among the messages appended. *)
Lemma chat_loop_history (tools : list Tool) (fuel : nat) (count : Z)
      (used : list string) (a : Agent) :
  let x := chat_loop fuel tools count used a in
  exists delta,
    conversationHistory (snd (fst x)) = (conversationHistory a ++ delta)%list
    /\ forall n args res,
        In (ToolDispatch n args res) (snd x) ->
        res = callTool (mcpClient a) n args /\ In (result_message res) delta.
Proof.
  revert fuel count used a.
  apply (chat_loop_ind tools
           (fun _ _ _ a x =>
              exists delta,
                conversationHistory (snd (fst x)) = (conversationHistory a ++ delta)%list
                /\ forall n args res,
                    In (ToolDispatch n args res) (snd x) ->
                    res = callTool (mcpClient a) n args
                    /\ In (result_message res) delta)).
  - intros. exists []. cbn. rewrite app_nil_r. split; [reflexivity | contradiction].
  - intros. exists []. cbn. rewrite app_nil_r. split; [reflexivity | contradiction].
  - intros fuel count used a error _ _. exists []. cbn. rewrite app_nil_r.
    split; [reflexivity|]. intros n args res [H|[]]. discriminate.
  - intros fuel count used a message _ _ _ content0. exists [message]. cbn.
    split; [reflexivity|]. intros n args res [H|[]]. discriminate.
  - intros fuel count used a message calls r a' t _ _ _ _ (delta & Hc & Hd).
    cbn [fst snd] in *. cbn [conversationHistory mcpClient with_messages] in Hc, Hd.
    exists ([message]
            ++ map (fun c => result_message (call_result (mcpClient a) c)) calls
            ++ delta)%list.
    split.
    + rewrite Hc, <- !app_assoc. reflexivity.
    + intros n args res [H|H]; [discriminate|].
      apply in_app_or in H. destruct H as [H|H].
      * apply in_map_iff in H. destruct H as (c & Hc' & Hin).
        unfold dispatch_effect in Hc'. injection Hc' as <- <- <-.
        split; [reflexivity|].
        apply in_or_app. right. apply in_or_app. left.
        apply in_map_iff. exists c. split; [reflexivity | exact Hin].
      * destruct (Hd n args res H) as [H1 H2]. split; [exact H1|].
        apply in_or_app. right. apply in_or_app. right. exact H2.
Qed.

(** A loop whose model calls are all answered does not throw. *)
Lemma chat_loop_no_throw (tools : list Tool) (fuel : nat) (count : Z)
      (used : list string) (a : Agent) :
  (forall req, exists message, runtime (ollamaClient a) req = inr message) ->
  forall error, fst (fst (chat_loop fuel tools count used a)) <> inl error.
Proof.
  revert fuel count used a.
  apply (chat_loop_ind tools
           (fun _ _ _ a x =>
              (forall req, exists message, runtime (ollamaClient a) req = inr message) ->
              forall error, fst (fst x) <> inl error));
    try (intros; cbn; discriminate).
  - intros fuel count used a error _ Hr Hrun.
    destruct (Hrun (loop_request tools a)) as [m Hm]. congruence.
  - intros fuel count used a message calls r a' t _ _ _ _ IH Hrun error.
    cbn [fst] in *. apply IH. exact Hrun.
Qed.

(** [orderly] looks at the collaborators and the budget of its agent only. *)
Lemma orderly_ext (a b : Agent) :
  ollamaClient a = ollamaClient b ->
  mcpClient a = mcpClient b ->
  config a = config b ->
  forall t count pending conv final,
    orderly a count pending conv t final -> orderly b count pending conv t final.
Proof.
  intros Ho Hm Hc.
  induction t as [|[req reply|n args res] t IH]; intros count pending conv final;
    cbn [orderly].
  - auto.
  - rewrite <- Ho, <- Hc. intros (H1 & H2 & H3 & H4).
    repeat split; try assumption.
    destruct reply as [error|message]; [exact H4|].
    destruct (JS.int_lt count (maxToolCalls (config a))); [apply IH|]; exact H4.
  - destruct pending as [|toolCall more]; [auto|].
    rewrite <- Hm. intros (H1 & H2 & H3 & H4). repeat split; auto.
Qed.

(** The dispatches of the [for] loop are the ones a reply asked for. *)
Lemma orderly_dispatches (a : Agent) (calls : list ToolCall) :
  forall count conv t final,
    orderly a (count + Z.of_nat (List.length calls)) []
            (conv ++ map (fun c => result_message (call_result (mcpClient a) c)) calls)
            t final ->
    orderly a count calls conv (map (dispatch_effect (mcpClient a)) calls ++ t) final.
Proof.
  induction calls as [|c calls IH]; intros count conv t final H.
  - cbn [map app List.length] in *. change (Z.of_nat 0) with 0 in H.
    now rewrite Z.add_0_r, app_nil_r in H.
  - cbn [map app]. unfold dispatch_effect at 1. cbn [orderly].
    repeat split. apply IH.
    cbn [map List.length] in H.
    replace (count + 1 + Z.of_nat (List.length calls))
      with (count + Z.of_nat (S (List.length calls))) by lia.
    rewrite <- app_assoc. exact H.
Qed.

(** The trace of the loop is orderly, and stays so with what follows the
    loop. *)
Lemma chat_loop_orderly (tools : list Tool) (fuel : nat) (count : Z)
      (used : list string) (a : Agent) :
  let x := chat_loop fuel tools count used a in
  match fst (fst x) with
  | inl _ =>
      orderly a count [] (conversationHistory a) (snd x)
              (conversationHistory (snd (fst x)))
  | inr _ =>
      forall tail final,
        orderly a (count + dispatches (snd x)) []
                (conversationHistory (snd (fst x))) tail final ->
        orderly a count [] (conversationHistory a) (snd x ++ tail) final
  end.
Proof.
  revert fuel count used a.
  apply (chat_loop_ind tools
           (fun _ count _ a x =>
              match fst (fst x) with
              | inl _ =>
                  orderly a count [] (conversationHistory a) (snd x)
                          (conversationHistory (snd (fst x)))
              | inr _ =>
                  forall tail final,
                    orderly a (count + dispatches (snd x)) []
                            (conversationHistory (snd (fst x))) tail final ->
                    orderly a count [] (conversationHistory a) (snd x ++ tail) final
              end)).
  - intros fuel count used a _ tail final H. cbn [fst snd app] in *.
    change (dispatches []) with 0 in H. now rewrite Z.add_0_r in H.
  - intros count used a _ tail final H. cbn [fst snd app] in *.
    change (dispatches []) with 0 in H. now rewrite Z.add_0_r in H.
  - intros fuel count used a error _ Hrun. cbn [fst snd orderly].
    rewrite Hrun. repeat split; reflexivity.
  - intros fuel count used a message Hlt Hrun Hnone content0 tail final H.
    cbn [fst snd app orderly] in *.
    cbn [conversationHistory with_turn with_messages] in H.
    change (dispatches [ModelCall (loop_request tools a) (inr message)]) with 0 in H.
    rewrite Z.add_0_r in H.
    rewrite Hrun, Hlt. repeat split; try reflexivity.
    unfold requested_calls. destruct Hnone as [-> | ->]; exact H.
  - intros fuel count used a message calls r a' t Hlt Hrun Hcalls Hne IH.
    cbn [fst snd] in *.
    set (a2 := with_messages (with_messages a [message]) _) in IH.
    assert (Hfwd : forall t count pending conv final,
               orderly a2 count pending conv t final ->
               orderly a count pending conv t final)
      by (apply orderly_ext; reflexivity).
    assert (Hbwd : forall t count pending conv final,
               orderly a count pending conv t final ->
               orderly a2 count pending conv t final)
      by (apply orderly_ext; reflexivity).
    assert (Hconv : conversationHistory a2
                    = ((conversationHistory a ++ [message])
                       ++ map (fun c => result_message (call_result (mcpClient a) c))
                              calls)%list)
      by reflexivity.
    destruct r as [error | e].
    + cbn [orderly]. rewrite Hrun, Hlt. repeat split; try reflexivity.
      unfold requested_calls. rewrite Hcalls.
      apply orderly_dispatches. rewrite <- Hconv. apply Hfwd. exact IH.
    + intros tail final H. cbn [app orderly].
      rewrite Hrun, Hlt. repeat split; try reflexivity.
      unfold requested_calls. rewrite Hcalls.
      rewrite <- app_assoc. apply orderly_dispatches. rewrite <- Hconv.
      apply Hfwd. apply IH. apply Hbwd.
      rewrite dispatches_pass in H.
      replace (count + Z.of_nat (List.length calls) + dispatches t)
        with (count + (Z.of_nat (List.length calls) + dispatches t)) by lia.
      exact H.
Qed.

(** A loop that returns an answer ends its trace with the model call that
    gave it. *)
Lemma chat_loop_answer (tools : list Tool) (fuel : nat) (count : Z)
      (used : list string) (a : Agent) :
  let x := chat_loop fuel tools count used a in
  match fst (fst x) with
  | inr (Returned response) =>
      exists pre req message,
        snd x = (pre ++ [ModelCall req (inr message)])%list
        /\ resp_content response = content message
  | _ => True
  end.
Proof.
  revert fuel count used a.
  apply (chat_loop_ind tools
           (fun _ _ _ _ x =>
              match fst (fst x) with
              | inr (Returned response) =>
                  exists pre req message,
                    snd x = (pre ++ [ModelCall req (inr message)])%list
                    /\ resp_content response = content message
              | _ => True
              end)); try (intros; exact I).
  - intros fuel count used a message _ _ _ content0. cbn [fst snd].
    exists [], (loop_request tools a), message. split; [reflexivity|].
    cbn [resp_content]. subst content0. unfold JS.or_else.
    destruct (content message); reflexivity.
  - intros fuel count used a message calls r a' t _ _ _ _ IH. cbn [fst snd] in *.
    destruct r as [error | [response | used' |]]; try exact I.
    destruct IH as (pre & req & m & Ht & Hc).
    exists (ModelCall (loop_request tools a) (inr message)
            :: map (dispatch_effect (mcpClient a)) calls ++ pre)%list, req, m.
    split; [|exact Hc]. rewrite Ht. cbn [app]. now rewrite <- app_assoc.
Qed.



(** On the sample agent, which has no tool registered, the two dispatches
    of the turn throw "Tool not found", and the turn answers all the same. *)
Lemma unknown_tool_turn_completes :
  let a := sample_agent 2 (mkMessage "assistant" "" (Some [search_call])) in
  let x := chat 0 "find my notes" a in
  fst (fst x) = inr (Some (mkAgentResponse "(No response)"
                                           ["search_notes"; "search_notes"]))
  /\ filter is_dispatch (snd x)
     = [ToolDispatch "search_notes" "{}" (inl (Error "Tool not found: search_notes"));
        ToolDispatch "search_notes" "{}" (inl (Error "Tool not found: search_notes"))]
  /\ map content (conversationHistory (snd (fst x)))
     = ["You are a vault assistant."; "find my notes"; "";
        "Error: Tool not found: search_notes"; "";
        "Error: Tool not found: search_notes"; ""].
Proof. vm_compute. repeat split; reflexivity. Qed.

(** Under an infinite budget, a loop whose model requests the same
    invocations in every reply uses up every pass it is followed for,
    whatever the tools answer. *)
Lemma chat_loop_never_ends (tools : list Tool) (message : Message)
      (fuel : nat) (count : Z) (used : list string) (a : Agent) :
  maxToolCalls (config a) = JS.PosInfinity ->
  runtime (ollamaClient a) = constant_runtime message ->
  (exists toolCall more, tool_calls message = Some (toolCall :: more)) ->
  let x := chat_loop fuel tools count used a in
  fst (fst x) = inr OutOfFuel
  /\ dispatches (snd x) = Z.of_nat fuel * requested message.
Proof.
  revert fuel count used a.
  apply (chat_loop_ind tools
           (fun fuel _ _ a x =>
              maxToolCalls (config a) = JS.PosInfinity ->
              runtime (ollamaClient a) = constant_runtime message ->
              (exists toolCall more, tool_calls message = Some (toolCall :: more)) ->
              fst (fst x) = inr OutOfFuel
              /\ dispatches (snd x) = Z.of_nat fuel * requested message)).
  - intros fuel count used a Hlt Hinf. rewrite Hinf in Hlt. discriminate.
  - intros. split; reflexivity.
  - intros fuel count used a error _ Hrun _ Hconst. rewrite Hconst in Hrun.
    discriminate.
  - intros fuel count used a m _ Hrun Hnone content0 _ Hconst (tc & more & Hcalls).
    rewrite Hconst in Hrun. injection Hrun as <-.
    rewrite Hcalls in Hnone. destruct Hnone; discriminate.
  - intros fuel count used a m calls r a' t _ Hrun Hcalls _ IH Hinf Hconst Hsome.
    rewrite Hconst in Hrun. injection Hrun as <-.
    destruct (IH Hinf Hconst Hsome) as [IH1 IH2]. cbn [fst snd] in *.
    split; [exact IH1|].
    rewrite dispatches_pass, IH2. unfold requested. rewrite Hcalls. lia.
Qed.


(** Turns leave the configuration alone. *)
Lemma chat_config (patience : nat) (userMessage : string) (a : Agent) :
  config (snd (fst (chat patience userMessage a))) = config a.
Proof.
  rewrite chat_unfold. cbv zeta.
  pose proof (chat_loop_frame (getOllamaTools (mcpClient a))
                (passes (maxToolCalls (config a)) patience) 0 []
                (with_messages (with_turn a (mkChatTurn "user" userMessage None))
                               [mkMessage "user" userMessage None])) as Hf.
  cbv zeta in Hf.
  destruct (chat_loop _ _ _ _ _) as [[[error | [response | used |]] a1] t];
    cbn [fst snd] in *; destruct Hf as (_ & _ & Hf); try exact Hf.
  destruct (runtime _ _); cbn [fst snd]; exact Hf.
Qed.

Lemma run_turns_config (patience : nat) (inputs : list string) :
  forall a, config (run_turns patience a inputs) = config a.
Proof.
  induction inputs as [|input inputs IH]; intros a; cbn; [reflexivity|].
  unfold run_turns in IH. rewrite IH. apply chat_config.
Qed.

(** C9.  After any sequence of turns, [clearHistory()] leaves a
    conversation history of length 1 whose only element is the system
    prompt message, and an empty export transcript; the configuration, and
    with it [maxToolCalls], is as it was. *)
Theorem clearHistory_resets (patience : nat) (a : Agent) (inputs : list string) :
  let a' := clearHistory (run_turns patience a inputs) in
  conversationHistory a' = [mkMessage "system" (systemPrompt (config a)) None]
  /\ List.length (conversationHistory a') = 1%nat
  /\ chatHistory a' = []
  /\ config a' = config a.
Proof.
  cbn [clearHistory conversationHistory chatHistory config List.length].
  rewrite run_turns_config. repeat split; reflexivity.
Qed.

(** The bound on the dispatches of a loop: either there are none, or the
    trace splits at the last reply whose invocations were dispatched, and
    the counter was below the budget when that reply was asked for. *)
Lemma chat_loop_bound (tools : list Tool) (fuel : nat) (count : Z)
      (used : list string) (a : Agent) :
  let t := snd (chat_loop fuel tools count used a) in
  dispatches t = 0
  \/ exists pre req message calls rest,
      t = (pre ++ ModelCall req (inr message)
               :: map (dispatch_effect (mcpClient a)) calls ++ rest)%list
      /\ tool_calls message = Some calls
      /\ dispatches rest = 0
      /\ JS.int_lt (count + dispatches pre) (maxToolCalls (config a)) = true.
Proof.
  revert fuel count used a.
  apply (chat_loop_ind tools
           (fun _ count _ a x =>
              dispatches (snd x) = 0
              \/ exists pre req message calls rest,
                  snd x = (pre ++ ModelCall req (inr message)
                               :: map (dispatch_effect (mcpClient a)) calls ++ rest)%list
                  /\ tool_calls message = Some calls
                  /\ dispatches rest = 0
                  /\ JS.int_lt (count + dispatches pre) (maxToolCalls (config a))
                     = true));
    try (intros; left; reflexivity).
  intros fuel count used a message calls r a' t Hlt Hrun Hcalls Hne IH.
  cbn [snd] in *. cbn [mcpClient config with_messages] in IH.
  right. destruct IH as [IH | (pre & req & m & cs & rest & Ht & Hm & Hr & Hb)].
  - exists [], (loop_request tools a), message, calls, t.
    repeat split; try assumption.
    change (dispatches []) with 0. now rewrite Z.add_0_r.
  - exists (ModelCall (loop_request tools a) (inr message)
            :: map (dispatch_effect (mcpClient a)) calls ++ pre)%list,
           req, m, cs, rest.
    repeat split; try assumption.
    + rewrite Ht. cbn [app]. now rewrite <- app_assoc.
    + rewrite dispatches_pass.
      replace (count + (Z.of_nat (List.length calls) + dispatches pre))
        with (count + Z.of_nat (List.length calls) + dispatches pre) by lia.
      exact Hb.
Qed.

(** C10 (as amended).  The budget is looked at between model replies only:
    the [for] loop dispatches every invocation of a reply, whatever the
    counter is; a turn can so dispatch more tools than [maxToolCalls] (three
    on a budget of one); and a turn that dispatches at all had dispatched
    fewer than [maxToolCalls] tools before the last reply whose invocations
    it dispatched.  Under a finite budget it so dispatches at most
    [Math.ceil(maxToolCalls) - 1] tools plus the number of invocations of
    that reply, which is [maxToolCalls - 1] plus that number when
    [maxToolCalls] is an integer. *)
Theorem budget_checked_between_replies :
  (forall (a : Agent) (toolCalls : list ToolCall) (count : Z) (used : list string),
      snd (process_tool_calls toolCalls count used a)
      = map (dispatch_effect (mcpClient a)) toolCalls
      /\ fst (fst (process_tool_calls toolCalls count used a))
         = inr (count + Z.of_nat (List.length toolCalls),
                (used ++ map name toolCalls)%list))
  /\ (let a := sample_agent 1 (mkMessage "assistant" ""
                                         (Some [search_call; read_call; tags_call])) in
      forall patience,
        JS.is_int (maxToolCalls (config a)) 1
        /\ dispatches (snd (chat patience "hi" a)) = 3)
  /\ (forall (patience : nat) (a : Agent) (userMessage : string),
         let t := snd (chat patience userMessage a) in
         dispatches t = 0
         \/ exists pre req message calls rest,
             t = (pre ++ ModelCall req (inr message)
                      :: map (dispatch_effect (mcpClient a)) calls ++ rest)%list
             /\ tool_calls message = Some calls
             /\ dispatches rest = 0
             /\ dispatches t = dispatches pre + requested message
             /\ JS.int_lt (dispatches pre) (maxToolCalls (config a)) = true
             /\ (forall p q,
                    maxToolCalls (config a) = JS.Finite p q ->
                    dispatches t <= JS.ceiling p q - 1 + requested message)
             /\ (forall z,
                    JS.is_int (maxToolCalls (config a)) z ->
                    dispatches t <= z - 1 + requested message)).
Proof.
  split; [|split].
  - intros a toolCalls count used. rewrite process_tool_calls_eq. split; reflexivity.
  - intros patience. vm_compute. split; reflexivity.
  - intros patience a userMessage. cbv zeta. rewrite chat_unfold. cbv zeta.
    set (tools := getOllamaTools (mcpClient a)).
    set (a0 := with_messages _ _).
    pose proof (chat_loop_bound tools (passes (maxToolCalls (config a)) patience)
                                0 [] a0) as Hb.
    cbv zeta in Hb.
    change (mcpClient a0) with (mcpClient a) in Hb.
    change (config a0) with (config a) in Hb.
    assert (Hgen : forall t extra,
               dispatches extra = 0 ->
               (dispatches t = 0
                \/ exists pre req message calls rest,
                    t = (pre ++ ModelCall req (inr message)
                             :: map (dispatch_effect (mcpClient a)) calls ++ rest)%list
                    /\ tool_calls message = Some calls
                    /\ dispatches rest = 0
                    /\ JS.int_lt (0 + dispatches pre) (maxToolCalls (config a)) = true) ->
               dispatches (t ++ extra) = 0
               \/ exists pre req message calls rest,
                   (t ++ extra)%list
                   = (pre ++ ModelCall req (inr message)
                          :: map (dispatch_effect (mcpClient a)) calls ++ rest)%list
                   /\ tool_calls message = Some calls
                   /\ dispatches rest = 0
                   /\ dispatches (t ++ extra) = dispatches pre + requested message
                   /\ JS.int_lt (dispatches pre) (maxToolCalls (config a)) = true
                   /\ (forall p q,
                          maxToolCalls (config a) = JS.Finite p q ->
                          dispatches (t ++ extra)
                          <= JS.ceiling p q - 1 + requested message)
                   /\ (forall z,
                          JS.is_int (maxToolCalls (config a)) z ->
                          dispatches (t ++ extra) <= z - 1 + requested message)).
    { intros t extra He [H0 | (pre & req & m & cs & rest & Ht & Hm & Hr & Hlt)].
      - left. rewrite dispatches_app. lia.
      - right. exists pre, req, m, cs, (rest ++ extra)%list.
        rewrite Z.add_0_l in Hlt.
        assert (Hd : dispatches (t ++ extra) = dispatches pre + requested m).
        { rewrite Ht, <- app_assoc. cbn [app]. rewrite <- app_assoc.
          rewrite dispatches_app, dispatches_pass, dispatches_app, Hr, He.
          unfold requested. rewrite Hm. lia. }
        split; [|split; [|split; [|split; [|split; [|split]]]]];
          try assumption.
        + rewrite Ht, <- app_assoc. cbn [app]. now rewrite <- app_assoc.
        + rewrite dispatches_app. lia.
        + intros p q Hfin. rewrite Hfin, int_lt_ceiling in Hlt.
          apply Z.ltb_lt in Hlt. lia.
        + intros z Hz. rewrite (int_lt_is_int _ z _ Hz) in Hlt.
          apply Z.ltb_lt in Hlt. lia. }
    destruct (chat_loop _ _ _ _ _) as [[[error | [response | used |]] a1] t];
      cbn [fst snd] in *.
    + rewrite <- (app_nil_r t). apply Hgen; [reflexivity | exact Hb].
    + rewrite <- (app_nil_r t). apply Hgen; [reflexivity | exact Hb].
    + destruct (runtime _ _); cbn [snd]; apply Hgen; try exact Hb; reflexivity.
    + rewrite <- (app_nil_r t). apply Hgen; [reflexivity | exact Hb].
Qed.

(** Against C10 as stated: with [maxToolCalls] 1.5 and a model that
    requests one invocation in each reply, the loop is entered at counts 0
    and 1, so the turn dispatches two tools, and two is more than
    [maxToolCalls - 1] plus the one invocation of the last reply. *)
Lemma fractional_budget_exceeds_bound :
  let reply := mkMessage "assistant" "" (Some [search_call]) in
  let a := sample_agent_with (JS.Finite 3 2) reply in
  maxToolCalls (config a) = JS.Finite 3 2
  /\ requested reply = 1
  /\ forall patience,
      let x := chat patience "hi" a in
      fst (fst x) = inr (Some (mkAgentResponse "(No response)"
                                               ["search_notes"; "search_notes"]))
      /\ snd x
         = [ModelCall (loop_request [] (AgentMore.turn_start a "hi")) (inr reply);
            dispatch_effect (mcpClient a) search_call;
            ModelCall (mkChatRequest "qwen3:8b"
                         (conversationHistory (AgentMore.turn_start a "hi")
                          ++ [reply;
                              result_message (call_result (mcpClient a) search_call)])
                         None "{}")
                      (inr reply);
            dispatch_effect (mcpClient a) search_call;
            ModelCall (mkChatRequest "qwen3:8b"
                         (conversationHistory (AgentMore.turn_start a "hi")
                          ++ [reply;
                              result_message (call_result (mcpClient a) search_call);
                              reply;
                              result_message (call_result (mcpClient a) search_call)])
                         None "{}")
                      (inr reply)]
      /\ dispatches (snd x) = 2
      /\ ~ JS.le_pred_plus (dispatches (snd x)) (maxToolCalls (config a))
                           (requested reply).
Proof.
  cbv zeta. split; [reflexivity|]. split; [reflexivity|]. intros patience.
  split; [vm_compute; reflexivity|].
  split; [vm_compute; reflexivity|].
  split; [vm_compute; reflexivity|].
  replace (dispatches _) with 2 by (vm_compute; reflexivity).
  cbn. lia.
Qed.

End AgentFacts.


(* ------------------------------------------------------------------------ *)
(** ** Properties of the turn runner                                        *)
(* ------------------------------------------------------------------------ *)

Module RunnerFacts.
Import Runner.

(** [Agent.chat] has no parameter for the signal. *)
Lemma invoke_chat_ignores_signal (patience : nat) (a : Agent.Agent)
      (input : string) (s1 s2 : AbortSignal) :
  invoke_chat patience a input s1 = invoke_chat patience a input s2.
Proof. reflexivity. Qed.

(** When the race is settled by one of its two branches, the three
    cleanup statements run. *)
Lemma race_result_cleans_up (t : Turn) (e : Event) (result : Outcome) :
  outcome t = None ->
  outcome (step t e) = Some result ->
  (forall error, result <> Failed error) ->
  timer_running (step t e) = false
  /\ escape_listeners (step t e) = Nat.pred (escape_listeners t)
  /\ listener_removals (step t e) = S (listener_removals t)
  /\ Input.waiting (handler (step t e)) = false.
Proof.
  intros Hopen Hset Hres.
  destruct e as [key | | | response | error]; cbn [step] in *.
  - exfalso. revert Hset. cbn [escape_listeners].
    destruct (Nat.ltb 0 (escape_listeners t)); unfold escapeHandler;
      try destruct (String.eqb key Input.key_escape);
      cbn [outcome]; congruence.
  - congruence.
  - rewrite Hopen in *. destruct (cancelled t); [|congruence].
    cbn. repeat split; reflexivity.
  - rewrite Hopen in *. cbn. repeat split; reflexivity.
  - rewrite Hopen in *. cbn in Hset. injection Hset as <-.
    exfalso. apply (Hres error). reflexivity.
Qed.

(** When the race rejects, the [catch] block runs instead: it clears
    [waiting] and leaves the ticker and the listener as they are. *)
Lemma rejection_skips_cleanup (t : Turn) (error : Agent.Exception) :
  outcome t = None ->
  let t' := step t (ChatRejected error) in
  outcome t' = Some (Failed error)
  /\ Input.waiting (handler t') = false
  /\ timer_running t' = timer_running t
  /\ escape_listeners t' = escape_listeners t
  /\ listener_removals t' = listener_removals t.
Proof.
  intros Hopen. cbn. rewrite Hopen. cbn. repeat split; reflexivity.
Qed.

(** On the runner's side a cancellation is complete once a poll has seen
    the flag: from any open turn whose escape listener is registered, a lone
    ESC followed by a poll ends the turn as cancelled, with [waiting] cleared,
    the signal aborted, the ticker stopped and the listener removed. *)
Lemma escape_then_poll_cancels (t : Turn) :
  outcome t = None ->
  (0 < escape_listeners t)%nat ->
  let t' := run t [KeyData Input.key_escape; Poll] in
  outcome t' = Some Cancelled
  /\ Input.waiting (handler t') = false
  /\ aborted (signal t') = true
  /\ timer_running t' = false
  /\ escape_listeners t' = Nat.pred (escape_listeners t).
Proof.
  intros Hopen Hreg. unfold run. cbn [fold_left].
  assert (H1 : step t (KeyData Input.key_escape)
               = mkTurn (fst (Input.handleKey (handler t) Input.key_escape)) true
                        (mkAbortSignal true) false (escape_listeners t)
                        (listener_removals t) None).
  { cbn [step escape_listeners]. apply Nat.ltb_lt in Hreg. rewrite Hreg.
    unfold escapeHandler. change (String.eqb Input.key_escape Input.key_escape) with true.
    cbn [handler listener_removals escape_listeners outcome]. now rewrite Hopen. }
  rewrite H1. cbn. repeat split; reflexivity.
Qed.

(** C1, on the code.  Escape is pressed while the agent works and the
    next poll sees the flag: the turn ends as [cancelled], [waiting] is
    cleared and the signal is in the aborted state.  The agent's turn is
    the same whatever signal it is invoked with: its one model call is
    issued as a request with model, messages, tools and options only, and
    is answered. *)
Theorem cancelled_turn_signal_unobserved (patience : nat) :
  let a := Agent.sample_agent 10 (Agent.mkMessage "assistant" "hello" None) in
  let x := run_turn patience (Input.constructor true) a "hi"
                    [KeyData Input.key_escape; Poll] [] in
  outcome (fst (fst x)) = Some Cancelled
  /\ Input.waiting (handler (fst (fst x))) = false
  /\ aborted (signal (fst (fst x))) = true
  /\ invoke_chat patience a "hi" (mkAbortSignal true) = invoke_chat patience a "hi" (mkAbortSignal false)
  /\ snd (invoke_chat patience a "hi" (mkAbortSignal true))
     = [Agent.ModelCall
          (Agent.mkChatRequest "qwen3:8b"
             [Agent.mkMessage "system" "You are a vault assistant." None;
              Agent.mkMessage "user" "hi" None]
             None "{}")
          (inr (Agent.mkMessage "assistant" "hello" None))]
  /\ fst (fst (invoke_chat patience a "hi" (mkAbortSignal true)))
     = inr (Some (Agent.mkAgentResponse "hello" [])).
Proof. vm_compute. repeat split; reflexivity. Qed.

(** Escape pressed, then the agent's answer before the next poll: the
    race is won by the response. *)
Lemma escape_then_answer_before_poll (patience : nat) :
  let a := Agent.sample_agent 10 (Agent.mkMessage "assistant" "hello" None) in
  let x := run_turn patience (Input.constructor true) a "hi"
                    [KeyData Input.key_escape] [Poll] in
  outcome (fst (fst x)) = Some (Response (Agent.mkAgentResponse "hello" [])).
Proof. vm_compute. reflexivity. Qed.

(** C6, on the code.  A turn that ends with the agent's response, and a
    turn that ends cancelled, stop the ticker, remove the escape listener
    once and clear [waiting].  A turn whose agent call rejects (here the
    model runtime is unreachable) clears [waiting] only: the ticker still
    runs and the escape listener is still registered. *)
Theorem rejected_turn_leaks_timer_and_listener (patience : nat) :
  let answered := fst (fst (run_turn patience (Input.constructor true)
                     (Agent.sample_agent 10 (Agent.mkMessage "assistant" "hello" None))
                     "hi" [Tick] [])) in
  let cancelled_turn := fst (fst (run_turn patience (Input.constructor true)
                     (Agent.sample_agent 10 (Agent.mkMessage "assistant" "hello" None))
                     "hi" [Tick; KeyData Input.key_escape; Poll] [])) in
  let rejected := fst (fst (run_turn patience (Input.constructor true)
                     (Agent.unreachable_agent 10) "hi" [Tick] [])) in
  (outcome answered = Some (Response (Agent.mkAgentResponse "hello" []))
   /\ timer_running answered = false
   /\ escape_listeners answered = 0%nat
   /\ listener_removals answered = 1%nat
   /\ Input.waiting (handler answered) = false)
  /\ (outcome cancelled_turn = Some Cancelled
      /\ timer_running cancelled_turn = false
      /\ escape_listeners cancelled_turn = 0%nat
      /\ listener_removals cancelled_turn = 1%nat
      /\ Input.waiting (handler cancelled_turn) = false)
  /\ (outcome rejected = Some (Failed (Agent.Error "fetch failed"))
      /\ timer_running rejected = true
      /\ escape_listeners rejected = 1%nat
      /\ listener_removals rejected = 0%nat
      /\ Input.waiting (handler rejected) = false).
Proof. vm_compute. repeat split; reflexivity. Qed.

End RunnerFacts.

(* ------------------------------------------------------------------------ *)
(** ** Further properties of the input handler                              *)
(* ------------------------------------------------------------------------ *)

Module InputExtra.
Import Input InputSpec.

Ltac split_cond :=
  match goal with
  | |- context [if ?b then _ else _] => destruct b eqn:?
  | |- context [match ?x with _ => _ end] => destruct x eqn:?
  end.

Lemma length_zero_empty (b : string) : (JS.length b =? 0) = true -> b = "".
Proof.
  intros H. apply Z.eqb_eq in H. unfold JS.length in H.
  destruct b; [reflexivity | cbn in H; lia].
Qed.

(** [cursorPos] after [main_block] is the length of the buffer. *)
Lemma cursor_main_block (s : InputState) (key : string) (code : option Z) :
  cursorPos s = JS.length (buffer s) ->
  cursorPos (fst (main_block s key code))
  = JS.length (buffer (fst (main_block s key code))).
Proof.
  intros H. unfold main_block.
  repeat split_cond; cbn [fst buffer cursorPos set_buffer set_history
                          set_historyIndex set_panel set_thinking];
    try exact H; reflexivity.
Qed.

Lemma cursor_handleKey (s : InputState) (key : string) :
  cursorPos s = JS.length (buffer s) ->
  cursorPos (fst (handleKey s key)) = JS.length (buffer (fst (handleKey s key))).
Proof.
  intros H. unfold handleKey.
  destruct (JS.code_is _ 3); [exact H|].
  destruct (waiting s); [exact H|].
  unfold shortcuts_block.
  destruct (panelVisible s) as [[]|] eqn:Hp.
  - destruct (_ || _)%bool; [exact H|].
    unfold commands_block. cbn [panelVisible set_panel].
    apply cursor_main_block. exact H.
  - unfold commands_block. rewrite Hp.
    repeat split_cond; cbn [fst buffer cursorPos set_buffer set_panel];
      try exact H; try reflexivity.
    apply cursor_main_block. exact H.
  - unfold commands_block. rewrite Hp.
    apply cursor_main_block. exact H.
Qed.

(** X1.  In every reachable state of the handler [cursorPos] equals
    [buffer.length]: the cursor is always at the end of the line. *)
Theorem cursor_at_end (s : InputState) :
  reachable s -> cursorPos s = JS.length (buffer s).
Proof.
  induction 1 as [b | s op _ IH].
  - reflexivity.
  - destruct op; cbn [apply_op].
    + apply cursor_handleKey, IH.
    + exact IH.
    + exact IH.
Qed.

Lemma cursor_at_end_witness :
  let s := run (constructor true) (type_text "/he" ++ [Key key_backspace]) in
  reachable s /\ cursorPos s = JS.length (buffer s).
Proof.
  assert (Hr : reachable (run (constructor true)
                              (type_text "/he" ++ [Key key_backspace]))).
  { unfold run. cbn [type_text app fold_left].
    repeat apply reach_op. apply reach_constructor. }
  split; [exact Hr | exact (cursor_at_end _ Hr)].
Defined.

(** *** Panels *)

Lemma dropLast_cons (c : ascii) (rest : string) :
  rest <> "" -> JS.dropLast (String c rest) = String c (JS.dropLast rest).
Proof. destruct rest; [congruence | reflexivity]. Qed.

Lemma panel_ok_main_block (s : InputState) (key : string) (code : option Z) :
  panelVisible s = None -> panel_ok (fst (main_block s key code)).
Proof.
  intros Hp. unfold main_block, panel_ok.
  repeat split_cond;
    cbn [fst buffer panelVisible set_buffer set_history set_historyIndex
         set_panel set_thinking] in *;
    try congruence; try (rewrite Hp in *; congruence); try exact I.
  - (* "?" *)
    match goal with H : (String.eqb key "?" && _)%bool = true |- _ =>
      apply andb_prop in H; destruct H as [_ H] end.
    now apply length_zero_empty.
  - (* "/" *)
    exists "". reflexivity.
Qed.

Lemma panel_ok_handleKey (s : InputState) (key : string) :
  panel_ok s -> panel_ok (fst (handleKey s key)).
Proof.
  intros H. unfold handleKey.
  destruct (JS.code_is _ 3); [exact H|].
  destruct (waiting s); [exact H|].
  unfold shortcuts_block.
  destruct (panelVisible s) as [[]|] eqn:Hp.
  - destruct (_ || _)%bool.
    + unfold panel_ok. cbn. exact I.
    + unfold commands_block. cbn [panelVisible set_panel].
      apply panel_ok_main_block. reflexivity.
  - unfold commands_block. rewrite Hp.
    unfold panel_ok in H. rewrite Hp in H. destruct H as [rest Hb].
    destruct (JS.code_is _ 27); [unfold panel_ok; cbn; exact I|].
    destruct (_ || _)%bool.
    + destruct (JS.length (buffer s) <=? 1) eqn:Hl; [unfold panel_ok; cbn; exact I|].
      unfold panel_ok. cbn [fst panelVisible buffer set_buffer]. rewrite Hp.
      rewrite Hb in *. apply Z.leb_gt in Hl. unfold JS.length in Hl.
      destruct rest as [|c rest]; [cbn in Hl; lia|].
      rewrite dropLast_cons by discriminate. eexists. reflexivity.
    + destruct (JS.code_is _ 13).
      * apply panel_ok_main_block. reflexivity.
      * destruct (JS.code_in _ 32 127).
        -- unfold panel_ok. cbn [fst panelVisible buffer set_buffer]. rewrite Hp.
           rewrite Hb. eexists. reflexivity.
        -- unfold panel_ok. cbn [fst]. rewrite Hp. eexists. exact Hb.
  - unfold commands_block. rewrite Hp.
    apply panel_ok_main_block. exact Hp.
Qed.

(** X2.  In every reachable state, the shortcuts panel is open only over an
    empty buffer and the commands panel only over a buffer that begins with
    "/". *)
Theorem panel_matches_buffer (s : InputState) :
  reachable s ->
  (panelVisible s = Some shortcuts -> buffer s = "")
  /\ (panelVisible s = Some commands -> exists rest, buffer s = String "/" rest).
Proof.
  intros Hr.
  assert (H : panel_ok s).
  { induction Hr as [b | s op _ IH].
    - exact I.
    - destruct op; cbn [apply_op].
      + apply panel_ok_handleKey, IH.
      + exact IH.
      + exact IH. }
  unfold panel_ok in H. split; intros Hp; rewrite Hp in H; exact H.
Qed.

Lemma panel_matches_buffer_witness :
  let s := run (constructor true) (type_text "/cl") in
  reachable s
  /\ (panelVisible s = Some shortcuts -> buffer s = "")
  /\ (panelVisible s = Some commands -> exists rest, buffer s = String "/" rest).
Proof.
  assert (Hr : reachable (run (constructor true) (type_text "/cl"))).
  { unfold run. cbn [type_text fold_left].
    repeat apply reach_op. apply reach_constructor. }
  split; [exact Hr | exact (panel_matches_buffer _ Hr)].
Defined.

(** *** Waiting *)

(** X3.  While [waiting] is set the handler ignores its input: no sequence
    of keys changes the state, and no key submits anything (the one thing a
    key can still do is Ctrl+C, which asks for the exit). *)
Theorem waiting_ignores_keys (s : InputState) (keys : list string) :
  waiting s = true ->
  run s (map Key keys) = s
  /\ forall key, fst (handleKey s key) = s
                 /\ (snd (handleKey s key) = [] \/ snd (handleKey s key) = [Exit]).
Proof.
  intros Hw.
  assert (Hk : forall key, fst (handleKey s key) = s
                           /\ (snd (handleKey s key) = []
                               \/ snd (handleKey s key) = [Exit])).
  { intros key. unfold handleKey. destruct (JS.code_is _ 3); [auto|].
    rewrite Hw. auto. }
  split; [|exact Hk].
  induction keys as [|key keys IH]; [reflexivity|].
  cbn [map]. unfold run in *. cbn [fold_left apply_op].
  rewrite (proj1 (Hk key)). exact IH.
Qed.

Lemma waiting_ignores_keys_witness :
  let s := setWaiting (run (constructor true) (type_text "hi")) true in
  run s (map Key ["x"; key_enter; key_up; key_backspace]) = s
  /\ forall key, fst (handleKey s key) = s
                 /\ (snd (handleKey s key) = [] \/ snd (handleKey s key) = [Exit]).
Proof.
  exact (waiting_ignores_keys
           (setWaiting (run (constructor true) (type_text "hi")) true)
           ["x"; key_enter; key_up; key_backspace] eq_refl).
Defined.

(** *** Submission and history *)

Lemma truthy_nonempty (x : string) : JS.truthy x = true -> x <> "".
Proof. destruct x; [discriminate | discriminate]. Qed.

Lemma submit_main_block (s : InputState) (key : string) (code : option Z) :
  let r := main_block s key code in
  history (fst r) = (history s ++ submitted (snd r))%list
  /\ (snd r = []
      \/ (snd r = [Submit (JS.trim (buffer s))]
          /\ JS.trim (buffer s) <> ""
          /\ buffer (fst r) = ""
          /\ historyIndex (fst r) = Z.of_nat (List.length (history (fst r))))).
Proof.
  unfold main_block.
  destruct (JS.code_is code 9 && modelSupportsThinking s)%bool;
    [cbn; rewrite app_nil_r; auto|].
  destruct (JS.code_is code 13).
  - destruct (JS.truthy (JS.trim (buffer s))) eqn:Ht.
    + cbn. split; [reflexivity|]. right.
      repeat split. now apply truthy_nonempty.
    + cbn. rewrite app_nil_r. auto.
  - repeat split_cond; cbn; rewrite app_nil_r; auto.
Qed.

(** A key leaves the history alone and submits nothing, or it is handled
    by the main block on a state with the same buffer and history. *)
Lemma handleKey_main (s : InputState) (key : string) :
  (history (fst (handleKey s key)) = history s
   /\ submitted (snd (handleKey s key)) = [])
  \/ exists s0 code,
      buffer s0 = buffer s
      /\ history s0 = history s
      /\ handleKey s key = main_block s0 key code.
Proof.
  unfold handleKey.
  destruct (JS.code_is _ 3); [left; split; reflexivity|].
  destruct (waiting s); [left; split; reflexivity|].
  unfold shortcuts_block.
  destruct (panelVisible s) as [[]|] eqn:Hp.
  - destruct (_ || _)%bool; [left; split; reflexivity|].
    unfold commands_block. cbn [panelVisible set_panel].
    right. eexists _, _. split; [|split; [|reflexivity]]. all: reflexivity.
  - unfold commands_block. rewrite Hp.
    destruct (JS.code_is _ 27); [left; split; reflexivity|].
    destruct (_ || _)%bool.
    + destruct (_ <=? _); left; split; reflexivity.
    + destruct (JS.code_is _ 13).
      * right. eexists _, _. split; [|split; [|reflexivity]]. all: reflexivity.
      * destruct (JS.code_in _ 32 127); left; split; reflexivity.
  - unfold commands_block. rewrite Hp.
    right. eexists _, _. split; [|split; [|reflexivity]]. all: reflexivity.
Qed.

(** X4.  A call of [handleKey] submits at most one input; it submits when
    and only when it appends to [history], and what it submits and appends is
    the [trim()] of the buffer, which is then not empty; the buffer is cleared
    and [historyIndex] set to [history.length].  No other key changes
    [history]. *)
Theorem submit_appends_history (s : InputState) (key : string) :
  let r := handleKey s key in
  history (fst r) = (history s ++ submitted (snd r))%list
  /\ (submitted (snd r) = []
      \/ (snd r = [Submit (JS.trim (buffer s))]
          /\ JS.trim (buffer s) <> ""
          /\ buffer (fst r) = ""
          /\ historyIndex (fst r) = Z.of_nat (List.length (history (fst r))))).
Proof.
  cbv zeta.
  destruct (handleKey_main s key) as [[H1 H2] | (s0 & code & Hb & Hh & ->)].
  - rewrite H1, H2, app_nil_r. split; [reflexivity | left; reflexivity].
  - destruct (submit_main_block s0 key code) as [H1 H2]. cbv zeta in H1, H2.
    rewrite Hb, Hh in *. split; [exact H1|].
    destruct H2 as [H2|H2]; [left; now rewrite H2 | right; exact H2].
Qed.

(** [trim()] is idempotent. *)
Lemma trimEnd_idem (x : string) : JS.trimEnd (JS.trimEnd x) = JS.trimEnd x.
Proof.
  induction x as [|c rest IH]; [reflexivity|].
  cbn [JS.trimEnd]. destruct (JS.trimEnd rest) as [|d rest'] eqn:Hr.
  - destruct (JS.isWhiteSpace c) eqn:Hc; [reflexivity|].
    cbn. now rewrite Hc.
  - cbn [JS.trimEnd]. cbn [JS.trimEnd] in IH. rewrite IH. reflexivity.
Qed.

Lemma trimStart_fixed (x : string) :
  match x with
  | "" => True
  | String c _ => JS.isWhiteSpace c = false
  end -> JS.trimStart x = x.
Proof. destruct x as [|c rest]; [reflexivity|]. cbn. now intros ->. Qed.

Lemma trimStart_head (x : string) :
  match JS.trimStart x with
  | "" => True
  | String c _ => JS.isWhiteSpace c = false
  end.
Proof.
  induction x as [|c rest IH]; [exact I|].
  cbn. destruct (JS.isWhiteSpace c) eqn:Hc; [exact IH | exact Hc].
Qed.

Lemma trimEnd_head (x : string) :
  match x with
  | "" => True
  | String c _ => JS.isWhiteSpace c = false
  end ->
  match JS.trimEnd x with
  | "" => True
  | String c _ => JS.isWhiteSpace c = false
  end.
Proof.
  destruct x as [|c rest]; [auto|]. intros Hc. cbn.
  destruct (JS.trimEnd rest); [now rewrite Hc | exact Hc].
Qed.

Lemma trim_idem (x : string) : JS.trim (JS.trim x) = JS.trim x.
Proof.
  unfold JS.trim.
  rewrite (trimStart_fixed (JS.trimEnd (JS.trimStart x))).
  - apply trimEnd_idem.
  - apply trimEnd_head, trimStart_head.
Qed.

(** X5.  Every entry of [history], in every reachable state, is a non-empty
    string equal to its own [trim()]: no blank line and no line with outer
    white space is ever recalled by the arrow keys. *)
Theorem history_entries_trimmed (s : InputState) :
  reachable s -> Forall entry_ok (history s).
Proof.
  induction 1 as [b | s op _ IH].
  - constructor.
  - destruct op; cbn [apply_op]; try exact IH.
    destruct (handleKey_main s key) as [[H1 _] | (s0 & code & Hb & Hh & ->)].
    + rewrite H1. exact IH.
    + destruct (submit_main_block s0 key code) as [H1 H2]. cbv zeta in H1, H2.
      rewrite H1, Hh. apply Forall_app. split; [exact IH|].
      destruct H2 as [H2 | (H2 & Hne & _)].
      * rewrite H2. constructor.
      * rewrite H2, Hb in *. cbn. constructor; [|constructor].
        split; [exact Hne | apply trim_idem].
Qed.

Lemma history_entries_trimmed_witness :
  let s := run (constructor true) (submit_turn "  hi there " ++ submit_turn "   ") in
  reachable s /\ Forall entry_ok (history s).
Proof.
  assert (Hr : reachable (run (constructor true)
                              (submit_turn "  hi there " ++ submit_turn "   "))).
  { unfold run, submit_turn. cbn [type_text app fold_left].
    repeat apply reach_op. apply reach_constructor. }
  split; [exact Hr | exact (history_entries_trimmed _ Hr)].
Defined.

(** *** Editing round trip *)

Lemma dropLast_append (b : string) (c : ascii) :
  JS.dropLast (b ++ String c "") = b.
Proof.
  induction b as [|x b IH]; [reflexivity|].
  cbn [append]. rewrite dropLast_cons, IH; [reflexivity|].
  destruct b; discriminate.
Qed.

Lemma length_append_one (b : string) (c : ascii) :
  JS.length (b ++ String c "") = JS.length b + 1.
Proof.
  unfold JS.length. induction b as [|x b IH]; cbn [append String.length] in *; lia.
Qed.

Lemma length_nonneg (b : string) : 0 <= JS.length b.
Proof. unfold JS.length. lia. Qed.

(** A printable key never leaves the shortcuts panel open, unless it is the
    "?" that opens it over an empty buffer. *)
Lemma printable_step_panel (s : InputState) (key : string) :
  waiting s = false ->
  printable key ->
  (buffer s = "" -> key <> "?") ->
  panelVisible (fst (handleKey s key)) <> Some shortcuts.
Proof.
  intros Hw (c & -> & Hc) Hq.
  set (n := nat_of_ascii c) in *.
  assert (Hcode : JS.charCodeAt0 (String c "") = Some (Z.of_nat n)) by reflexivity.
  assert (Hne : forall k, Z.of_nat n <> k -> JS.code_is (Some (Z.of_nat n)) k = false).
  { intros k Hk. apply Z.eqb_neq. exact Hk. }
  assert (Hmain : forall s0 : InputState,
             panelVisible s0 = None ->
             (buffer s0 = "" -> String c "" <> "?") ->
             panelVisible (fst (main_block s0 (String c "") (Some (Z.of_nat n))))
             <> Some shortcuts).
  { intros s0 Hp0 Hq0. unfold main_block.
    rewrite (Hne 9), (Hne 13), (Hne 127), (Hne 8) by lia. cbn [andb orb].
    repeat split_cond; cbn [fst panelVisible set_buffer set_historyIndex
                            set_history set_panel];
      try (rewrite Hp0; discriminate); try discriminate.
    exfalso.
    match goal with H : (String.eqb _ "?" && _)%bool = true |- _ =>
      apply andb_prop in H; destruct H as [H1 H2] end.
    apply String.eqb_eq in H1. apply length_zero_empty in H2.
    exact (Hq0 H2 H1). }
  unfold handleKey. rewrite Hcode, (Hne 3), Hw by lia.
  unfold shortcuts_block.
  destruct (panelVisible s) as [[]|] eqn:Hp.
  - rewrite (Hne 127), (Hne 8), (Hne 27) by lia. cbn [orb].
    unfold commands_block. cbn [panelVisible set_panel].
    apply Hmain; [reflexivity | exact Hq].
  - unfold commands_block. rewrite Hp.
    rewrite (Hne 27), (Hne 127), (Hne 8), (Hne 13) by lia. cbn [orb].
    destruct (JS.code_in _ 32 127); cbn [fst panelVisible set_buffer];
      rewrite Hp; discriminate.
  - unfold commands_block. rewrite Hp. apply Hmain; [exact Hp | exact Hq].
Qed.

(** X6.  Backspace undoes a printable keystroke: after a printable key
    (other than "?" over an empty buffer) and then Backspace (code 127 or 8),
    the buffer and the cursor are what they were, in any state that is not
    waiting; a commands panel the "/" had opened is closed again. *)
Theorem backspace_undoes_printable (s : InputState) (key back : string) :
  waiting s = false ->
  printable key ->
  (buffer s = "" -> key <> "?") ->
  JS.charCodeAt0 back = Some 127 \/ JS.charCodeAt0 back = Some 8 ->
  let s2 := fst (handleKey (fst (handleKey s key)) back) in
  buffer s2 = buffer s
  /\ cursorPos s2 = JS.length (buffer s)
  /\ (buffer s = "" -> panelVisible s2 = None).
Proof.
  intros Hw Hk Hq Hback.
  pose proof (InputFacts.printable_step s key Hw Hk Hq) as (Hb & _ & Hw1).
  pose proof (printable_step_panel s key Hw Hk Hq) as Hp1.
  destruct Hk as (c & -> & Hc).
  set (s1 := fst (handleKey s (String c ""))) in *.
  assert (Hbs : (JS.code_is (JS.charCodeAt0 back) 127
                 || JS.code_is (JS.charCodeAt0 back) 8)%bool = true).
  { destruct Hback as [-> | ->]; reflexivity. }
  assert (H3 : JS.code_is (JS.charCodeAt0 back) 3 = false).
  { destruct Hback as [-> | ->]; reflexivity. }
  assert (H27 : JS.code_is (JS.charCodeAt0 back) 27 = false).
  { destruct Hback as [-> | ->]; reflexivity. }
  assert (H9 : JS.code_is (JS.charCodeAt0 back) 9 = false).
  { destruct Hback as [-> | ->]; reflexivity. }
  assert (H13 : JS.code_is (JS.charCodeAt0 back) 13 = false).
  { destruct Hback as [-> | ->]; reflexivity. }
  pose proof (length_append_one (buffer s) c) as Hlen.
  pose proof (length_nonneg (buffer s)) as Hnn.
  cbv zeta. unfold handleKey. rewrite H3, Hw1.
  unfold shortcuts_block.
  destruct (panelVisible s1) as [[]|] eqn:Hp; [congruence | |].
  - unfold commands_block. rewrite Hp, H27, Hbs.
    destruct (JS.length (buffer s1) <=? 1) eqn:Hl.
    + apply Z.leb_le in Hl. rewrite Hb, Hlen in Hl.
      assert (He : buffer s = "").
      { apply length_zero_empty. apply Z.eqb_eq. lia. }
      cbn. rewrite He. auto.
    + cbn [fst buffer cursorPos panelVisible set_buffer].
      rewrite Hb, dropLast_append. repeat split.
      intros He. apply Z.leb_gt in Hl. rewrite Hb, Hlen, He in Hl.
      cbn in Hl. lia.
  - unfold commands_block. rewrite Hp.
    unfold main_block. rewrite H9, H13, Hbs. cbn [andb].
    destruct (0 <? JS.length (buffer s1)) eqn:Hl.
    + cbn [fst buffer cursorPos panelVisible set_buffer].
      rewrite Hb, dropLast_append. repeat split. intros _. exact Hp.
    + apply Z.ltb_ge in Hl. rewrite Hb, Hlen in Hl. lia.
Qed.

Lemma backspace_undoes_printable_witness :
  let s := run (constructor true) (type_text "/mode") in
  let s2 := fst (handleKey (fst (handleKey s "l")) key_backspace) in
  buffer s2 = buffer s
  /\ cursorPos s2 = JS.length (buffer s)
  /\ (buffer s = "" -> panelVisible s2 = None).
Proof.
  refine (backspace_undoes_printable (run (constructor true) (type_text "/mode"))
            "l" key_backspace eq_refl _ _ (or_introl eq_refl)).
  - exists "l"%char. split; [reflexivity | cbn; lia].
  - discriminate.
Defined.

(** *** Leaving the live line *)

Lemma history_at_last (h : list string) :
  h <> [] ->
  history_at h (Z.of_nat (List.length h) - 1) = last h "".
Proof.
  intros Hne. unfold history_at.
  destruct (Z.of_nat (List.length h) - 1 <? 0) eqn:Hl.
  - apply Z.ltb_lt in Hl. destruct h; [congruence | cbn [List.length] in Hl; lia].
  - replace (Z.to_nat (Z.of_nat (List.length h) - 1)) with (List.length h - 1)%nat by lia.
    clear Hl. induction h as [|x h IH]; [congruence|].
    destruct h as [|y h]; [reflexivity|].
    cbn [List.length last]. cbn [List.length] in IH.
    replace (S (S (List.length h)) - 1)%nat with (S (List.length h)) by lia.
    cbn [nth_error]. 
    replace (S (List.length h) - 1)%nat with (List.length h) in IH by lia.
    apply IH. discriminate.
Qed.

(** X7.  Text typed but not submitted is lost by a look at the history:
    from the live line (no panel, not waiting, [historyIndex] at
    [history.length], history not empty), Up shows the last entry, and Down
    then comes back to [historyIndex = history.length] with an empty buffer,
    whatever the buffer held before. *)
Theorem up_down_drops_live_text (s : InputState) :
  waiting s = false ->
  panelVisible s = None ->
  history s <> [] ->
  historyIndex s = Z.of_nat (List.length (history s)) ->
  let s1 := fst (handleKey s key_up) in
  let s2 := fst (handleKey s1 key_down) in
  buffer s1 = last (history s) ""
  /\ historyIndex s1 = historyIndex s - 1
  /\ buffer s2 = ""
  /\ historyIndex s2 = historyIndex s
  /\ history s2 = history s.
Proof.
  intros Hw Hp Hne Hi.
  assert (Hlen : 0 < Z.of_nat (List.length (history s))).
  { destruct (history s); [congruence | cbn; lia]. }
  assert (H1 : fst (handleKey s key_up)
               = set_buffer (set_historyIndex s (historyIndex s - 1))
                            (history_at (history s) (historyIndex s - 1))
                            (JS.length (history_at (history s) (historyIndex s - 1)))).
  { unfold handleKey, shortcuts_block, commands_block, main_block.
    change (JS.charCodeAt0 key_up) with (Some 27).
    cbn -[Z.ltb Z.sub Z.add history_at]. rewrite Hw, Hp.
    cbn -[Z.ltb Z.sub Z.add history_at]. rewrite ?Hp.
    cbn -[Z.ltb Z.sub Z.add history_at].
    destruct (modelSupportsThinking s); cbn -[Z.ltb Z.sub Z.add history_at];
      (destruct (0 <? historyIndex s) eqn:Hl; [reflexivity | apply Z.ltb_ge in Hl; lia]). }
  cbv zeta. rewrite H1.
  unfold handleKey, shortcuts_block, commands_block, main_block.
  change (JS.charCodeAt0 key_down) with (Some 27).
  cbn -[Z.ltb Z.sub Z.add history_at]. rewrite Hw, Hp.
  cbn -[Z.ltb Z.sub Z.add history_at]. rewrite ?Hp.
  cbn -[Z.ltb Z.sub Z.add history_at].
  rewrite Hi at 1. rewrite history_at_last by exact Hne.
  destruct (historyIndex s - 1 <? Z.of_nat (List.length (history s)) - 1) eqn:Hl;
    [apply Z.ltb_lt in Hl; lia|].
  cbn. repeat split; auto.
Qed.

Lemma up_down_drops_live_text_witness :
  let s := run (constructor true) (submit_turn "first" ++ type_text "draft") in
  let s1 := fst (handleKey s key_up) in
  let s2 := fst (handleKey s1 key_down) in
  buffer s1 = last (history s) ""
  /\ historyIndex s1 = historyIndex s - 1
  /\ buffer s2 = ""
  /\ historyIndex s2 = historyIndex s
  /\ history s2 = history s.
Proof.
  refine (up_down_drops_live_text
            (run (constructor true) (submit_turn "first" ++ type_text "draft"))
            eq_refl eq_refl _ eq_refl).
  vm_compute. discriminate.
Defined.

(** *** The thinking flag *)

Lemma thinking_main_block (s : InputState) (key : string) (code : option Z) :
  modelSupportsThinking (fst (main_block s key code)) = modelSupportsThinking s
  /\ (modelSupportsThinking s = false ->
      thinkingEnabled (fst (main_block s key code)) = thinkingEnabled s).
Proof.
  unfold main_block.
  destruct (modelSupportsThinking s) eqn:Hm.
  - split; [|discriminate].
    repeat split_cond; cbn; auto.
  - rewrite andb_false_r. split; [|intros _];
      repeat split_cond; cbn; auto.
Qed.

Lemma thinking_handleKey (s : InputState) (key : string) :
  modelSupportsThinking (fst (handleKey s key)) = modelSupportsThinking s
  /\ (modelSupportsThinking s = false ->
      thinkingEnabled (fst (handleKey s key)) = thinkingEnabled s).
Proof.
  unfold handleKey.
  destruct (JS.code_is _ 3); [auto|].
  destruct (waiting s); [auto|].
  unfold shortcuts_block.
  destruct (panelVisible s) as [[]|] eqn:Hp.
  - destruct (_ || _)%bool; [cbn; auto|].
    unfold commands_block. cbn [panelVisible set_panel].
    apply (thinking_main_block
             (mkInputState (buffer s) (cursorPos s) (history s) (historyIndex s)
                           (thinkingEnabled s) (modelSupportsThinking s) None
                           (waiting s))).
  - unfold commands_block. rewrite Hp.
    repeat split_cond; cbn [fst]; try (cbn; auto; fail).
    apply (thinking_main_block (set_panel s None)).
  - unfold commands_block. rewrite Hp. apply thinking_main_block.
Qed.



End InputExtra.

(* ------------------------------------------------------------------------ *)
(** ** Properties of [isThinkingCapable] and [selectModel]                  *)
(* ------------------------------------------------------------------------ *)

Module SelectFacts.
Import ModelSelect.

Lemma toLowerCase_append (a b : string) :
  JS.toLowerCase (a ++ b) = JS.toLowerCase a ++ JS.toLowerCase b.
Proof.
  induction a as [|c a IH]; [reflexivity|]. cbn. now rewrite IH.
Qed.

Lemma startsWith_append (a b p : string) :
  JS.startsWith a p = true -> JS.startsWith (a ++ b) p = true.
Proof.
  revert a. induction p as [|x p IH]; intros a H; [destruct (a ++ b); reflexivity|].
  destruct a as [|y a]; [discriminate|].
  cbn in *. apply andb_prop in H. destruct H as [H1 H2].
  rewrite H1. cbn. apply IH, H2.
Qed.

(** X9.  A thinking-capable model name stays thinking-capable whatever
    is appended to it (a tag such as ":8b", a quantisation suffix): the test
    looks at the beginning of the lower-cased name only. *)
Theorem thinking_capable_suffix (modelName suffix : string) :
  isThinkingCapable modelName = true ->
  isThinkingCapable (modelName ++ suffix) = true.
Proof.
  unfold isThinkingCapable. rewrite toLowerCase_append.
  intros H. apply existsb_exists in H. destruct H as (p & Hin & Hp).
  apply existsb_exists. exists p. split; [exact Hin|].
  apply startsWith_append, Hp.
Qed.

Lemma thinking_capable_suffix_witness :
  isThinkingCapable ("DeepSeek-R1" ++ ":8b-q4_K_M") = true.
Proof.
  exact (thinking_capable_suffix "DeepSeek-R1" ":8b-q4_K_M" eq_refl).
Defined.

(** *** [selectModel] *)

Lemma eligible_at_in (models : list ModelInfo) (i : Z) (m : ModelInfo) :
  eligible_at models i = Some m ->
  In m models /\ supportsTools m = Some true.
Proof.
  unfold eligible_at. destruct (i <? 0); [discriminate|].
  intros H. apply nth_error_In in H. unfold eligibleModels in H.
  apply filter_In in H. destruct H as [H1 H2]. split; [exact H1|].
  destruct (supportsTools m) as [[]|]; cbn in H2; congruence.
Qed.

Lemma eligible_at_some (models : list ModelInfo) (i : Z) :
  0 <= i < Z.of_nat (List.length (eligibleModels models)) ->
  exists m, eligible_at models i = Some m.
Proof.
  intros Hi. unfold eligible_at.
  destruct (i <? 0) eqn:Hl; [apply Z.ltb_lt in Hl; lia|].
  destruct (nth_error (eligibleModels models) (Z.to_nat i)) as [m|] eqn:Hn.
  - now exists m.
  - apply nth_error_None in Hn. lia.
Qed.

Lemma selection_ok_start (models : list ModelInfo) : selection_ok models (start models).
Proof.
  unfold start, selection_ok.
  destruct (eligibleModels models) eqn:He; [right; auto|].
  cbn [List.length]. lia.
Qed.

Lemma selection_ok_handleKey (models : list ModelInfo) (st : Selection) (key : string) :
  selection_ok models st -> selection_ok models (handleKey models st key).
Proof.
  destruct st as [sel | n | | code]; cbn [handleKey]; try (intros H; exact H).
  intros H. cbn [selection_ok] in H.
  destruct (String.eqb key (JS.chr 3)); [left; reflexivity|].
  destruct (_ || _)%bool.
  - destruct (eligible_at_some models sel H) as [m Hm]. rewrite Hm.
    destruct (eligible_at_in models sel m Hm) as [H1 H2].
    exists m. auto.
  - destruct (String.eqb key Input.key_up).
    + destruct (0 <? sel) eqn:Hl; cbn [selection_ok]; [apply Z.ltb_lt in Hl|]; lia.
    + destruct (String.eqb key Input.key_down); [|exact H].
      destruct (sel <? _) eqn:Hl; cbn [selection_ok]; [apply Z.ltb_lt in Hl|]; lia.
Qed.

Lemma selection_ok_select (models : list ModelInfo) (keys : list string) :
  selection_ok models (select models keys).
Proof.
  unfold select.
  generalize (selection_ok_start models). generalize (start models).
  induction keys as [|key keys IH]; intros st H; [exact H|].
  cbn [fold_left]. apply IH, selection_ok_handleKey, H.
Qed.

(** X10.  Whatever the installed models and whatever keys are pressed,
    the selection never reads outside [eligibleModels]: while it is pending
    the selected index is a position of [eligibleModels]; when Enter resolves
    it, the name returned is that of an installed model whose
    [supportsTools] is [true]; and the process exits only on Ctrl+C (code 0)
    or, before any key, because no model is tool-capable (code 1). *)
Theorem select_returns_tool_capable (models : list ModelInfo) (keys : list string) :
  match select models keys with
  | Choosing sel => 0 <= sel < Z.of_nat (List.length (eligibleModels models))
  | Chosen modelName =>
      exists m, In m models /\ supportsTools m = Some true /\ name m = modelName
  | Crashed => False
  | Exited code => code = 0 \/ (code = 1 /\ eligibleModels models = [])
  end.
Proof.
  pose proof (selection_ok_select models keys) as H.
  unfold selection_ok in H. exact H.
Qed.

(** The rows of the first loop carry the indices [k], [k+1], ... of the
    tool-capable models, in their order. *)
Lemma eligible_rows_selected (models : list ModelInfo) :
  forall (k sel : Z),
    k <= sel ->
    map model (filter (fun item => isSelected item sel) (eligible_rows models k))
    = match nth_error (eligibleModels models) (Z.to_nat (sel - k)) with
      | Some m => [m]
      | None => []
      end.
Proof.
  induction models as [|m models IH]; intros k sel Hk.
  - cbn. destruct (Z.to_nat (sel - k)); reflexivity.
  - cbn [eligible_rows eligibleModels filter].
    destruct (supportsTools m) as [[]|] eqn:Hs; cbn [truthy is_true];
      try (apply IH; exact Hk).
    cbn [filter isSelected eligibleIndex].
    destruct (k =? sel) eqn:He.
    + apply Z.eqb_eq in He. subst sel.
      replace (k - k) with 0 by lia. cbn [Z.to_nat nth_error map model].
      f_equal.
      assert (Hnone : forall l j, k < j ->
                 filter (fun item => isSelected item k) (eligible_rows l j) = []).
      { clear. induction l as [|x l IHl]; intros j Hj; [reflexivity|].
        cbn [eligible_rows]. destruct (truthy (supportsTools x)).
        - cbn [filter isSelected eligibleIndex].
          destruct (j =? k) eqn:E; [apply Z.eqb_eq in E; lia|].
          apply IHl. lia.
        - apply IHl. exact Hj. }
      rewrite Hnone by lia. reflexivity.
    + apply Z.eqb_neq in He.
      rewrite (IH (k + 1) sel) by lia.
      replace (Z.to_nat (sel - k)) with (S (Z.to_nat (sel - (k + 1)))) by lia.
      reflexivity.
Qed.

Lemma ineligible_rows_selected (models : list ModelInfo) (sel : Z) :
  filter (fun item => isSelected item sel) (ineligible_rows models) = [].
Proof.
  induction models as [|m models IH]; [reflexivity|].
  cbn [ineligible_rows]. destruct (negb _); [cbn; exact IH | exact IH].
Qed.

(** X11.  While a selection is pending, exactly one row of the
    displayed list is drawn as selected, and it shows the model whose name
    Enter returns. *)
Theorem highlighted_row_is_returned (models : list ModelInfo) (keys : list string)
        (sel : Z) :
  select models keys = Choosing sel ->
  exists m,
    map model (filter (fun item => isSelected item sel) (displayList models)) = [m]
    /\ select models (keys ++ [JS.chr 13]) = Chosen (name m).
Proof.
  intros Hs.
  pose proof (selection_ok_select models keys) as Hok. rewrite Hs in Hok.
  cbn [selection_ok] in Hok.
  destruct (eligible_at_some models sel Hok) as [m Hm].
  exists m. split.
  - unfold displayList. rewrite filter_app, ineligible_rows_selected, app_nil_r.
    rewrite eligible_rows_selected by lia.
    unfold eligible_at in Hm. destruct (sel <? 0); [discriminate|].
    replace (sel - 0) with sel by lia. now rewrite Hm.
  - unfold select in *. rewrite fold_left_app, Hs. cbn [fold_left handleKey].
    change (String.eqb (JS.chr 13) (JS.chr 3)) with false.
    change (String.eqb (JS.chr 13) (JS.chr 13)) with true. cbn [orb].
    now rewrite Hm.
Qed.

Lemma highlighted_row_is_returned_witness :
  exists m,
    map model (filter (fun item => isSelected item 1) (displayList sample_models)) = [m]
    /\ select sample_models ([Input.key_down; Input.key_down] ++ [JS.chr 13])
       = Chosen (name m).
Proof.
  refine (highlighted_row_is_returned sample_models
            [Input.key_down; Input.key_down] 1 _).
  vm_compute. reflexivity.
Defined.

End SelectFacts.

(* ------------------------------------------------------------------------ *)
(** ** Properties of the tool client                                        *)
(* ------------------------------------------------------------------------ *)

Module McpFacts.
Import Agent Mcp.

Lemma clients_get_set_same (cs : list (string * Client)) (server : string) (c : Client) :
  clients_get (clients_set cs server c) server = Some c.
Proof.
  induction cs as [|[n c0] cs IH]; cbn.
  - now rewrite String.eqb_refl.
  - destruct (String.eqb n server) eqn:E; cbn; rewrite E; [reflexivity | exact IH].
Qed.

Lemma clients_get_set_other (cs : list (string * Client)) (server other : string)
      (c : Client) :
  other <> server ->
  clients_get (clients_set cs server c) other = clients_get cs other.
Proof.
  intros Hne. induction cs as [|[n c0] cs IH]; cbn.
  - destruct (String.eqb server other) eqn:E; [|reflexivity].
    apply String.eqb_eq in E. congruence.
  - destruct (String.eqb n server) eqn:E; cbn.
    + apply String.eqb_eq in E. subst n.
      destruct (String.eqb server other) eqn:E2; [|reflexivity].
      apply String.eqb_eq in E2. congruence.
    + destruct (String.eqb n other); [reflexivity | exact IH].
Qed.

Lemma clients_get_set_some (cs : list (string * Client)) (server other : string)
      (c : Client) :
  clients_get cs other <> None ->
  clients_get (clients_set cs server c) other <> None.
Proof.
  intros H. destruct (String.eqb other server) eqn:E.
  - apply String.eqb_eq in E. subst. rewrite clients_get_set_same. discriminate.
  - apply String.eqb_neq in E. now rewrite clients_get_set_other.
Qed.

Lemma tools_connected_connectServer (b : ServerBehaviour) (server : string)
      (m : MCPClientManager) :
  tools_connected m -> tools_connected (snd (connectServer b server m)).
Proof.
  intros H. destruct b as [e | c e | c listed]; cbn [connectServer snd].
  - exact H.
  - intros tool Hin. cbn [tools clients] in *. apply clients_get_set_some, H, Hin.
  - intros tool Hin. cbn [tools clients] in *.
    apply in_app_or in Hin. destruct Hin as [Hin|Hin].
    + apply clients_get_set_some, H, Hin.
    + apply in_map_iff in Hin. destruct Hin as (info & <- & _).
      cbn [registered serverName]. rewrite clients_get_set_same. discriminate.
Qed.

Lemma tools_connected_connect_all (launch : string -> MCPServerConfig -> ServerBehaviour)
      (configs : list (string * MCPServerConfig)) :
  forall m, tools_connected m -> tools_connected (connect_all launch configs m).
Proof.
  induction configs as [|[server config] configs IH]; intros m H; [exact H|].
  cbn [connect_all]. apply IH, tools_connected_connectServer, H.
Qed.

(** X12.  In every manager built by the constructor, [connect()] and
    [disconnect()], whatever the servers do, each registered tool belongs to a
    server that has a client: [callTool] on a registered tool name never
    throws "Server not connected", it returns what the client of the first
    tool of that name returns (or rethrows what that client throws). *)
Theorem registered_tool_has_client (m : Manager) (toolName args : string)
        (tool : MCPTool) :
  reachable m ->
  find (fun t => String.eqb (tool_name t) toolName) (tools (inner m)) = Some tool ->
  exists client,
    clients_get (clients (inner m)) (serverName tool) = Some client
    /\ callTool (inner m) toolName args
       = match client_callTool client toolName args with
         | inl error => inl error
         | inr result => inr (extract_text result)
         end.
Proof.
  intros Hr Hfind.
  assert (Hinv : tools_connected (inner m)).
  { clear Hfind. induction Hr as [configs q | m launch _ IH | m _ IH].
    - intros tool0 [].
    - cbn [connect inner]. apply tools_connected_connect_all, IH.
    - intros tool0 []. }
  pose proof (find_some _ _ Hfind) as [Hin _].
  specialize (Hinv tool Hin).
  destruct (clients_get (clients (inner m)) (serverName tool)) as [client|] eqn:Hc;
    [|congruence].
  exists client. split; [reflexivity|].
  unfold callTool. now rewrite Hfind, Hc.
Qed.

Lemma registered_tool_has_client_witness :
  let m := connect sample_launch (constructor sample_configs true) in
  exists client,
    clients_get (clients (inner m)) "obsidian" = Some client
    /\ callTool (inner m) "obsidian_read" "{}"
       = match client_callTool client "obsidian_read" "{}" with
         | inl error => inl error
         | inr result => inr (extract_text result)
         end.
Proof.
  refine (registered_tool_has_client
            (connect sample_launch (constructor sample_configs true))
            "obsidian_read" "{}"
            (mkMCPTool "obsidian" "obsidian_read" "" "{}") _ eq_refl).
  apply reach_connect, reach_new.
Defined.

Lemma clients_set_absent (cs : list (string * Client)) (server : string) (c : Client) :
  clients_get cs server = None ->
  clients_set cs server c = (cs ++ [(server, c)])%list.
Proof.
  induction cs as [|[n c0] cs IH]; cbn; [reflexivity|].
  destruct (String.eqb n server); [discriminate|].
  intros H. now rewrite IH.
Qed.

Lemma clients_get_app_absent (cs : list (string * Client)) (server other : string)
      (c : Client) :
  clients_get cs other = None ->
  other <> server ->
  clients_get (cs ++ [(server, c)]) other = None.
Proof.
  intros H Hne. induction cs as [|[n c0] cs IH]; cbn in *.
  - destruct (String.eqb server other) eqn:E; [|reflexivity].
    apply String.eqb_eq in E. congruence.
  - destruct (String.eqb n other); [discriminate | auto].
Qed.

Lemma connect_all_closed (launch : string -> MCPServerConfig -> ServerBehaviour)
      (configs : list (string * MCPServerConfig)) :
  forall m,
    NoDup (map fst configs) ->
    (forall server, In server (map fst configs) -> clients_get (clients m) server = None) ->
    tools (connect_all launch configs m)
    = (tools m ++ served_tools launch configs)%list
    /\ clients (connect_all launch configs m)
       = (clients m ++ connected_clients launch configs)%list.
Proof.
  induction configs as [|[server config] configs IH]; intros m Hnd Hfresh.
  - cbn. now rewrite !app_nil_r.
  - cbn [map fst] in Hnd. inversion Hnd as [|? ? Hnotin Hnd']; subst.
    assert (Hs : clients_get (clients m) server = None).
    { apply Hfresh. left. reflexivity. }
    assert (Hrest : forall c other, In other (map fst configs) ->
               clients_get (clients m ++ [(server, c)]) other = None).
    { intros c other Hin. apply clients_get_app_absent.
      - apply Hfresh. right. exact Hin.
      - intros ->. contradiction. }
    cbn [connect_all served_tools connected_clients].
    destruct (launch server config) as [e | c e | c listed];
      cbn [connectServer snd].
    + apply IH; [exact Hnd'|]. intros other Hin. apply Hfresh. right. exact Hin.
    + rewrite clients_set_absent by exact Hs.
      destruct (IH (mkMCPClientManager (clients m ++ [(server, c)]) (tools m)) Hnd')
        as [H1 H2]; [apply Hrest|].
      cbn [tools clients] in *. rewrite H1, H2, <- app_assoc. auto.
    + rewrite clients_set_absent by exact Hs.
      destruct (IH (mkMCPClientManager (clients m ++ [(server, c)])
                      (tools m ++ map (registered server) listed)) Hnd')
        as [H1 H2]; [apply Hrest|].
      cbn [tools clients] in *. rewrite H1, H2, <- !app_assoc. auto.
Qed.

(** X13.  [connect()] on a fresh manager never fails as a whole and
    takes the servers one by one: a server whose launch throws is left out, a
    server whose [listTools] throws is connected but contributes no tool, and
    the tools registered are those the other servers list, each under its
    server's name, in configuration order. *)
Theorem connect_isolates_failures
        (launch : string -> MCPServerConfig -> ServerBehaviour)
        (configs : list (string * MCPServerConfig)) (q : bool) :
  NoDup (map fst configs) ->
  let m := connect launch (constructor configs q) in
  tools (inner m) = served_tools launch configs
  /\ clients (inner m) = connected_clients launch configs.
Proof.
  intros Hnd. cbn [connect constructor inner serverConfigs].
  destruct (connect_all_closed launch configs (mkMCPClientManager [] []) Hnd)
    as [H1 H2]; [reflexivity|].
  cbn [tools clients app] in *. auto.
Qed.

Lemma connect_isolates_failures_witness :
  let m := connect sample_launch (constructor sample_configs true) in
  tools (inner m) = served_tools sample_launch sample_configs
  /\ clients (inner m) = connected_clients sample_launch sample_configs.
Proof.
  refine (connect_isolates_failures sample_launch sample_configs true _).
  repeat constructor; cbn; intuition discriminate.
Defined.

End McpFacts.

(* ------------------------------------------------------------------------ *)
(** ** Further properties of the agent                                      *)
(* ------------------------------------------------------------------------ *)

Module AgentExtra.
Import Agent AgentMore.

Lemma threaded_dispatches (m : MCPClientManager) (calls : list ToolCall) :
  forall conv t final,
    threaded (conv ++ map (fun c => result_message (call_result m c)) calls) t final ->
    threaded conv (map (dispatch_effect m) calls ++ t) final.
Proof.
  induction calls as [|c calls IH]; intros conv t final H.
  - cbn in *. now rewrite app_nil_r in H.
  - cbn [map app threaded dispatch_effect]. apply IH.
    cbn [map] in H. rewrite <- app_assoc. exact H.
Qed.

Lemma chat_loop_threaded (tools : list Tool) (fuel : nat) (count : Z)
      (used : list string) (a : Agent) :
  let x := chat_loop fuel tools count used a in
  match fst (fst x) with
  | inl _ => threaded (conversationHistory a) (snd x)
                      (conversationHistory (snd (fst x)))
  | inr _ => forall tail final,
      threaded (conversationHistory (snd (fst x))) tail final ->
      threaded (conversationHistory a) (snd x ++ tail) final
  end.
Proof.
  revert fuel count used a.
  apply (AgentFacts.chat_loop_ind tools
           (fun _ _ _ a x =>
              match fst (fst x) with
              | inl _ => threaded (conversationHistory a) (snd x)
                                  (conversationHistory (snd (fst x)))
              | inr _ => forall tail final,
                  threaded (conversationHistory (snd (fst x))) tail final ->
                  threaded (conversationHistory a) (snd x ++ tail) final
              end)).
  - intros fuel count used a _. cbn. intros tail final H. exact H.
  - intros count used a _. cbn. intros tail final H. exact H.
  - intros. cbn. auto.
  - intros fuel count used a message _ _ _ content0. cbn. intros tail final H.
    split; [reflexivity | exact H].
  - intros fuel count used a message calls r a' t _ _ _ _ IH.
    cbn [fst snd] in *. cbn [conversationHistory with_messages] in IH.
    destruct r as [error | e].
    + cbn [threaded]. split; [reflexivity|].
      apply threaded_dispatches. exact IH.
    + intros tail final H. cbn [app threaded]. split; [reflexivity|].
      rewrite <- app_assoc. apply threaded_dispatches. apply IH, H.
Qed.

(** X14.  The trace of a turn replays into its conversation: the first
    model call is sent the history with the user message appended, every later
    model call is sent that plus every reply and every tool result so far, in
    the order they occurred (a failed tool as its "Error: ..." message), and
    the history the turn leaves is the last of these; nothing is dropped or
    reordered, and a model call that throws ends the turn. *)
Theorem turn_replays_trace (patience : nat) (a : Agent) (userMessage : string) :
  let x := chat patience userMessage a in
  threaded (conversationHistory a ++ [mkMessage "user" userMessage None])
           (snd x)
           (conversationHistory (snd (fst x))).
Proof.
  cbv zeta. rewrite AgentFacts.chat_unfold. cbv zeta.
  pose proof (chat_loop_threaded (getOllamaTools (mcpClient a))
                (passes (maxToolCalls (config a)) patience) 0 []
                (turn_start a userMessage)) as H.
  cbv zeta in H.
  destruct (chat_loop _ _ _ _ _) as [[[error | [response | used |]] a1] t];
    cbn [fst snd] in *;
    change (conversationHistory (turn_start a userMessage))
      with (conversationHistory a ++ [mkMessage "user" userMessage None])%list in H.
  - exact H.
  - rewrite <- (app_nil_r t). apply H. reflexivity.
  - destruct (runtime (ollamaClient a1) (final_request a1)) as [error|message] eqn:Hr;
      cbn [fst snd]; apply H; cbn; auto.
  - rewrite <- (app_nil_r t). apply H. reflexivity.
Qed.

(** *** The export transcript *)

Lemma chat_loop_transcript (tools : list Tool) (fuel : nat) (count : Z)
      (used : list string) (a : Agent) :
  let x := chat_loop fuel tools count used a in
  chatHistory (snd (fst x))
  = (chatHistory a
     ++ match fst (fst x) with
        | inr (Returned response) => [assistant_turn response]
        | _ => []
        end)%list.
Proof.
  revert fuel count used a.
  apply (AgentFacts.chat_loop_ind tools
           (fun _ _ _ a x =>
              chatHistory (snd (fst x))
              = (chatHistory a
                 ++ match fst (fst x) with
                    | inr (Returned response) => [assistant_turn response]
                    | _ => []
                    end)%list));
    intros; cbn in *; rewrite ?app_nil_r; auto.
Qed.

(** X15.  A turn adds to the export transcript the user's input
    and, when it returns a response, one assistant entry with that response's
    content and tools (no tools entry when none was used).  A turn that throws
    has added the user's input only: the transcript then holds a question
    without an answer. *)
Theorem turn_extends_transcript (patience : nat) (a : Agent) (userMessage : string) :
  let x := chat patience userMessage a in
  chatHistory (snd (fst x))
  = (chatHistory a
     ++ mkChatTurn "user" userMessage None
     :: match fst (fst x) with
        | inr (Some response) => [assistant_turn response]
        | _ => []
        end)%list.
Proof.
  cbv zeta. rewrite AgentFacts.chat_unfold. cbv zeta.
  pose proof (chat_loop_transcript (getOllamaTools (mcpClient a))
                (passes (maxToolCalls (config a)) patience) 0 []
                (turn_start a userMessage)) as H.
  cbv zeta in H.
  destruct (chat_loop _ _ _ _ _) as [[[error | [response | used |]] a1] t];
    cbn [fst snd] in *;
    change (chatHistory (turn_start a userMessage))
      with (chatHistory a ++ [mkChatTurn "user" userMessage None])%list in H.
  - rewrite H, app_nil_r. reflexivity.
  - rewrite H, <- app_assoc. reflexivity.
  - destruct (runtime (ollamaClient a1) (final_request a1)) as [error|message];
      cbn [fst snd chatHistory with_turn with_messages];
      rewrite H, app_nil_r; [reflexivity|].
    rewrite <- app_assoc. reflexivity.
  - rewrite H, app_nil_r. reflexivity.
Qed.

(** X16.  The [toolsUsed] of a response are the names of the tools
    the turn dispatched, in dispatch order and with repetitions: a tool called
    twice is listed twice, and a tool whose call failed is listed too. *)
Theorem tools_used_are_dispatched (patience : nat) (a : Agent) (userMessage : string) :
  let x := chat patience userMessage a in
  match fst (fst x) with
  | inr (Some response) => resp_toolsUsed response = dispatched_names (snd x)
  | _ => True
  end.
Proof.
  cbv zeta. rewrite AgentFacts.chat_unfold. cbv zeta.
  pose proof (AgentFacts.chat_loop_end (getOllamaTools (mcpClient a))
                (passes (maxToolCalls (config a)) patience) 0 []
                (turn_start a userMessage)) as H.
  cbv zeta in H.
  destruct (chat_loop _ _ _ _ _) as [[[error | [response | used |]] a1] t];
    cbn [fst snd] in *; try exact I.
  - exact H.
  - destruct H as [H _].
    destruct (runtime (ollamaClient a1) (final_request a1)) as [error|message];
      cbn [fst snd]; [exact I|].
    cbn [resp_toolsUsed]. rewrite AgentFacts.dispatched_names_app. cbn.
    rewrite app_nil_r. exact H.
Qed.

(** *** How many model calls *)

Lemma model_calls_app (t1 t2 : list Effect) :
  model_calls (t1 ++ t2) = model_calls t1 + model_calls t2.
Proof. unfold model_calls. rewrite filter_app, length_app. lia. Qed.

Lemma model_calls_dispatches (m : MCPClientManager) (calls : list ToolCall) :
  model_calls (map (dispatch_effect m) calls) = 0.
Proof.
  unfold model_calls. induction calls as [|c calls IH]; cbn in *; [reflexivity | exact IH].
Qed.

Lemma chat_loop_model_calls (tools : list Tool) (fuel : nat) (count : Z)
      (used : list string) (a : Agent) :
  let x := chat_loop fuel tools count used a in
  (forall p q,
      maxToolCalls (config a) = JS.Finite p q ->
      model_calls (snd x) <= Z.max 0 (JS.ceiling p q - count))
  /\ match fst (fst x) with
     | inr (BudgetSpent _) => True
     | inr OutOfFuel => fuel = O \/ 1 <= model_calls (snd x)
     | _ => 1 <= model_calls (snd x)
     end.
Proof.
  revert fuel count used a.
  apply (AgentFacts.chat_loop_ind tools
           (fun fuel count _ a x =>
              (forall p q,
                  maxToolCalls (config a) = JS.Finite p q ->
                  model_calls (snd x) <= Z.max 0 (JS.ceiling p q - count))
              /\ match fst (fst x) with
                 | inr (BudgetSpent _) => True
                 | inr OutOfFuel => fuel = O \/ 1 <= model_calls (snd x)
                 | _ => 1 <= model_calls (snd x)
                 end)).
  - intros. cbn [fst snd]. change (model_calls []) with 0. split; [lia | exact I].
  - intros. cbn [fst snd]. change (model_calls []) with 0. split; [lia | now left].
  - intros fuel count used a error Hlt _. cbn [fst snd].
    change (model_calls [ModelCall (loop_request tools a) (inl error)]) with 1.
    split; [|lia]. intros p q Hfin.
    rewrite Hfin, AgentFacts.int_lt_ceiling in Hlt. apply Z.ltb_lt in Hlt. lia.
  - intros fuel count used a message Hlt _ _ content0. cbn [fst snd].
    change (model_calls [ModelCall (loop_request tools a) (inr message)]) with 1.
    split; [|lia]. intros p q Hfin.
    rewrite Hfin, AgentFacts.int_lt_ceiling in Hlt. apply Z.ltb_lt in Hlt. lia.
  - intros fuel count used a message calls r a' t Hlt _ _ Hne [IH1 IH2].
    cbn [fst snd] in *. cbn [config with_messages] in IH1.
    assert (Hlen : 0 < Z.of_nat (List.length calls)).
    { destruct calls; [congruence | cbn [List.length]; lia]. }
    change (ModelCall (loop_request tools a) (inr message)
            :: map (dispatch_effect (mcpClient a)) calls ++ t)
      with ([ModelCall (loop_request tools a) (inr message)]
            ++ map (dispatch_effect (mcpClient a)) calls ++ t)%list.
    rewrite !model_calls_app, model_calls_dispatches.
    assert (H1 : model_calls [ModelCall (loop_request tools a) (inr message)] = 1)
      by reflexivity.
    pose proof (Zle_0_nat (List.length (filter (fun e => negb (is_dispatch e)) t))) as Hnn.
    fold (model_calls t) in Hnn.
    split.
    + intros p q Hfin. specialize (IH1 p q Hfin).
      rewrite Hfin, AgentFacts.int_lt_ceiling in Hlt. apply Z.ltb_lt in Hlt. lia.
    + destruct r as [e | [resp | u |]]; try exact I; try right; lia.
Qed.

(** X17.  A turn makes at least one model call.  Under a finite budget
    it makes at most [Math.ceil(maxToolCalls) + 1] of them (one, when the
    budget is zero or negative), which is [maxToolCalls + 1] when
    [maxToolCalls] is an integer: every pass of the loop that dispatches
    tools raises the counter by at least one. *)
Theorem model_calls_bounded (patience : nat) (a : Agent) (userMessage : string) :
  let t := snd (chat patience userMessage a) in
  1 <= model_calls t
  /\ (forall p q,
         maxToolCalls (config a) = JS.Finite p q ->
         model_calls t <= Z.max 0 (JS.ceiling p q) + 1)
  /\ (forall z,
         JS.is_int (maxToolCalls (config a)) z ->
         model_calls t <= Z.max 0 z + 1).
Proof.
  cbv zeta.
  assert (Hint : forall t : list Effect,
             (forall p q,
                 maxToolCalls (config a) = JS.Finite p q ->
                 model_calls t <= Z.max 0 (JS.ceiling p q) + 1) ->
             forall z,
               JS.is_int (maxToolCalls (config a)) z ->
               model_calls t <= Z.max 0 z + 1).
  { intros t Hfin z Hz. destruct (maxToolCalls (config a)) as [p q| | |];
      cbn [JS.is_int] in Hz; try contradiction.
    rewrite <- (AgentFacts.is_int_ceiling p q z Hz). apply Hfin. reflexivity. }
  rewrite AgentFacts.chat_unfold. cbv zeta.
  pose proof (chat_loop_model_calls (getOllamaTools (mcpClient a))
                (passes (maxToolCalls (config a)) patience) 0 []
                (turn_start a userMessage)) as [H1 H2].
  pose proof (AgentFacts.chat_loop_end (getOllamaTools (mcpClient a))
                (passes (maxToolCalls (config a)) patience) 0 []
                (turn_start a userMessage)) as He.
  cbv zeta in H1, H2, He.
  change (config (turn_start a userMessage)) with (config a) in *.
  fold (turn_start a userMessage).
  destruct (chat_loop _ _ _ _ _) as [[[error | [response | used |]] a1] t];
    cbn [fst snd] in *.
  - split; [exact H2|]. split; [|apply Hint];
      intros p q Hfin; specialize (H1 p q Hfin); lia.
  - split; [exact H2|]. split; [|apply Hint];
      intros p q Hfin; specialize (H1 p q Hfin); lia.
  - pose proof (Zle_0_nat (List.length (filter (fun e => negb (is_dispatch e)) t))) as Hnn.
    fold (model_calls t) in Hnn.
    assert (Hlast : forall reply,
               model_calls (t ++ [ModelCall (final_request a1) reply]) = model_calls t + 1).
    { intros reply. rewrite model_calls_app. reflexivity. }
    destruct (runtime (ollamaClient a1) (final_request a1)) as [error|message];
      cbn [snd]; (split; [rewrite Hlast; lia|]); (split; [|apply Hint]);
      intros p q Hfin; specialize (H1 p q Hfin); rewrite Hlast; lia.
  - assert (Hpos : 1 <= model_calls t).
    { destruct H2 as [H2|H2]; [|exact H2]. exfalso.
      rewrite H2 in He. change (0 + Z.of_nat 0) with 0 in He.
      destruct (AgentFacts.passes_pos _ patience He) as [k Hk]. congruence. }
    split; [exact Hpos|]. split; [|apply Hint];
      intros p q Hfin; specialize (H1 p q Hfin); lia.
Qed.

(** *** Edge cases of the budget *)

(** X18.  With a budget that zero is not below (zero, a negative number,
    NaN) the loop body never runs:
    the turn is a single model call with no tool declarations, the tool calls
    its reply may request are not dispatched, and the answer is the reply's
    content, or "(No response)" when that is empty. *)
Theorem zero_budget_single_call (patience : nat) (a : Agent) (userMessage : string) :
  JS.int_lt 0 (maxToolCalls (config a)) = false ->
  let a0 := turn_start a userMessage in
  let x := chat patience userMessage a in
  snd x = [ModelCall (final_request a0) (runtime (ollamaClient a) (final_request a0))]
  /\ req_tools (final_request a0) = None
  /\ dispatches (snd x) = 0
  /\ fst (fst x)
     = match runtime (ollamaClient a) (final_request a0) with
       | inl error => inl error
       | inr message =>
           inr (Some (mkAgentResponse (JS.or_else (content message) "(No response)") []))
       end.
Proof.
  intros Hmax. cbv zeta. rewrite AgentFacts.chat_unfold. cbv zeta.
  fold (turn_start a userMessage).
  rewrite AgentFacts.chat_loop_unfold.
  change (config (turn_start a userMessage)) with (config a).
  rewrite Hmax.
  change (ollamaClient (turn_start a userMessage)) with (ollamaClient a).
  destruct (runtime (ollamaClient a) (final_request (turn_start a userMessage)))
    as [error|message]; cbn [fst snd]; repeat split; reflexivity.
Qed.

Lemma zero_budget_single_call_witness :
  let a := sample_agent 0 (mkMessage "assistant" "" (Some [search_call])) in
  let a0 := turn_start a "hi" in
  let x := chat 0 "hi" a in
  snd x = [ModelCall (final_request a0) (runtime (ollamaClient a) (final_request a0))]
  /\ req_tools (final_request a0) = None
  /\ dispatches (snd x) = 0
  /\ fst (fst x)
     = match runtime (ollamaClient a) (final_request a0) with
       | inl error => inl error
       | inr message =>
           inr (Some (mkAgentResponse (JS.or_else (content message) "(No response)") []))
       end.
Proof.
  refine (zero_budget_single_call 0
            (sample_agent 0 (mkMessage "assistant" "" (Some [search_call]))) "hi" _).
  reflexivity.
Defined.

(** X19.  With some budget, a model whose first reply requests no
    tool ends the turn at once: one model call, no dispatch, and the answer is
    the reply's content exactly as it is, the empty string included (the
    "(No response)" placeholder is used after a spent budget only). *)
Theorem plain_answer_returned_as_is (patience : nat) (a : Agent)
        (userMessage : string)
        (message : Message) :
  JS.int_lt 0 (maxToolCalls (config a)) = true ->
  let a0 := turn_start a userMessage in
  let req := loop_request (getOllamaTools (mcpClient a)) a0 in
  runtime (ollamaClient a) req = inr message ->
  tool_calls message = None \/ tool_calls message = Some [] ->
  let x := chat patience userMessage a in
  fst (fst x) = inr (Some (mkAgentResponse (content message) []))
  /\ snd x = [ModelCall req (inr message)]
  /\ conversationHistory (snd (fst x))
     = (conversationHistory a ++ [mkMessage "user" userMessage None; message])%list.
Proof.
  intros Hmax a0 req Hrun Hcalls. cbv zeta.
  rewrite AgentFacts.chat_unfold. cbv zeta.
  fold (turn_start a userMessage). fold a0.
  destruct (AgentFacts.passes_pos _ patience Hmax) as [k ->].
  rewrite AgentFacts.chat_loop_unfold.
  change (config a0) with (config a).
  rewrite Hmax. cbv zeta.
  change (ollamaClient a0) with (ollamaClient a).
  change (loop_request (getOllamaTools (mcpClient a)) a0) with req.
  rewrite Hrun.
  assert (Hc : JS.or_else (content message) "" = content message).
  { unfold JS.or_else. destruct (content message); reflexivity. }
  destruct Hcalls as [-> | ->]; cbn [fst snd]; rewrite Hc;
    (split; [reflexivity | split; [reflexivity|]]);
    subst a0; unfold turn_start;
    cbn [conversationHistory with_turn with_messages];
    rewrite <- app_assoc; reflexivity.
Qed.

Lemma plain_answer_returned_as_is_witness :
  let a := sample_agent 3 (mkMessage "assistant" "" None) in
  let x := chat 0 "hi" a in
  fst (fst x) = inr (Some (mkAgentResponse "" []))
  /\ snd x = [ModelCall (loop_request (getOllamaTools (mcpClient a)) (turn_start a "hi"))
                        (inr (mkMessage "assistant" "" None))]
  /\ conversationHistory (snd (fst x))
     = (conversationHistory a
        ++ [mkMessage "user" "hi" None; mkMessage "assistant" "" None])%list.
Proof.
  refine (plain_answer_returned_as_is 0
            (sample_agent 3 (mkMessage "assistant" "" None)) "hi"
            (mkMessage "assistant" "" None) _ eq_refl (or_introl eq_refl)).
  reflexivity.
Defined.

(** *** Sessions *)

Lemma chat_history_extends (patience : nat) (a : Agent) (userMessage : string) :
  exists delta,
    conversationHistory (snd (fst (chat patience userMessage a)))
    = (conversationHistory a ++ delta)%list.
Proof.
  rewrite AgentFacts.chat_unfold. cbv zeta. fold (turn_start a userMessage).
  pose proof (AgentFacts.chat_loop_history (getOllamaTools (mcpClient a))
                (passes (maxToolCalls (config a)) patience) 0 []
                (turn_start a userMessage)) as (delta & Hd & _).
  destruct (chat_loop _ _ _ _ _) as [[[error | [response | used |]] a1] t];
    cbn [fst snd] in *;
    change (conversationHistory (turn_start a userMessage))
      with (conversationHistory a ++ [mkMessage "user" userMessage None])%list in Hd;
    try (exists ([mkMessage "user" userMessage None] ++ delta)%list;
         rewrite Hd, <- app_assoc; reflexivity).
  destruct (runtime (ollamaClient a1) (final_request a1)) as [error|message];
    cbn [fst snd conversationHistory with_turn with_messages]; rewrite Hd.
  - exists ([mkMessage "user" userMessage None] ++ delta)%list.
    rewrite <- app_assoc. reflexivity.
  - exists ([mkMessage "user" userMessage None] ++ delta ++ [message])%list.
    rewrite <- !app_assoc. reflexivity.
Qed.

Lemma apply_op_config (patience : nat) (a : Agent) (op : AgentOp) :
  config (apply_op patience a op) = config a.
Proof.
  destruct op; cbn [apply_op]; [apply AgentFacts.chat_config | reflexivity | reflexivity].
Qed.

(** X20.  From [initialize()] on, whatever turns, clears and model
    switches follow, the first message of the conversation history is the
    system prompt of the configuration: turns only append after it, and a clear
    puts it back. *)
Theorem system_prompt_stays_first (patience : nat) (a : Agent) (ops : list AgentOp) :
  exists rest,
    conversationHistory (run_ops patience (initialize a) ops)
    = mkMessage "system" (systemPrompt (config a)) None :: rest.
Proof.
  assert (H : forall b,
             config b = config a ->
             (exists rest, conversationHistory b
                           = mkMessage "system" (systemPrompt (config a)) None :: rest) ->
             exists rest, conversationHistory (run_ops patience b ops)
                          = mkMessage "system" (systemPrompt (config a)) None :: rest).
  { induction ops as [|op ops IH]; intros b Hc Hb; [exact Hb|].
    unfold run_ops. cbn [fold_left]. apply IH.
    - rewrite apply_op_config. exact Hc.
    - destruct op as [input | | model]; cbn [apply_op].
      + destruct Hb as [rest Hb]. destruct (chat_history_extends patience b input) as [d Hd].
        exists (rest ++ d)%list. rewrite Hd, Hb. reflexivity.
      + exists []. cbn. now rewrite Hc.
      + exact Hb. }
  apply H; [reflexivity|]. exists []. reflexivity.
Qed.

(** A turn adds one user entry to the transcript, answered or not. *)
Lemma chat_user_turns (patience : nat) (a : Agent) (userMessage : string) :
  user_turns (chatHistory (snd (fst (chat patience userMessage a))))
  = S (user_turns (chatHistory a)).
Proof.
  rewrite AgentFacts.chat_unfold. cbv zeta. fold (turn_start a userMessage).
  pose proof (chat_loop_transcript (getOllamaTools (mcpClient a))
                (passes (maxToolCalls (config a)) patience) 0 []
                (turn_start a userMessage)) as H.
  cbv zeta in H.
  assert (Hstart : user_turns (chatHistory (turn_start a userMessage))
                   = S (user_turns (chatHistory a))).
  { unfold user_turns. cbn [chatHistory turn_start with_messages with_turn].
    rewrite filter_app, length_app. cbn. lia. }
  assert (Hanswer : forall h content used,
             user_turns (h ++ [mkChatTurn "assistant" content used]) = user_turns h).
  { intros h content0 used0. unfold user_turns.
    rewrite filter_app, length_app. cbn. lia. }
  destruct (chat_loop _ _ _ _ _) as [[[error | [response | used |]] a1] t];
    cbn [fst snd] in *.
  - now rewrite H, app_nil_r.
  - rewrite H. unfold assistant_turn. now rewrite Hanswer.
  - rewrite app_nil_r in H.
    destruct (runtime (ollamaClient a1) (final_request a1)) as [error|message];
      cbn [fst snd chatHistory with_turn with_messages]; rewrite H;
      [|rewrite Hanswer]; exact Hstart.
  - now rewrite H, app_nil_r.
Qed.

(** X21.  The "**Turns**" line of an export (its fifth line) counts the
    chat inputs since the last clear, or since the start, whether or not they
    were answered: a turn that threw is counted too. *)
Theorem export_counts_turns (patience : nat) (a : Agent) (ops : list AgentOp)
        (date time : string) :
  chatHistory a = [] ->
  nth_error (export_lines date time (run_ops patience a ops)) 4
  = Some ("**Turns**: " ++ decimal (chats_since_clear ops 0)).
Proof.
  intros Hempty.
  cbn [export_lines app nth_error]. do 3 f_equal.
  assert (H : forall b n, user_turns (chatHistory b) = n ->
             user_turns (chatHistory (run_ops patience b ops)) = chats_since_clear ops n).
  { induction ops as [|op ops IH]; intros b n Hb; [exact Hb|].
    unfold run_ops. cbn [fold_left chats_since_clear].
    destruct op as [input | | model]; cbn [apply_op]; apply IH.
    - rewrite chat_user_turns. now rewrite Hb.
    - reflexivity.
    - exact Hb. }
  apply H. now rewrite Hempty.
Qed.

Lemma export_counts_turns_witness :
  nth_error (export_lines "12/14/2024" "10:30:00 AM"
               (run_ops 0 (unreachable_agent 2)
                        [OpChat "one"; OpClear; OpChat "two"; OpSetModel "qwq:32b";
                         OpChat "three"])) 4
  = Some "**Turns**: 2".
Proof.
  exact (export_counts_turns 0 (unreachable_agent 2)
           [OpChat "one"; OpClear; OpChat "two"; OpSetModel "qwq:32b"; OpChat "three"]
           "12/14/2024" "10:30:00 AM" eq_refl).
Defined.

(** *** What a request carries *)

Lemma request_of_ext (a b : Agent) (e : Effect) :
  ollamaClient a = ollamaClient b -> mcpClient a = mcpClient b ->
  request_of a e -> request_of b e.
Proof.
  intros Ho Hm. destruct e as [req reply|]; cbn; [|auto].
  now rewrite Ho, Hm.
Qed.

Lemma chat_loop_requests (fuel : nat) (count : Z) (used : list string) (a : Agent) :
  Forall (request_of a)
         (snd (chat_loop fuel (getOllamaTools (mcpClient a)) count used a)).
Proof.
  generalize (eq_refl (getOllamaTools (mcpClient a))).
  generalize (getOllamaTools (mcpClient a)) at 1 3. intros tools Ht.
  revert Ht. revert fuel count used a.
  apply (AgentFacts.chat_loop_ind tools
           (fun _ _ _ a x =>
              tools = getOllamaTools (mcpClient a) -> Forall (request_of a) (snd x))).
  - intros. constructor.
  - intros. constructor.
  - intros fuel count used a error _ _ Ht. cbn [snd]. constructor; [|constructor].
    cbn. repeat split. rewrite <- Ht. destruct tools; [left; reflexivity|].
    right. split; [reflexivity | discriminate].
  - intros fuel count used a message _ _ _ content0 Ht. cbn [snd].
    constructor; [|constructor].
    cbn. repeat split. rewrite <- Ht. destruct tools; [left; reflexivity|].
    right. split; [reflexivity | discriminate].
  - intros fuel count used a message calls r a' t _ _ _ _ IH Ht. cbn [snd] in *.
    constructor.
    + cbn. repeat split. rewrite <- Ht. destruct tools; [left; reflexivity|].
      right. split; [reflexivity | discriminate].
    + apply Forall_app. split.
      * apply Forall_forall. intros e He. apply in_map_iff in He.
        destruct He as (c & <- & _). exact I.
      * specialize (IH Ht). revert IH. apply Forall_impl. intros e.
        apply request_of_ext; reflexivity.
Qed.

(** X22.  Every model request of a turn names the model the agent
    holds at that moment (the one set last by [setModel]), carries the
    client's options, and declares either all the registered tools, as
    [getOllamaTools] gives them, or none at all; no request declares only
    some of the tools. *)
Theorem requests_carry_model_and_tools (patience : nat) (a : Agent)
        (model userMessage : string) :
  let b := setModel a model in
  getModel b = model
  /\ conversationHistory b = conversationHistory a
  /\ Forall (request_of b) (snd (chat patience userMessage b)).
Proof.
  cbv zeta. split; [reflexivity|]. split; [reflexivity|].
  generalize (setModel a model). intros b.
  rewrite AgentFacts.chat_unfold. cbv zeta.
  pose proof (chat_loop_requests (passes (maxToolCalls (config b)) patience) 0 []
                (turn_start b userMessage)) as H.
  pose proof (AgentFacts.chat_loop_frame (getOllamaTools (mcpClient b))
                (passes (maxToolCalls (config b)) patience) 0 []
                (turn_start b userMessage)) as (Hf1 & Hf2 & _).
  change (mcpClient (turn_start b userMessage)) with (mcpClient b) in *.
  change (ollamaClient (turn_start b userMessage)) with (ollamaClient b) in *.
  assert (H' : Forall (request_of b)
                 (snd (chat_loop (passes (maxToolCalls (config b)) patience)
                                 (getOllamaTools (mcpClient b)) 0 []
                                 (turn_start b userMessage)))).
  { revert H. apply Forall_impl. intros e. apply request_of_ext; reflexivity. }
  clear H. cbv zeta in Hf1, Hf2.
  destruct (chat_loop _ _ _ _ _) as [[[error | [response | used |]] a1] t];
    cbn [fst snd] in *; try exact H'.
  destruct (runtime (ollamaClient a1) (final_request a1)) as [error|message];
    cbn [snd]; apply Forall_app; (split; [exact H'|]);
    constructor; try constructor; cbn; rewrite Hf1; auto.
Qed.

End AgentExtra.

(* ------------------------------------------------------------------------ *)
(** ** Properties of the configuration and of the vault path                *)
(* ------------------------------------------------------------------------ *)

Module ConfigFacts.
Import Mcp Config Vault.

Lemma servers_get_set_same (servers : list (string * MCPServerConfig)) (key : string)
      (value : MCPServerConfig) :
  servers_get (servers_set servers key value) key = Some value.
Proof.
  induction servers as [|[k v] servers IH]; cbn.
  - now rewrite String.eqb_refl.
  - destruct (String.eqb k key) eqn:E; cbn; rewrite E; [reflexivity | exact IH].
Qed.

Lemma servers_get_set_other (servers : list (string * MCPServerConfig))
      (key other : string) (value : MCPServerConfig) :
  other <> key ->
  servers_get (servers_set servers key value) other = servers_get servers other.
Proof.
  intros Hne. induction servers as [|[k v] servers IH]; cbn.
  - destruct (String.eqb key other) eqn:E; [|reflexivity].
    apply String.eqb_eq in E. congruence.
  - destruct (String.eqb k key) eqn:E; cbn.
    + apply String.eqb_eq in E. subst k.
      destruct (String.eqb key other) eqn:E2; [|reflexivity].
      apply String.eqb_eq in E2. congruence.
    + destruct (String.eqb k other); [reflexivity | exact IH].
Qed.

Lemma servers_set_keys (servers : list (string * MCPServerConfig)) (key : string)
      (value : MCPServerConfig) :
  servers_get servers key <> None ->
  map fst (servers_set servers key value) = map fst servers.
Proof.
  induction servers as [|[k v] servers IH]; cbn; [congruence|].
  destruct (String.eqb k key) eqn:E; cbn; [reflexivity|].
  intros H. now rewrite IH.
Qed.

Lemma servers_set_absent (servers : list (string * MCPServerConfig)) (key : string)
      (value : MCPServerConfig) :
  ~ In key (map fst servers) ->
  servers_set servers key value = (servers ++ [(key, value)])%list.
Proof.
  induction servers as [|[k v] servers IH]; cbn; [reflexivity|].
  intros H. destruct (String.eqb k key) eqn:E.
  - apply String.eqb_eq in E. exfalso. apply H. now left.
  - rewrite IH; [reflexivity|]. intros Hin. apply H. now right.
Qed.

Lemma spread_fresh (entries : list (string * MCPServerConfig)) :
  forall acc,
    NoDup (map fst entries) ->
    (forall k, In k (map fst entries) -> ~ In k (map fst acc)) ->
    fold_left (fun acc kv => servers_set acc (fst kv) (snd kv)) entries acc
    = (acc ++ entries)%list.
Proof.
  induction entries as [|[k v] entries IH]; intros acc Hnd Hfresh.
  - cbn. now rewrite app_nil_r.
  - cbn [fold_left fst snd]. cbn [map fst] in Hnd.
    inversion Hnd as [|? ? Hnotin Hnd']; subst.
    rewrite servers_set_absent by (apply Hfresh; now left).
    rewrite IH.
    + rewrite <- app_assoc. reflexivity.
    + exact Hnd'.
    + intros k' Hin. rewrite map_app. cbn. intros Hin'.
      apply in_app_or in Hin'. destruct Hin' as [Hin'|[<-|[]]].
      * apply (Hfresh k'); [now right | exact Hin'].
      * contradiction.
Qed.

(** X23.  A complete configuration written to a file and loaded
    again comes back unchanged, whatever the defaults are, provided it has an
    [options] entry: the defaults only fill in what the file leaves out.
    (Without [options] the default options are filled in.) *)
Theorem merge_complete_config (prompt : string) (c : Config) :
  options (ollama c) <> None ->
  NoDup (map fst (mcpServers c)) ->
  merge (DEFAULT_CONFIG prompt) (as_user c) = c.
Proof.
  intros Hopt Hnd. destruct c as [[m b o] servers [maxc sp]].
  unfold merge, as_user. cbn [ollama mcpServers agent user_ollama user_mcpServers
                              user_agent spread_ollama spread_agent spread_servers
                              over user_model user_baseUrl user_options
                              user_maxToolCalls user_systemPrompt DEFAULT_CONFIG
                              model baseUrl options] in *.
  rewrite spread_fresh; [|exact Hnd | intros k _ []].
  destruct o as [o|]; [reflexivity | congruence].
Qed.

Lemma merge_complete_config_witness :
  merge (DEFAULT_CONFIG "Be brief.")
        (as_user (mkConfig (mkOllamaConfig "qwen3:8b" "http://localhost:11434"
                                           (Some "{ num_ctx: 4096 }"))
                           sample_configs
                           (Agent.mkAgentConfig (JS.of_Z 15) "...")))
  = mkConfig (mkOllamaConfig "qwen3:8b" "http://localhost:11434"
                             (Some "{ num_ctx: 4096 }"))
             sample_configs
             (Agent.mkAgentConfig (JS.of_Z 15) "...").
Proof.
  refine (merge_complete_config "Be brief." _ _ _).
  - discriminate.
  - repeat constructor; cbn; intuition discriminate.
Defined.

(** *** The vault path *)

Lemma length_removelast {A} (l : list A) :
  List.length (removelast l) = Nat.pred (List.length l).
Proof.
  induction l as [|x l IH]; [reflexivity|].
  destruct l as [|y l]; [reflexivity|].
  cbn [removelast List.length Nat.pred] in *. now rewrite IH.
Qed.

(** X24.  Switching the vault replaces the last argument of the
    "obsidian" server and nothing else: with at least two arguments
    configured, [extractVaultPath] afterwards gives the new path, the other
    arguments, the command and the environment are kept.  With fewer than two
    arguments [extractVaultPath] gives nothing before and nothing after: a
    single argument (the server script) is overwritten by the path. *)
Theorem vault_path_round_trip (servers : list (string * MCPServerConfig))
        (obsidian : MCPServerConfig) (newPath : string) :
  servers_get servers "obsidian" = Some obsidian ->
  let servers' := createMCPConfigWithPath servers newPath in
  servers_get servers' "obsidian"
  = Some (mkMCPServerConfig (command obsidian)
                            (removelast (args obsidian) ++ [newPath])
                            (env obsidian))
  /\ extractVaultPath servers'
     = (if 1 <? Z.of_nat (List.length (args obsidian)) then Some newPath else None)
  /\ (extractVaultPath servers = None -> extractVaultPath servers' = None).
Proof.
  intros Hget. cbv zeta. unfold createMCPConfigWithPath. rewrite Hget.
  assert (H1 : servers_get (servers_set servers "obsidian"
                 (mkMCPServerConfig (command obsidian)
                    (removelast (args obsidian) ++ [newPath]) (env obsidian)))
                 "obsidian"
               = Some (mkMCPServerConfig (command obsidian)
                         (removelast (args obsidian) ++ [newPath]) (env obsidian)))
    by apply servers_get_set_same.
  assert (H2 : extractVaultPath (servers_set servers "obsidian"
                 (mkMCPServerConfig (command obsidian)
                    (removelast (args obsidian) ++ [newPath]) (env obsidian)))
               = (if 1 <? Z.of_nat (List.length (args obsidian))
                  then Some newPath else None)).
  { unfold extractVaultPath. rewrite H1. cbn [args].
    rewrite length_app, length_removelast, last_last. cbn [List.length].
    destruct (args obsidian) as [|x [|y l]]; cbn [List.length Nat.pred];
      try reflexivity.
    replace (S (List.length l) + 1)%nat with (S (S (List.length l))) by lia.
    reflexivity. }
  split; [exact H1|]. split; [exact H2|].
  rewrite H2. unfold extractVaultPath. rewrite Hget.
  destruct (1 <? _); [discriminate | reflexivity].
Qed.

Lemma vault_path_round_trip_witness :
  let servers' := createMCPConfigWithPath sample_configs "/notes" in
  servers_get servers' "obsidian"
  = Some (mkMCPServerConfig "node" (removelast ["server.js"; "/vault"] ++ ["/notes"]) None)
  /\ extractVaultPath servers'
     = (if 1 <? Z.of_nat (List.length ["server.js"; "/vault"])
        then Some "/notes" else None)
  /\ (extractVaultPath sample_configs = None -> extractVaultPath servers' = None).
Proof.
  exact (vault_path_round_trip sample_configs
           (mkMCPServerConfig "node" ["server.js"; "/vault"] None) "/notes" eq_refl).
Defined.

(** X25.  [createMCPConfigWithPath] keeps the server names and their
    order, leaves every server other than "obsidian" as it is, and returns the
    servers unchanged when there is no "obsidian" server. *)
Theorem vault_switch_frame (servers : list (string * MCPServerConfig))
        (newPath : string) :
  let servers' := createMCPConfigWithPath servers newPath in
  map fst servers' = map fst servers
  /\ (forall key, key <> "obsidian" -> servers_get servers' key = servers_get servers key)
  /\ (servers_get servers "obsidian" = None -> servers' = servers).
Proof.
  cbv zeta. unfold createMCPConfigWithPath.
  destruct (servers_get servers "obsidian") as [o|] eqn:Hget.
  - split; [|split].
    + apply servers_set_keys. congruence.
    + intros key Hne. now apply servers_get_set_other.
    + discriminate.
  - auto.
Qed.

Lemma vault_switch_frame_witness :
  let servers' := createMCPConfigWithPath sample_configs "/notes" in
  map fst servers' = map fst sample_configs
  /\ (forall key, key <> "obsidian" ->
      servers_get servers' key = servers_get sample_configs key)
  /\ (servers_get sample_configs "obsidian" = None -> servers' = sample_configs).
Proof.
  exact (vault_switch_frame sample_configs "/notes").
Defined.

End ConfigFacts.

(* ------------------------------------------------------------------------ *)
(** ** Properties of [checkModelAvailable] and [filterThinkingBlocks]       *)
(* ------------------------------------------------------------------------ *)

Module OllamaFacts.
Import OllamaMore.

Lemma startsWith_before_colon (s : string) :
  JS.startsWith s (before_colon s) = true.
Proof.
  induction s as [|c s IH]; [reflexivity|].
  cbn [before_colon]. destruct (Ascii.eqb c ":"); [reflexivity|].
  cbn [JS.startsWith]. now rewrite Ascii.eqb_refl, IH.
Qed.

(** X26.  [checkModelAvailable] depends on the configured model
    only through the part of its name before the first ":": it answers true
    exactly when some installed model's name begins with that part (the test
    for the exact name adds nothing), and false when the models cannot be
    listed.  So "qwen3:8b" counts as available when only "qwen3:14b" is
    installed. *)
Theorem available_by_base_name (listing : Agent.Exception + list string)
        (model : string) :
  checkModelAvailable listing model
  = match listing with
    | inl _ => false
    | inr names => existsb (fun n => JS.startsWith n (before_colon model)) names
    end.
Proof.
  destruct listing as [e|names]; [reflexivity|].
  cbn [checkModelAvailable]. induction names as [|n names IH]; [reflexivity|].
  cbn [existsb]. rewrite IH. f_equal.
  destruct (String.eqb n model) eqn:E; [|reflexivity].
  apply String.eqb_eq in E. subst n. cbn [orb].
  symmetry. apply startsWith_before_colon.
Qed.

(** *** [filterThinkingBlocks] *)

Lemma closes_cons (c : ascii) (s : string) :
  closes (String c s) = (literal_at "</think>" (String c s) || closes s)%bool.
Proof. reflexivity. Qed.

Lemma closes_tail (c : ascii) (s : string) :
  closes (String c s) = false -> closes s = false.
Proof.
  intros H. destruct s as [|d s].
  - reflexivity.
  - change (closes (String c (String d s)))
      with (literal_at "</think>" (String c (String d s)) || closes (String d s))%bool
      in H.
    apply orb_false_elim in H. apply H.
Qed.

Lemma closes_drop (n : nat) :
  forall s, closes s = false -> closes (drop n s) = false.
Proof.
  induction n as [|n IH]; intros s H; [destruct s; exact H|].
  destruct s as [|c s]; [reflexivity|].
  cbn [drop]. apply IH. now apply closes_tail in H.
Qed.

Lemma strip_without_close (s : string) :
  closes s = false -> strip Outside s = s.
Proof.
  induction s as [|c s IH]; intros H; [reflexivity|].
  pose proof (closes_drop 7 _ H) as Hd.
  change (strip Outside (String c s))
    with (if (literal_at "<think>" (String c s) && closes (drop 7 (String c s)))%bool
          then strip (Consume 6 Inside) s
          else String c (strip Outside s)).
  rewrite Hd, andb_false_r. f_equal. apply IH. now apply closes_tail in H.
Qed.

(** X27.  Text in which no "</think>" occurs (in any letter case)
    passes through [filterThinkingBlocks] untouched but for the final
    [trim()]: an opening "<think>" that is never closed is kept and shown. *)
Theorem unclosed_think_is_kept (content : string) :
  closes content = false ->
  filterThinkingBlocks content = JS.trim content.
Proof.
  intros H. unfold filterThinkingBlocks. now rewrite strip_without_close.
Qed.

Lemma unclosed_think_is_kept_witness :
  filterThinkingBlocks " <think>still thinking about </thin k> " =
  JS.trim " <think>still thinking about </thin k> ".
Proof.
  exact (unclosed_think_is_kept " <think>still thinking about </thin k> " eq_refl).
Defined.

Lemma lowerChar_not_lt (c : ascii) :
  Ascii.eqb c "<" = false -> matches_ci "<" c = false.
Proof.
  intros H. unfold matches_ci, JS.lowerChar.
  destruct (Nat.leb 65 (nat_of_ascii c) && Nat.leb (nat_of_ascii c) 90)%bool eqn:E.
  - apply andb_prop in E. destruct E as [E1 E2].
    apply Nat.leb_le in E1, E2.
    apply Ascii.eqb_neq. intros Heq.
    apply (f_equal nat_of_ascii) in Heq.
    rewrite nat_ascii_embedding in Heq by lia. cbn in Heq. lia.
  - rewrite Ascii.eqb_sym. exact H.
Qed.

Lemma strip_inside_cons (c : ascii) (s : string) :
  strip Inside (String c s)
  = if literal_at "</think>" (String c s)
    then strip (Consume 7 Trailing) s
    else strip Inside s.
Proof. reflexivity. Qed.

Lemma literal_close_cons (c : ascii) (s : string) :
  literal_at "</think>" (String c s)
  = (matches_ci "<" c && literal_at "/think>" s)%bool.
Proof. reflexivity. Qed.

Lemma strip_inside_body (body rest : string) :
  lacks "<" body = true ->
  strip Inside (body ++ "</think>" ++ rest) = strip Trailing rest.
Proof.
  induction body as [|c body IH]; intros H.
  - reflexivity.
  - cbn [lacks] in H. apply andb_prop in H. destruct H as [H1 H2].
    apply negb_true_iff in H1.
    change ((String c body) ++ "</think>" ++ rest)
      with (String c (body ++ "</think>" ++ rest)).
    rewrite strip_inside_cons, literal_close_cons, (lowerChar_not_lt c H1).
    cbn [andb]. apply IH, H2.
Qed.

Lemma strip_trailing (s : string) :
  strip Trailing s = strip Outside (JS.trimStart s).
Proof.
  induction s as [|c s IH]; [reflexivity|].
  cbn [JS.trimStart].
  change (strip Trailing (String c s))
    with (if JS.isWhiteSpace c then strip Trailing s
          else strip Outside (String c s)).
  destruct (JS.isWhiteSpace c); [exact IH | reflexivity].
Qed.

Lemma closes_after_body (body rest : string) :
  closes (body ++ "</think>" ++ rest) = true.
Proof.
  induction body as [|c body IH].
  - destruct rest; reflexivity.
  - change ((String c body) ++ "</think>" ++ rest)
      with (String c (body ++ "</think>" ++ rest)).
    rewrite closes_cons, IH. apply orb_true_r.
Qed.

Lemma closes_trimStart (s : string) :
  closes s = false -> closes (JS.trimStart s) = false.
Proof.
  induction s as [|c s IH]; intros H; [reflexivity|].
  cbn [JS.trimStart]. destruct (JS.isWhiteSpace c); [|exact H].
  apply IH. now apply closes_tail in H.
Qed.

(** X28.  A reply that opens with a thinking block is reduced to what
    follows the block: for a block body without "<" and a remainder without
    "</think>", the block, the white space after it and the outer white space
    are removed and nothing else. *)
Theorem leading_block_removed (body rest : string) :
  lacks "<" body = true ->
  closes rest = false ->
  filterThinkingBlocks ("<think>" ++ body ++ "</think>" ++ rest) = JS.trim rest.
Proof.
  intros Hbody Hrest. unfold filterThinkingBlocks.
  assert (H1 : strip Outside ("<think>" ++ body ++ "</think>" ++ rest)
               = strip Inside (body ++ "</think>" ++ rest)).
  { change ("<think>" ++ body ++ "</think>" ++ rest)
      with (String "<" ("think>" ++ body ++ "</think>" ++ rest)).
    change (strip Outside (String "<" ("think>" ++ body ++ "</think>" ++ rest)))
      with (if (literal_at "<think>" ("<think>" ++ body ++ "</think>" ++ rest)
                && closes (body ++ "</think>" ++ rest))%bool
            then strip Inside (body ++ "</think>" ++ rest)
            else String "<" (strip Outside ("think>" ++ body ++ "</think>" ++ rest))).
    rewrite closes_after_body. reflexivity. }
  rewrite H1, strip_inside_body by exact Hbody.
  rewrite strip_trailing, strip_without_close by (apply closes_trimStart, Hrest).
  unfold JS.trim. f_equal.
  apply InputExtra.trimStart_fixed, InputExtra.trimStart_head.
Qed.

Lemma leading_block_removed_witness :
  filterThinkingBlocks ("<think>" ++ "The user greets me." ++ "</think>" ++ "  Hello! ")
  = JS.trim "  Hello! ".
Proof.
  exact (leading_block_removed "The user greets me." "  Hello! " eq_refl eq_refl).
Defined.

End OllamaFacts.

(* ------------------------------------------------------------------------ *)
(** ** Further properties of the turn runner                                *)
(* ------------------------------------------------------------------------ *)

Module RunnerExtra.
Import Runner RunnerSpec.

Lemma handleKey_keeps_waiting (s : Input.InputState) (key : string) :
  Input.waiting (fst (Input.handleKey s key)) = Input.waiting s.
Proof.
  assert (Hm : forall s0 k code,
             Input.waiting (fst (Input.main_block s0 k code)) = Input.waiting s0).
  { intros s0 k code. unfold Input.main_block.
    repeat InputExtra.split_cond; reflexivity. }
  unfold Input.handleKey.
  destruct (JS.code_is _ 3); [reflexivity|].
  destruct (Input.waiting s) eqn:Hw; [exact Hw|].
  unfold Input.shortcuts_block.
  destruct (Input.panelVisible s) as [[]|] eqn:Hp.
  - destruct (_ || _)%bool; [exact Hw|].
    unfold Input.commands_block. cbn [Input.panelVisible Input.set_panel].
    rewrite Hm. exact Hw.
  - unfold Input.commands_block. rewrite Hp.
    repeat InputExtra.split_cond; cbn [fst]; try exact Hw.
    rewrite Hm. exact Hw.
  - unfold Input.commands_block. rewrite Hp. rewrite Hm. exact Hw.
Qed.

Lemma turn_ok_step (t : Turn) (e : Event) : turn_ok t -> turn_ok (step t e).
Proof.
  destruct t as [h c [ab] tr el lr o]. unfold turn_ok.
  cbn [signal aborted cancelled outcome handler escape_listeners listener_removals
       timer_running].
  intros [Ha Ho]. subst ab.
  destruct e as [key | | | response | error]; cbn [step].
  - cbn [signal aborted cancelled outcome handler escape_listeners listener_removals
         timer_running].
    pose proof (handleKey_keeps_waiting h key) as Hk.
    revert Hk. generalize (fst (Input.handleKey h key)). intros h' Hk.
    unfold escapeHandler.
    cbn [signal aborted cancelled outcome handler escape_listeners listener_removals
         timer_running].
    destruct o as [[r | | err]|];
      [destruct Ho as (Hw & -> & -> & ->)
      |destruct Ho as (Hw & -> & -> & -> & ->)
      |destruct Ho as (Hw & -> & -> & ->)
      |destruct Ho as (Hw & -> & -> & ->)];
      cbn [Nat.ltb Nat.leb];
      try destruct (String.eqb key Input.key_escape);
      cbn [signal aborted cancelled outcome handler escape_listeners listener_removals
           timer_running negb];
      rewrite Hk; repeat split; auto.
  - cbn [signal aborted cancelled outcome handler escape_listeners listener_removals
         timer_running]. auto.
  - destruct o as [o|].
    + cbn [signal aborted cancelled outcome handler escape_listeners listener_removals
           timer_running]. auto.
    + destruct c; unfold cleanup;
        cbn [signal aborted cancelled outcome handler escape_listeners
             listener_removals timer_running Input.setWaiting Input.waiting];
        [|auto].
      destruct Ho as (Hw & -> & -> & Ht). repeat split; reflexivity.
  - destruct o as [o|].
    + cbn [signal aborted cancelled outcome handler escape_listeners listener_removals
           timer_running]. auto.
    + unfold cleanup.
      cbn [signal aborted cancelled outcome handler escape_listeners
           listener_removals timer_running Input.setWaiting Input.waiting].
      destruct Ho as (Hw & -> & -> & Ht). repeat split; reflexivity.
  - destruct o as [o|].
    + cbn [signal aborted cancelled outcome handler escape_listeners listener_removals
           timer_running]. auto.
    + unfold catch_block.
      cbn [signal aborted cancelled outcome handler escape_listeners
           listener_removals timer_running Input.setWaiting Input.waiting].
      destruct Ho as (Hw & -> & -> & Ht). repeat split; auto.
Qed.


Lemma outcome_step_final (t : Turn) (e : Event) (o : Outcome) :
  outcome t = Some o -> outcome (step t e) = Some o.
Proof.
  intros H. destruct e as [key | | | response | error]; cbn [step].
  - cbn [escape_listeners].
    destruct (Nat.ltb 0 (escape_listeners t)); [|exact H].
    unfold escapeHandler. destruct (String.eqb key Input.key_escape); exact H.
  - exact H.
  - now rewrite H.
  - now rewrite H.
  - now rewrite H.
Qed.

(** X30.  The first settlement of a turn is final: once the turn has
    ended as a response, as cancelled or in the [catch] block, no later event
    changes that; the agent's answer arriving after a cancellation is
    discarded, and so is an Escape pressed after the answer. *)
Theorem outcome_is_final (t : Turn) (events : list Event) (o : Outcome) :
  outcome t = Some o -> outcome (run t events) = Some o.
Proof.
  revert t. unfold run. induction events as [|e events IH]; intros t H; [exact H|].
  cbn [fold_left]. apply IH, outcome_step_final, H.
Qed.

Lemma outcome_is_final_witness :
  outcome (run (run (begin_turn (Input.constructor true)) [KeyData Input.key_escape; Poll])
               [ChatResolved (Agent.mkAgentResponse "hello" []); KeyData "x"])
  = Some Cancelled.
Proof.
  exact (outcome_is_final
           (run (begin_turn (Input.constructor true)) [KeyData Input.key_escape; Poll])
           [ChatResolved (Agent.mkAgentResponse "hello" []); KeyData "x"]
           Cancelled eq_refl).
Defined.

End RunnerExtra.
